(** * The monitoring and alerting engine of [services/monitor_service.py]

    A shallow embedding of the [MonitorService] class: the health evaluator
    ([assess_overall_health]), the threshold alert engine
    ([check_health_thresholds], [create_alert]), the broadcast hub
    ([add_websocket_client], [remove_websocket_client],
    [broadcast_health_update]) and the lifecycle control
    ([start_monitoring]).

    Conventions.
    - A Python dictionary with string keys is a [gmap string _]; the
      subscriber dictionary, whose iteration order is observable, is an
      insertion-ordered association list.
    - Python values stored in a health bundle are [pyvalue]s; a number
      (int or finite float) is the rational it denotes, which is exact for
      the comparisons the engine makes; where an int is turned into a float
      (the format code [f]) the conversion is written out.
    - A raised exception is the [Raise] case of [pyresult].
    - A [datetime] is a number of microseconds (the resolution of Python's
      [datetime]) and every reading of [datetime.utcnow()] is an explicit
      argument of the function that takes it.
    - The table of alerts is the list of its rows in insertion order; a row
      is named by its position, which no operation of the engine changes. *)

From Stdlib Require Import QArith.
From stdpp Require Import gmap strings pretty list fin_maps.

Set Default Proof Using "Type".
Local Open Scope Z_scope.

(** ** Python values and exceptions *)

#[warnings="-register-all"]
Inductive pyvalue : Type :=
  | PyNone
  | PyBool (b : bool)
  | PyNum (q : Q)
  | PyStr (s : string)
  | PyList (l : list pyvalue)
  | PyDict (d : gmap string pyvalue).

Inductive pyexn : Type :=
  | AttributeError
  | TypeError
  | ValueError
  | OverflowError
  | KeyError.

Inductive pyresult (A : Type) : Type :=
  | Ok (a : A)
  | Raise (e : pyexn).
Arguments Ok {A} a.
Arguments Raise {A} e.

#[global] Instance pyresult_ret : MRet pyresult := λ A a, Ok a.
#[global] Instance pyresult_bind : MBind pyresult := λ A B f m,
  match m with
  | Ok a => f a
  | Raise e => Raise e
  end.

(** [d.get(k, dflt)] on a value known to be a dictionary. *)
Definition dict_get (m : gmap string pyvalue) (k : string) (dflt : pyvalue)
  : pyvalue :=
  default dflt (m !! k).

(** [d.get(k, dflt)]: only dictionaries have the method. *)
Definition py_get (d : pyvalue) (k : string) (dflt : pyvalue) : pyresult pyvalue :=
  match d with
  | PyDict m => Ok (dict_get m k dflt)
  | _ => Raise AttributeError
  end.

(** [v == s] for a string literal [s]: never raises. *)
Definition py_eq_str (v : pyvalue) (s : string) : bool :=
  match v with
  | PyStr s' => bool_decide (s' = s)
  | _ => false
  end.

(** [a > b] on rationals. *)
Definition Qgtb (a b : Q) : bool := negb (Qle_bool a b).

(** [v > t] for a number [t]: numbers compare by value, [True] and [False]
    are the integers 1 and 0, anything else is a [TypeError]. *)
Definition py_gt (v : pyvalue) (t : Q) : pyresult bool :=
  match v with
  | PyNum q => Ok (Qgtb q t)
  | PyBool b => Ok (Qgtb (if b then 1%Q else 0%Q) t)
  | _ => Raise TypeError
  end.

(** [m[k]] on a dictionary of numbers. *)
Definition subscript (m : gmap string Q) (k : string) : pyresult Q :=
  match m !! k with
  | Some v => Ok v
  | None => Raise KeyError
  end.

(** [a or b] on conditions that may raise: [b] is evaluated only when [a] is
    false. *)
Definition py_or (a b : pyresult bool) : pyresult bool :=
  x ← a; if (x : bool) then Ok true else b.

(** ** The threshold table of [__init__] *)

Definition alert_thresholds : gmap string Q :=
  list_to_map
    [ ("cpu_critical"%string, 90%Q);
      ("cpu_warning"%string, 80%Q);
      ("memory_critical"%string, 95%Q);
      ("memory_warning"%string, 85%Q);
      ("disk_critical"%string, 95%Q);
      ("disk_warning"%string, 90%Q);
      ("response_time_critical"%string, 5000%Q);
      ("response_time_warning"%string, 2000%Q) ].

(** ** Health evaluator *)

Section Evaluator.
(** [self.alert_thresholds]. *)
Variable thresholds : gmap string Q.

(** [v > self.alert_thresholds[k]]. *)
Definition exceeds (v : pyvalue) (k : string) : pyresult bool :=
  t ← subscript thresholds k; py_gt v t.

Definition assess_overall_health (health_data : gmap string pyvalue)
  : pyresult string :=
  let checks := dict_get health_data "checks" (PyDict ∅) in
  ping ← py_get checks "ping" (PyDict ∅);
  ping_status ← py_get ping "status" PyNone;
  if py_eq_str ping_status "down" then Ok "critical"%string else
  let cpu_usage := dict_get health_data "cpu_usage" (PyNum 0) in
  let memory_usage := dict_get health_data "memory_usage" (PyNum 0) in
  let disk_usage := dict_get health_data "disk_usage" (PyNum 0) in
  critical ← py_or (exceeds cpu_usage "cpu_critical")
              (py_or (exceeds memory_usage "memory_critical")
                     (exceeds disk_usage "disk_critical"));
  if (critical : bool) then Ok "critical"%string else
  warning ← py_or (exceeds cpu_usage "cpu_warning")
             (py_or (exceeds memory_usage "memory_warning")
                    (exceeds disk_usage "disk_warning"));
  if (warning : bool) then Ok "warning"%string else
  let http_check := dict_get health_data "http_check" (PyDict ∅) in
  http_status ← py_get http_check "status" PyNone;
  if py_eq_str http_status "error" then Ok "warning"%string
  else Ok "healthy"%string.
End Evaluator.

(** ** Threshold alert engine *)

(** *** Message formatting *)

(** The number of tenths nearest to [q], ties to the even one: the rounding
    of the format specification [.1f]. *)
Definition round_tenths (q : Q) : Z :=
  let num := Qnum q * 10 in
  let den := Z.pos (Qden q) in
  let z := num `div` den in
  let r := num `mod` den in
  if 2 * r <? den then z
  else if den <? 2 * r then z + 1
  else if Z.even z then z else z + 1.

(** [f'{q:.1f}'] for a number. *)
Definition format_1f (q : Q) : string :=
  let t := Z.abs (round_tenths q) in
  let sign := if Qnum q <? 0 then "-"%string else ""%string in
  sign +:+ pretty (t `div` 10) +:+ "." +:+ pretty (t `mod` 10).

(** [float(z)] for an int [z]: the binary64 number nearest to [z], ties to
    the even significand, given by its exact value; [None] when it is beyond
    the range of the floats ([OverflowError]). *)
Definition float_of_int (z : Z) : option Z :=
  let n := Z.abs z in
  if n <? 2 ^ 53 then Some z
  else
    let e := Z.log2 n - 52 in
    let m := n `div` 2 ^ e in
    let r := n `mod` 2 ^ e in
    let half := 2 ^ (e - 1) in
    let m' := if half <? r then m + 1
              else if r <? half then m
              else if Z.even m then m else m + 1 in
    let f := m' * 2 ^ e in
    if 2 ^ 1024 <=? f then None else Some (Z.sgn z * f).

(** The float that the format code [f] prints for a number of value [q]: a
    float is printed as it is and an int is converted to a float first. A
    number whose value is not an integer is a float; one whose value is an
    integer is an int, or a float that the conversion leaves as it is. *)
Definition to_float (q : Q) : option Q :=
  if Qnum q `mod` Z.pos (Qden q) =? 0
  then inject_Z <$> float_of_int (Qnum q `div` Z.pos (Qden q))
  else Some q.

(** [f'{v:.1f}']: defined on numbers and booleans; an int beyond the range
    of the floats raises [OverflowError], a string rejects the format code,
    the other values reject any format specification. *)
Definition py_format_1f (v : pyvalue) : pyresult string :=
  match v with
  | PyNum q =>
      match to_float q with
      | Some f => Ok (format_1f f)
      | None => Raise OverflowError
      end
  | PyBool b => Ok (format_1f (if b then 1%Q else 0%Q))
  | PyStr _ => Raise ValueError
  | _ => Raise TypeError
  end.

(** *** Violations of one bundle *)

(** An entry of the local list [alerts_to_create]. *)
Record alert_data : Type := AlertData {
  ad_severity : string;
  ad_message : string;
  ad_metric : string;
  ad_value : pyvalue
}.

Section Thresholds.
Variable thresholds : gmap string Q.

(** One [if ... elif ...] block of [check_health_thresholds]: the entries it
    appends for the metric [metric], whose messages start with [label] and
    whose limits are [crit_key] and [warn_key]. *)
Definition threshold_check (label metric crit_key warn_key : string)
    (usage : pyvalue) : pyresult (list alert_data) :=
  critical ← exceeds thresholds usage crit_key;
  if (critical : bool) then
    text ← py_format_1f usage;
    Ok [AlertData "critical" (label +:+ " usage critical: " +:+ text +:+ "%")
                  metric usage]
  else
    warning ← exceeds thresholds usage warn_key;
    if (warning : bool) then
      text ← py_format_1f usage;
      Ok [AlertData "warning" (label +:+ " usage high: " +:+ text +:+ "%")
                    metric usage]
    else Ok [].

(** The list [alerts_to_create] when the loop over it starts. *)
Definition alerts_to_create (health_data : gmap string pyvalue)
  : pyresult (list alert_data) :=
  let cpu_usage := dict_get health_data "cpu_usage" (PyNum 0) in
  cpu ← threshold_check "CPU" "cpu_usage" "cpu_critical" "cpu_warning" cpu_usage;
  let memory_usage := dict_get health_data "memory_usage" (PyNum 0) in
  memory ← threshold_check "Memory" "memory_usage" "memory_critical"
                           "memory_warning" memory_usage;
  let disk_usage := dict_get health_data "disk_usage" (PyNum 0) in
  disk ← threshold_check "Disk" "disk_usage" "disk_critical" "disk_warning"
                         disk_usage;
  Ok (cpu ++ memory ++ disk).
End Thresholds.

(** *** Alerts and deduplication *)

(** A row of the alert table, with the columns [create_alert] reads or
    writes. *)
Record Alert : Type := mkAlert {
  server_id : Z;
  severity : string;
  message : string;
  status : string;
  metric : pyvalue;
  value : pyvalue;
  count : Z;
  created_at : Z;
  updated_at : option Z
}.

(** [timedelta(minutes=10)], in microseconds. *)
Definition dedup_window : Z := 10 * 60 * 1000000.

(** The filter of the query in [create_alert], read at the time [now]. *)
Definition is_duplicate (sid : Z) (msg : string) (now : Z) (a : Alert) : Prop :=
  server_id a = sid ∧ message a = msg ∧ status a = "active"%string
  ∧ now - dedup_window ≤ created_at a.

#[global] Instance is_duplicate_dec sid msg now a :
  Decision (is_duplicate sid msg now a).
Proof. unfold is_duplicate. apply _. Defined.

(** [db.query(Alert).filter(...).first()]: the first row, in insertion
    order, that passes the filter, with its position. *)
Definition existing_alert (db : list Alert) (sid : Z) (msg : string) (now : Z)
  : option (nat * Alert) :=
  list_find (is_duplicate sid msg now) db.

Section CreateAlert.
(** The value of the [updated_at] column of a row inserted without one:
    [create_alert] does not pass it to the constructor, and the model class
    that declares the column is not among the sources. *)
Variable updated_at_default : option Z.

(** [create_alert(server_id, severity, message, db, **kwargs)]: the table
    after the call and the alert returned. [now1] is the clock reading of
    the query, [now2] the one stored in the row. *)
Definition create_alert (db : list Alert) (sid : Z) (sev msg : string)
    (kwargs : gmap string pyvalue) (now1 now2 : Z) : list Alert * Alert :=
  match existing_alert db sid msg now1 with
  | Some (i, a) =>
      let a' := mkAlert (server_id a) (severity a) (message a) (status a)
                        (metric a) (value a) (count a + 1) (created_at a)
                        (Some now2) in
      (<[i := a']> db, a')
  | None =>
      let new_alert := mkAlert sid sev msg "active"
                               (dict_get kwargs "metric" PyNone)
                               (dict_get kwargs "value" PyNone)
                               1 now2 updated_at_default in
      (db ++ [new_alert], new_alert)
  end.

(** The loop [for alert_data in alerts_to_create] of
    [check_health_thresholds]; [utcnow k] is the [k]-th clock reading taken
    from its start. *)
Fixpoint create_alerts (db : list Alert) (sid : Z) (l : list alert_data)
    (utcnow : nat → Z) : list Alert :=
  match l with
  | [] => db
  | ad :: l' =>
      let kwargs : gmap string pyvalue :=
        <["value"%string := ad_value ad]>
          (<["metric"%string := PyStr (ad_metric ad)]> ∅) in
      let db' := (create_alert db sid (ad_severity ad) (ad_message ad) kwargs
                               (utcnow 0%nat) (utcnow 1%nat)).1 in
      create_alerts db' sid l' (λ k, utcnow (2 + k)%nat)
  end.

(** [check_health_thresholds(server, health_data, db)], for the server
    whose id is [sid]: the table after the call. *)
Definition check_health_thresholds (thresholds : gmap string Q) (sid : Z)
    (health_data : gmap string pyvalue) (db : list Alert) (utcnow : nat → Z)
  : pyresult (list Alert) :=
  l ← alerts_to_create thresholds health_data;
  Ok (create_alerts db sid l utcnow).
End CreateAlert.

(** ** Broadcast hub and lifecycle *)

(** The dictionary [update_message] of [broadcast_health_update]. *)
Record update_message : Type := UpdateMessage {
  um_type : string;
  um_server_id : Z;
  um_data : gmap string pyvalue;
  um_timestamp : Z
}.

(** The four loops [start_monitoring] hands to [asyncio.create_task]. *)
Inductive task : Type :=
  | health_check_loop
  | performance_monitoring_loop
  | service_monitoring_loop
  | network_monitoring_loop.

(** What the hub and the lifecycle control do to the outside, in order:
    [Send c text ok] is [send_text(text)] on the handle of client [c], which
    returned ([ok = true]) or raised; [Disconnect c] is the removal of [c]
    from [websocket_clients]; [CreateTask t] is [asyncio.create_task]. *)
Inductive action : Type :=
  | Send (client_id : string) (text : string) (ok : bool)
  | Disconnect (client_id : string)
  | CreateTask (t : task)
  | LogInfo (line : string).

Section Engine.
(** A connection handle, and whether [send_text] on it returns. *)
Variable websocket : Type.
Variable send_text : websocket → string → bool.
(** [json.dumps] on an update message. *)
Variable json_dumps : update_message → string.

(** The attributes of a [MonitorService]; [websocket_clients] lists the
    dictionary's items in insertion order. *)
Record MonitorService : Type := mkService {
  monitoring_active : bool;
  check_intervals : gmap string Z;
  websocket_clients : list (string * websocket);
  service_thresholds : gmap string Q
}.

(** [__init__]. *)
Definition init : MonitorService :=
  mkService false
    (list_to_map [ ("health_check"%string, 60); ("performance"%string, 300);
                   ("service_check"%string, 120); ("network_check"%string, 180) ])
    [] alert_thresholds.

(** [start_monitoring]. *)
Definition start_monitoring (self : MonitorService)
  : MonitorService * list action :=
  if monitoring_active self then (self, [])
  else
    (mkService true (check_intervals self) (websocket_clients self)
               (service_thresholds self),
     [ LogInfo "Starting system monitoring...";
       CreateTask health_check_loop;
       CreateTask performance_monitoring_loop;
       CreateTask service_monitoring_loop;
       CreateTask network_monitoring_loop;
       LogInfo "All monitoring tasks started" ]).

(** [self.websocket_clients[client_id] = websocket]: a known key keeps its
    place and takes the new handle, a new key goes last. *)
Fixpoint add_websocket_client (client_id : string) (ws : websocket)
    (clients : list (string * websocket)) : list (string * websocket) :=
  match clients with
  | [] => [(client_id, ws)]
  | (c, w) :: rest =>
      if decide (c = client_id) then (c, ws) :: rest
      else (c, w) :: add_websocket_client client_id ws rest
  end.

(** [remove_websocket_client]: the dictionary without [client_id], and
    whether the key was there. *)
Definition remove_websocket_client (client_id : string)
    (clients : list (string * websocket))
  : list (string * websocket) * list action :=
  if decide (client_id ∈ clients.*1) then
    (filter (λ p, p.1 ≠ client_id) clients, [Disconnect client_id])
  else (clients, []).

(** The loop [for client_id, websocket in self.websocket_clients.items()]:
    the sends made and the list [disconnected_clients] at its end. *)
Fixpoint fan_out (items : list (string * websocket)) (text : string)
  : list action * list string :=
  match items with
  | [] => ([], [])
  | (client_id, ws) :: rest =>
      let ok := send_text ws text in
      let '(sends, disconnected_clients) := fan_out rest text in
      (Send client_id text ok :: sends,
       if ok then disconnected_clients else client_id :: disconnected_clients)
  end.

(** The loop [for client_id in disconnected_clients]. *)
Fixpoint clean_up (disconnected_clients : list string)
    (clients : list (string * websocket))
  : list (string * websocket) * list action :=
  match disconnected_clients with
  | [] => (clients, [])
  | client_id :: rest =>
      let '(clients', removed) := remove_websocket_client client_id clients in
      let '(clients'', removed') := clean_up rest clients' in
      (clients'', removed ++ removed')
  end.

(** [broadcast_health_update(server_id, health_data)] on the subscriber
    dictionary [clients]; [now] is its clock reading. *)
Definition broadcast_health_update (clients : list (string * websocket))
    (sid : Z) (health_data : gmap string pyvalue) (now : Z)
  : list (string * websocket) * list action :=
  match clients with
  | [] => (clients, [])
  | _ =>
      let text := json_dumps (UpdateMessage "health_update" sid health_data now) in
      let '(sends, disconnected_clients) := fan_out clients text in
      let '(clients', removed) := clean_up disconnected_clients clients in
      (clients', sends ++ removed)
  end.
End Engine.

(** ** Collecting a bundle *)

(** The columns of a server the engine reads. *)
Record Server : Type := mkServer {
  srv_id : Z;
  srv_hostname : string;
  srv_ip_address : string;
  srv_server_type : string
}.

(** What a call to the outside came to: it returned, or it raised an
    exception [e] with the given [str(e)]. *)
Inductive attempt (A : Type) : Type :=
  | Done (a : A)
  | Threw (text : string).
Arguments Done {A} a.
Arguments Threw {A} text.

(** [ping3.ping]: a delay in seconds, [None] on a timeout, [False] on an
    error, or an exception. *)
Inductive ping_attempt : Type :=
  | PingDelay (seconds : Q)
  | PingNone
  | PingFalse
  | PingThrew (text : string).

(** [requests.get]: a response with its status code and the number
    [response.elapsed.total_seconds() * 1000], a [RequestException], or
    another exception. *)
Inductive http_attempt : Type :=
  | HttpResponse (status_code : Z) (elapsed_ms : Q)
  | HttpRequestException (text : string)
  | HttpOtherException (text : string).

(** [socket.gethostbyname]: it resolved, raised [gaierror], or raised
    another exception. *)
Inductive dns_attempt : Type :=
  | Resolved
  | GaiError
  | DnsOtherException (text : string).

(** The answers of the network to the probes of one remote check:
    [connect port] is what the body of the [try] for that port came to, with
    the result of [connect_ex] when nothing raised. *)
Record remote_probes : Type := mkProbes {
  connect : Z → attempt Z;
  http_get : http_attempt;
  gethostbyname : dns_attempt
}.

Definition common_ports : list Z := [22; 80; 443; 3306; 5432].

(** The loop [for port in common_ports]: the dictionary
    [metrics['port_checks']] at its end. *)
Definition port_checks (probes : remote_probes) : gmap string pyvalue :=
  foldl (λ checks port,
           <[("port_" +:+ pretty port)%string :=
               PyStr match connect probes port with
                     | Done result => if result =? 0 then "open" else "closed"
                     | Threw e => "error: " +:+ e
                     end]> checks)
        ∅ common_ports.

(** [get_remote_server_metrics(server)]. *)
Definition get_remote_server_metrics (server : Server) (probes : remote_probes)
  : gmap string pyvalue :=
  let metrics : gmap string pyvalue :=
    {[ "port_checks"%string := PyDict (port_checks probes) ]} in
  let after_http : attempt (gmap string pyvalue) :=
    if bool_decide (srv_server_type server
                    ∈ ["web"%string; "api"%string; "application"%string])
    then
      match http_get probes with
      | HttpResponse status_code elapsed_ms =>
          Done (<["http_check"%string :=
                    PyDict (<["status_code"%string := PyNum (inject_Z status_code)]>
                           (<["response_time"%string := PyNum elapsed_ms]>
                           (<["status"%string :=
                                PyStr (if status_code =? 200 then "healthy"
                                       else "unhealthy")]> ∅)))]> metrics)
      | HttpRequestException e =>
          Done (<["http_check"%string :=
                    PyDict (<["status"%string := PyStr "error"]>
                           (<["error"%string := PyStr e]> ∅))]> metrics)
      | HttpOtherException e => Threw e
      end
    else Done metrics in
  match after_http with
  | Threw e => <["error"%string := PyStr e]> metrics
  | Done metrics' =>
      match gethostbyname probes with
      | Resolved => <["dns_resolution"%string := PyStr "success"]> metrics'
      | GaiError => <["dns_resolution"%string := PyStr "failed"]> metrics'
      | DnsOtherException e => <["error"%string := PyStr e]> metrics'
      end
  end.

(** [server.hostname == 'localhost' or server.ip_address in ['127.0.0.1',
    'localhost']]. *)
Definition is_local (server : Server) : bool :=
  bool_decide (srv_hostname server = "localhost"%string)
  || bool_decide (srv_ip_address server ∈ ["127.0.0.1"%string; "localhost"%string]).

(** The truth value of what [ping3.ping] returned. *)
Definition ping_truthy (ping : ping_attempt) : bool :=
  match ping with
  | PingDelay seconds => negb (Qeq_bool seconds 0)
  | _ => false
  end.

Section RunHealthCheck.
Variable thresholds : gmap string Q.
(** [datetime.isoformat]. *)
Variable isoformat : Z → string.
(** The float product [ping_time * 1000]. *)
Variable times_1000 : Q → Q.
(** [str(e)] for an exception raised by the evaluator. *)
Variable exn_text : pyexn → string.

(** The [except] branch of [run_health_check], entered with the bundle as
    it is at that point. *)
Definition health_check_failed (health_data : gmap string pyvalue)
    (text : string) : pyresult (gmap string pyvalue) :=
  match health_data !! "checks"%string with
  | Some (PyDict checks) =>
      Ok (<["overall_status"%string := PyStr "unhealthy"]>
         (<["checks"%string := PyDict (<["error"%string := PyStr text]> checks)]>
            health_data))
  | Some _ => Raise TypeError
  | None => Raise KeyError
  end.

(** [run_health_check(server)]: [now] is the clock reading, [ping] the
    outcome of the ping, [local_metrics] what [get_local_server_metrics]
    returns and [probes] the answers to the remote probes. *)
Definition run_health_check (server : Server) (now : Z) (ping : ping_attempt)
    (local_metrics : gmap string pyvalue) (probes : remote_probes)
  : pyresult (gmap string pyvalue) :=
  let health_data : gmap string pyvalue :=
    <["server_id"%string := PyNum (inject_Z (srv_id server))]>
    (<["hostname"%string := PyStr (srv_hostname server)]>
    (<["timestamp"%string := PyStr (isoformat now)]>
    (<["checks"%string := PyDict ∅]> ∅))) in
  match ping with
  | PingThrew e => health_check_failed health_data e
  | _ =>
      let ping_entry : gmap string pyvalue :=
        <["status"%string := PyStr (if ping_truthy ping then "up" else "down")]>
        (<["response_time"%string :=
             match ping with
             | PingDelay seconds =>
                 if ping_truthy ping then PyNum (times_1000 seconds) else PyNone
             | _ => PyNone
             end]> ∅) in
      let health_data :=
        <["checks"%string := PyDict {[ "ping"%string := PyDict ping_entry ]}]>
          health_data in
      let metrics :=
        if is_local server then local_metrics
        else get_remote_server_metrics server probes in
      let health_data := metrics ∪ health_data in
      match assess_overall_health thresholds health_data with
      | Ok verdict => Ok (<["overall_status"%string := PyStr verdict]> health_data)
      | Raise e => health_check_failed health_data (exn_text e)
      end
  end.
End RunHealthCheck.

(** ** Storing a bundle *)

(** A row of the health check table. *)
Record HealthCheck : Type := mkHealthCheck {
  hc_server_id : Z;
  hc_cpu_usage : pyvalue;
  hc_memory_usage : pyvalue;
  hc_disk_usage : pyvalue;
  hc_network_latency : pyvalue;
  hc_uptime : pyvalue;
  hc_status : pyvalue;
  hc_raw_data : option (gmap string pyvalue);
  hc_checked_at : Z
}.

(** [store_health_check(server_id, health_data, db)]: the table of health
    checks after the call; [now] is the clock reading. *)
Definition store_health_check (sid : Z) (health_data : gmap string pyvalue)
    (checks_table : list HealthCheck) (now : Z) : pyresult (list HealthCheck) :=
  let cpu_usage := dict_get health_data "cpu_usage" PyNone in
  let memory_usage := dict_get health_data "memory_usage" PyNone in
  let disk_usage := dict_get health_data "disk_usage" PyNone in
  ping ← py_get (dict_get health_data "checks" (PyDict ∅)) "ping" (PyDict ∅);
  network_latency ← py_get ping "response_time" PyNone;
  let uptime := dict_get health_data "uptime" PyNone in
  let status := dict_get health_data "overall_status" (PyStr "unknown") in
  Ok (checks_table ++ [mkHealthCheck sid cpu_usage memory_usage disk_usage
                                     network_latency uptime status
                                     (Some health_data) now]).

(** [m[k]] on a bundle. *)
Definition item (m : gmap string pyvalue) (k : string) : pyresult pyvalue :=
  match m !! k with
  | Some v => Ok v
  | None => Raise KeyError
  end.

(** The row the handler [get_server_health] of [Backend/main.py] builds from
    the bundle [run_health_check] gave it. *)
Definition get_server_health_row (sid : Z) (health_data : gmap string pyvalue)
    (now : Z) : pyresult HealthCheck :=
  cpu_usage ← item health_data "cpu_usage";
  memory_usage ← item health_data "memory_usage";
  disk_usage ← item health_data "disk_usage";
  network_latency ← item health_data "network_latency";
  uptime ← item health_data "uptime";
  status ← item health_data "overall_status";
  Ok (mkHealthCheck sid cpu_usage memory_usage disk_usage network_latency
                    uptime status None now).

(** * Vocabulary of the statements *)

(** A reachable host that reports its three usages. *)
Definition bundle (ping_status : string) (cpu memory disk : Q)
  : gmap string pyvalue :=
  <["checks"%string :=
      PyDict {[ "ping"%string := PyDict {[ "status"%string := PyStr ping_status ]} ]}]>
  (<["cpu_usage"%string := PyNum cpu]>
  (<["memory_usage"%string := PyNum memory]>
  (<["disk_usage"%string := PyNum disk]> ∅))).

(** What [get_remote_server_metrics] contributes for a host that answers the
    ping: no usage at all. *)
Definition remote_bundle : gmap string pyvalue :=
  <["checks"%string :=
      PyDict {[ "ping"%string := PyDict {[ "status"%string := PyStr "up" ]} ]}]>
  (<["dns_resolution"%string := PyStr "success"]> ∅).

(** Bundles on which no operation of the evaluator raises: [checks] and its
    [ping] entry, and [http_check], are dictionaries when present, and the
    three usages are numbers when present. *)
Definition dict_or_absent (o : option pyvalue) : Prop :=
  match o with
  | None | Some (PyDict _) => True
  | _ => False
  end.

Definition number_or_absent (o : option pyvalue) : Prop :=
  match o with
  | None | Some (PyNum _) | Some (PyBool _) => True
  | _ => False
  end.

Definition well_formed (health_data : gmap string pyvalue) : Prop :=
  match health_data !! "checks"%string with
  | None => True
  | Some (PyDict checks) => dict_or_absent (checks !! "ping"%string)
  | _ => False
  end
  ∧ number_or_absent (health_data !! "cpu_usage"%string)
  ∧ number_or_absent (health_data !! "memory_usage"%string)
  ∧ number_or_absent (health_data !! "disk_usage"%string)
  ∧ dict_or_absent (health_data !! "http_check"%string).

(** Threshold tables that hold the six usage limits. *)
Definition has_limits (thresholds : gmap string Q) : Prop :=
  Forall (λ k, is_Some (thresholds !! k))
    [ "cpu_critical"%string; "cpu_warning"%string; "memory_critical"%string;
      "memory_warning"%string; "disk_critical"%string; "disk_warning"%string ].

(** The three usages the evaluator reads. *)
Definition usages : list string :=
  [ "cpu_usage"%string; "memory_usage"%string; "disk_usage"%string ].

(** The usages [check_health_thresholds] tracks, each with the key of its
    critical limit. *)
Definition tracked : list (string * string) :=
  [ ("cpu_usage"%string, "cpu_critical"%string);
    ("memory_usage"%string, "memory_critical"%string);
    ("disk_usage"%string, "disk_critical"%string) ].

(** The window of the specification's wording: an alert counts as recent
    when it was created or updated within the ten minutes before [now]. *)
Definition created_or_updated_within (now : Z) (a : Alert) : Prop :=
  now - dedup_window ≤ created_at a
  ∨ ∃ u, updated_at a = Some u ∧ now - dedup_window ≤ u.

(** One minute, in microseconds. *)
Definition minute : Z := 60 * 1000000.

(** The table after an alert for server 7 was raised at time 0 and raised
    again nine minutes later. *)
Definition raised_twice : list Alert :=
  (create_alert None
     (create_alert None [] 7 "critical" "CPU usage critical: 92.0%" ∅ 0 0).1
     7 "critical" "CPU usage critical: 92.0%" ∅ (9 * minute) (9 * minute)).1.

(** The arguments and clock readings of one call of [create_alert]. *)
Record call : Type := Call {
  c_server_id : Z;
  c_severity : string;
  c_message : string;
  c_kwargs : gmap string pyvalue;
  c_now1 : Z;
  c_now2 : Z
}.

Section Calls.
Variable updated_at_default : option Z.

Definition run_call (db : list Alert) (c : call) : list Alert * Alert :=
  create_alert updated_at_default db (c_server_id c) (c_severity c)
               (c_message c) (c_kwargs c) (c_now1 c) (c_now2 c).

(** The calls [cs] made one after the other from the table [db]: the table
    and the alert returned after each. *)
Fixpoint run_calls (db : list Alert) (cs : list call)
  : list (list Alert * Alert) :=
  match cs with
  | [] => []
  | c :: cs' => run_call db c :: run_calls (run_call db c).1 cs'
  end.

(** Whether the call [c], made from the table [db], finds its duplicate in
    row [i], that is, whether it is an update of that row. *)
Definition updates (i : nat) (db : list Alert) (c : call) : bool :=
  bool_decide
    (fst <$> existing_alert db (c_server_id c) (c_message c) (c_now1 c)
     = Some i).

(** For each call of [cs], made in turn from [db], whether it is an update
    of row [i]; the other calls update another row or add one. *)
Fixpoint updating (i : nat) (db : list Alert) (cs : list call) : list bool :=
  match cs with
  | [] => []
  | c :: cs' => updates i db c :: updating i (run_call db c).1 cs'
  end.
End Calls.

(** How many of the calls flagged in [bs] are updates. *)
Definition updates_among (bs : list bool) : Z :=
  Z.of_nat (length (filter (λ b : bool, b = true) bs)).

(** The clock does not run backwards from one call to the next. *)
Definition clock_monotone (cs : list call) : Prop :=
  ∀ j k cj ck, (j ≤ k)%nat → cs !! j = Some cj → cs !! k = Some ck →
               c_now2 cj ≤ c_now2 ck.

(** Three subscribers whose handles are modelled by whether a send on them
    returns; the second one is dead. *)
Definition three_clients : list (string * bool) :=
  [ ("a"%string, true); ("b"%string, false); ("c"%string, true) ].

(** The value [assess_overall_health] compares with ['down']:
    [health_data.get('checks', {}).get('ping', {}).get('status')]. *)
Definition ping_status_of (health_data : gmap string pyvalue) : pyresult pyvalue :=
  ping ← py_get (dict_get health_data "checks" (PyDict ∅)) "ping" (PyDict ∅);
  py_get ping "status" PyNone.

(** The value it compares with ['error']:
    [health_data.get('http_check', {}).get('status')]. *)
Definition http_status_of (health_data : gmap string pyvalue) : pyresult pyvalue :=
  py_get (dict_get health_data "http_check" (PyDict ∅)) "status" PyNone.

(** The three usages of a bundle are the numbers [cpu], [memory] and [disk],
    a missing one being read as 0. *)
Definition usages_are (health_data : gmap string pyvalue) (cpu memory disk : Q)
  : Prop :=
  dict_get health_data "cpu_usage" (PyNum 0) = PyNum cpu
  ∧ dict_get health_data "memory_usage" (PyNum 0) = PyNum memory
  ∧ dict_get health_data "disk_usage" (PyNum 0) = PyNum disk.

(** The three blocks of [check_health_thresholds]: the label that starts the
    message, the usage, and the keys of its critical and warning limits. *)
Definition tracked_blocks : list (string * string * string * string) :=
  [ ("CPU"%string, "cpu_usage"%string, "cpu_critical"%string, "cpu_warning"%string);
    ("Memory"%string, "memory_usage"%string, "memory_critical"%string,
     "memory_warning"%string);
    ("Disk"%string, "disk_usage"%string, "disk_critical"%string,
     "disk_warning"%string) ].

(** The rows [a] and [b] are the same alert as far as identity goes: every
    column but [count] and [updated_at] agrees. *)
Definition same_alert (a b : Alert) : Prop :=
  server_id a = server_id b ∧ severity a = severity b ∧ message a = message b
  ∧ status a = status b ∧ metric a = metric b ∧ value a = value b
  ∧ created_at a = created_at b.

(** At the time [now], no two rows of the table are active alerts for the
    same server and message both created within the window. *)
Definition one_per_window (now : Z) (db : list Alert) : Prop :=
  ∀ i j a b,
    db !! i = Some a → db !! j = Some b →
    is_duplicate (server_id a) (message a) now a →
    is_duplicate (server_id a) (message a) now b →
    i = j.

(** The tasks a list of actions creates, in order. *)
Definition created_tasks (actions : list action) : list task :=
  omap (λ a, match a with CreateTask t => Some t | _ => None end) actions.

(** The latency [run_health_check] records for a ping: the delay in
    milliseconds when the ping was answered, [None] otherwise. *)
Definition recorded_latency (times_1000 : Q → Q) (ping : ping_attempt) : pyvalue :=
  match ping with
  | PingDelay seconds =>
      if ping_truthy ping then PyNum (times_1000 seconds) else PyNone
  | _ => PyNone
  end.

(** The probes of a remote check in which every port accepts the
    connection, the HTTP request is answered with [status_code] and the name
    resolves. *)
Definition answering_probes (status_code : Z) : remote_probes :=
  mkProbes (λ _, Done 0) (HttpResponse status_code 12) Resolved.

(** A web server at a remote address. *)
Definition web_server : Server := mkServer 7 "web1" "10.0.0.5" "web".

(** A usage that the format code [f] can print: anything but an int
    beyond the range of the floats. *)
Definition formattable (o : option pyvalue) : Prop :=
  match o with
  | Some (PyNum q) => is_Some (to_float q)
  | _ => True
  end.

(** A table holding one warning raised for server 7 at time 0 when the CPU
    usage was 85. *)
Definition warned_before : list Alert :=
  (create_alert None [] 7 "warning" "CPU usage high: 85.0%"
     (<["value"%string := PyNum 85%Q]>
        {[ "metric"%string := PyStr "cpu_usage" ]}) 0 0).1.

(** The table [raised_twice] after the same violation came in again at
    minute 11, when the first alert had left the window: two rows for the
    same server and message. *)
Definition raised_again : list Alert :=
  (create_alert None raised_twice 7 "critical" "CPU usage critical: 92.0%" ∅
     (11 * minute) (11 * minute)).1.

(** * Properties *)

(** ** Evaluation on concrete bundles *)

Example format_92 : format_1f 92%Q = "92.0"%string.
Proof. vm_compute. reflexivity. Qed.

Example format_half_even : format_1f (9225 # 100) = "92.2"%string.
Proof. vm_compute. reflexivity. Qed.

Example assess_quiet :
  assess_overall_health alert_thresholds (bundle "up" 10 20 30) = Ok "healthy"%string.
Proof. vm_compute. reflexivity. Qed.

Example assess_unreachable_cpu_10 :
  assess_overall_health alert_thresholds (bundle "down" 10 20 30) = Ok "critical"%string.
Proof. vm_compute. reflexivity. Qed.

Example assess_cpu_85 :
  assess_overall_health alert_thresholds (bundle "up" 85 20 30) = Ok "warning"%string.
Proof. vm_compute. reflexivity. Qed.

Example assess_at_the_limit :
  assess_overall_health alert_thresholds (bundle "up" 80 85 90) = Ok "healthy"%string.
Proof. vm_compute. reflexivity. Qed.

Example assess_ill_typed :
  assess_overall_health alert_thresholds {[ "cpu_usage"%string := PyNone ]}
  = Raise TypeError.
Proof. vm_compute. reflexivity. Qed.

Example cpu_92 :
  alerts_to_create alert_thresholds (bundle "up" 92 20 30)
  = Ok [AlertData "critical" "CPU usage critical: 92.0%" "cpu_usage" (PyNum 92%Q)].
Proof. vm_compute. reflexivity. Qed.

Example cpu_85_disk_96 :
  alerts_to_create alert_thresholds (bundle "up" 85 20 96)
  = Ok [AlertData "warning" "CPU usage high: 85.0%" "cpu_usage" (PyNum 85%Q);
        AlertData "critical" "Disk usage critical: 96.0%" "disk_usage" (PyNum 96%Q)].
Proof. vm_compute. reflexivity. Qed.

(** ** Health evaluator *)

Section EvaluatorFacts.
Variable thresholds : gmap string Q.

(** C2: a bundle whose ping check reports the host down is judged
    critical, whatever else the bundle holds (usages below every limit,
    values of the wrong type, a threshold table without its keys). *)
Theorem ping_down_is_critical (health_data checks ping : gmap string pyvalue) :
  health_data !! "checks"%string = Some (PyDict checks) →
  checks !! "ping"%string = Some (PyDict ping) →
  ping !! "status"%string = Some (PyStr "down") →
  assess_overall_health thresholds health_data = Ok "critical"%string.
Proof.
  intros Hc Hp Hs. unfold assess_overall_health, dict_get.
  rewrite Hc. simpl. unfold dict_get. rewrite Hp. simpl. unfold dict_get.
  rewrite Hs. reflexivity.
Qed.
End EvaluatorFacts.

Lemma ping_down_is_critical_witness :
  assess_overall_health alert_thresholds (bundle "down" 10 20 30)
  = Ok "critical"%string.
Proof.
  apply (ping_down_is_critical alert_thresholds (bundle "down" 10 20 30)
           {[ "ping"%string := PyDict {[ "status"%string := PyStr "down" ]} ]}
           {[ "status"%string := PyStr "down" ]});
    reflexivity.
Defined.

(** Case analysis on the head of a monadic sequence. *)
Ltac bind_cases H :=
  repeat match type of H with
         | context [mbind _ ?m] =>
             let E := fresh "E" in destruct m eqn:E; simpl in H
         | context [if ?b then _ else _] =>
             let E := fresh "E" in destruct b eqn:E; simpl in H
         end.

Section VerdictFacts.
Variable thresholds : gmap string Q.

Lemma assess_verdicts health_data v :
  assess_overall_health thresholds health_data = Ok v →
  v = "critical"%string ∨ v = "warning"%string ∨ v = "healthy"%string.
Proof.
  unfold assess_overall_health. intros H.
  bind_cases H; inversion H; auto.
Qed.

Lemma exceeds_number v k :
  is_Some (thresholds !! k) → number_or_absent (Some v) →
  ∃ b, exceeds thresholds v k = Ok b.
Proof.
  intros [t Ht] Hv. unfold exceeds, subscript. rewrite Ht. simpl.
  destruct v; simpl in *; try contradiction; eauto.
Qed.

Lemma exceeds_default health_data usage k :
  is_Some (thresholds !! k) → number_or_absent (health_data !! usage) →
  ∃ b, exceeds thresholds (dict_get health_data usage (PyNum 0)) k = Ok b.
Proof.
  intros Hk Ho. apply exceeds_number; [done |]. unfold dict_get.
  destruct (health_data !! usage); simpl; [done | exact I].
Qed.

Lemma py_or_ok a b x y : a = Ok x → b = Ok y → ∃ z, py_or a b = Ok z.
Proof. intros -> ->. unfold py_or. simpl. destruct x; eauto. Qed.

Lemma py_get_dict health_data key k dflt :
  dict_or_absent (health_data !! key) →
  ∃ v, py_get (dict_get health_data key (PyDict ∅)) k dflt = Ok v.
Proof.
  unfold dict_get at 1.
  destruct (health_data !! key) as [[]|]; simpl; try contradiction; eauto.
Qed.

Lemma ping_is_dict health_data :
  match health_data !! "checks"%string with
  | None => True
  | Some (PyDict checks) => dict_or_absent (checks !! "ping"%string)
  | _ => False
  end →
  ∃ ping, py_get (dict_get health_data "checks" (PyDict ∅)) "ping" (PyDict ∅)
          = Ok (PyDict ping).
Proof.
  unfold dict_get at 1.
  destruct (health_data !! "checks"%string) as [[]|]; simpl;
    try contradiction; unfold dict_get.
  - destruct (d !! "ping"%string) as [[]|]; simpl; try contradiction; eauto.
  - rewrite lookup_empty. simpl. eauto.
Qed.

Lemma assess_returns health_data :
  has_limits thresholds → well_formed health_data →
  ∃ v, assess_overall_health thresholds health_data = Ok v.
Proof.
  intros Hl (Hchecks & Hcpu & Hmem & Hdisk & Hhttp).
  repeat (apply Forall_cons in Hl as [? Hl]).
  unfold assess_overall_health.
  destruct (ping_is_dict _ Hchecks) as [ping ->]. simpl.
  destruct (py_eq_str _ "down"); [eauto |].
  destruct (exceeds_default _ _ "cpu_critical" ltac:(done) Hcpu) as [c1 ->].
  destruct (exceeds_default _ _ "memory_critical" ltac:(done) Hmem) as [c2 ->].
  destruct (exceeds_default _ _ "disk_critical" ltac:(done) Hdisk) as [c3 ->].
  destruct (exceeds_default _ _ "cpu_warning" ltac:(done) Hcpu) as [w1 ->].
  destruct (exceeds_default _ _ "memory_warning" ltac:(done) Hmem) as [w2 ->].
  destruct (exceeds_default _ _ "disk_warning" ltac:(done) Hdisk) as [w3 ->].
  destruct (py_get_dict _ _ "status" PyNone Hhttp) as [h Hh].
  unfold py_or. simpl.
  destruct c1, c2, c3; simpl; eauto;
    destruct w1, w2, w3; simpl; eauto;
    rewrite Hh; simpl; destruct (py_eq_str h "error"); eauto.
Qed.

(** C9: whenever the evaluator returns, its verdict is one of
    ['critical'], ['warning'] and ['healthy'], hence neither ['unhealthy']
    nor ['unknown']; and it does return on every well-formed bundle. *)
Theorem assess_three_verdicts (health_data : gmap string pyvalue) :
  (∀ v, assess_overall_health thresholds health_data = Ok v →
        (v = "critical"%string ∨ v = "warning"%string ∨ v = "healthy"%string)
        ∧ v ≠ "unhealthy"%string ∧ v ≠ "unknown"%string)
  ∧ (has_limits thresholds → well_formed health_data →
     ∃ v, assess_overall_health thresholds health_data = Ok v).
Proof.
  split; [| apply assess_returns].
  intros v Hv. apply assess_verdicts in Hv.
  split; [exact Hv |]. destruct Hv as [-> | [-> | ->]]; split; discriminate.
Qed.
End VerdictFacts.

Lemma alert_thresholds_has_limits : has_limits alert_thresholds.
Proof. repeat constructor; eexists; vm_compute; reflexivity. Qed.

Lemma assess_three_verdicts_witness :
  (∀ v, assess_overall_health alert_thresholds (bundle "up" 85 20 30) = Ok v →
        (v = "critical"%string ∨ v = "warning"%string ∨ v = "healthy"%string)
        ∧ v ≠ "unhealthy"%string ∧ v ≠ "unknown"%string)
  ∧ ∃ v, assess_overall_health alert_thresholds (bundle "up" 85 20 30) = Ok v.
Proof.
  destruct (assess_three_verdicts alert_thresholds (bundle "up" 85 20 30))
    as [Hv Hr].
  split; [exact Hv |]. apply Hr.
  - exact alert_thresholds_has_limits.
  - vm_compute. tauto.
Defined.

(** ** Missing usages *)

Section MissingUsage.
Variable thresholds : gmap string Q.

(** C4, as amended: a usage that is missing from the bundle is read as the
    number 0; the verdict is the one of the same bundle with that usage
    measured as 0. *)
Theorem missing_usage_reads_as_zero (health_data : gmap string pyvalue)
    (usage : string) :
  usage ∈ usages →
  health_data !! usage = None →
  assess_overall_health thresholds health_data
  = assess_overall_health thresholds (<[usage := PyNum 0]> health_data).
Proof.
  intros Hin Hnone. unfold usages in Hin.
  unfold assess_overall_health, dict_get.
  repeat (apply elem_of_cons in Hin as [-> | Hin]);
    [ | | | by apply elem_of_nil in Hin ];
    rewrite !lookup_insert; repeat case_decide; try discriminate;
    rewrite Hnone; reflexivity.
Qed.
End MissingUsage.

Lemma missing_usage_reads_as_zero_witness :
  assess_overall_health alert_thresholds remote_bundle
  = assess_overall_health alert_thresholds
      (<["disk_usage"%string := PyNum 0]> remote_bundle).
Proof.
  apply (missing_usage_reads_as_zero alert_thresholds remote_bundle "disk_usage").
  - unfold usages. set_solver.
  - reflexivity.
Defined.

(** C4, as stated, fails: in [remote_bundle] no usage was measured, and the
    evaluator reaches its last rule and answers ['healthy'], as it does for the
    bundle that measured 0 for each of them. *)
Lemma missing_usages_judged_healthy :
  remote_bundle !! "cpu_usage"%string = None
  ∧ remote_bundle !! "memory_usage"%string = None
  ∧ remote_bundle !! "disk_usage"%string = None
  ∧ assess_overall_health alert_thresholds remote_bundle = Ok "healthy"%string
  ∧ assess_overall_health alert_thresholds remote_bundle
    = assess_overall_health alert_thresholds
        (<["cpu_usage"%string := PyNum 0]>
        (<["memory_usage"%string := PyNum 0]>
        (<["disk_usage"%string := PyNum 0]> remote_bundle))).
Proof. repeat split; vm_compute; reflexivity. Qed.

(** ** Threshold checks *)

Lemma Qgtb_true (q t : Q) : Qgtb q t = true ↔ (t < q)%Q.
Proof.
  unfold Qgtb. rewrite negb_true_iff, <- not_true_iff_false, Qle_bool_iff.
  split; [apply Qnot_le_lt | apply Qlt_not_le].
Qed.

Section ThresholdFacts.
Variable thresholds : gmap string Q.

Lemma exceeds_above (q t : Q) (k : string) :
  thresholds !! k = Some t → (t < q)%Q →
  exceeds thresholds (PyNum q) k = Ok true.
Proof.
  intros Hk Hlt. unfold exceeds, subscript. rewrite Hk. simpl.
  f_equal. by apply Qgtb_true.
Qed.

Lemma threshold_check_entries label metric crit_key warn_key usage l :
  threshold_check thresholds label metric crit_key warn_key usage = Ok l →
  Forall (λ ad, ad_metric ad = metric) l.
Proof.
  unfold threshold_check. intros H.
  bind_cases H; inversion H; repeat constructor.
Qed.

Lemma threshold_check_critical label metric crit_key warn_key usage l :
  exceeds thresholds usage crit_key = Ok true →
  threshold_check thresholds label metric crit_key warn_key usage = Ok l →
  ∃ msg, l = [AlertData "critical" msg metric usage].
Proof.
  unfold threshold_check. intros -> H. simpl in H.
  bind_cases H; inversion H; eauto.
Qed.

Lemma alerts_to_create_blocks health_data l :
  alerts_to_create thresholds health_data = Ok l →
  ∃ cpu memory disk,
    threshold_check thresholds "CPU" "cpu_usage" "cpu_critical" "cpu_warning"
      (dict_get health_data "cpu_usage" (PyNum 0)) = Ok cpu
    ∧ threshold_check thresholds "Memory" "memory_usage" "memory_critical"
        "memory_warning"
        (dict_get health_data "memory_usage" (PyNum 0)) = Ok memory
    ∧ threshold_check thresholds "Disk" "disk_usage" "disk_critical"
        "disk_warning"
        (dict_get health_data "disk_usage" (PyNum 0)) = Ok disk
    ∧ l = cpu ++ memory ++ disk.
Proof.
  unfold alerts_to_create. intros H.
  destruct (threshold_check _ "CPU" _ _ _ _) as [cpu|] eqn:Hcpu; [| done].
  destruct (threshold_check _ "Memory" _ _ _ _) as [memory|] eqn:Hmem; [| done].
  destruct (threshold_check _ "Disk" _ _ _ _) as [disk|] eqn:Hdisk; [| done].
  simpl in H. inversion H. eauto 10.
Qed.

Lemma filter_other_metric (metric other : string) (l : list alert_data) :
  other ≠ metric → Forall (λ ad, ad_metric ad = other) l →
  filter (λ ad, ad_metric ad = metric) l = [].
Proof.
  intros Hne Hall. induction Hall as [| ad l Had _ IH]; [done |].
  rewrite filter_cons_False; [exact IH | congruence].
Qed.

Lemma critical_entry_only (health_data : gmap string pyvalue)
    (metric crit_key : string) (q t : Q) (l : list alert_data) :
  (metric, crit_key) ∈ tracked →
  health_data !! metric = Some (PyNum q) →
  thresholds !! crit_key = Some t →
  (t < q)%Q →
  alerts_to_create thresholds health_data = Ok l →
  ∃ msg, filter (λ ad, ad_metric ad = metric) l
         = [AlertData "critical" msg metric (PyNum q)].
Proof.
  intros Hin Hq Ht Hlt Hl.
  pose proof (exceeds_above q t crit_key Ht Hlt) as Hex.
  apply alerts_to_create_blocks in Hl
    as (cpu & memory & disk & Hcpu & Hmem & Hdisk & ->).
  pose proof (threshold_check_entries _ _ _ _ _ _ Hcpu) as Fcpu.
  pose proof (threshold_check_entries _ _ _ _ _ _ Hmem) as Fmem.
  pose proof (threshold_check_entries _ _ _ _ _ _ Hdisk) as Fdisk.
  rewrite !filter_app. unfold tracked in Hin. unfold dict_get in *.
  repeat (apply elem_of_cons in Hin as [[= -> ->] | Hin]);
    [ | | | by apply elem_of_nil in Hin ];
    rewrite Hq in *; simpl in *.
  - destruct (threshold_check_critical _ _ _ _ _ _ Hex Hcpu) as [msg ->].
    rewrite (filter_other_metric "cpu_usage" "memory_usage" memory) by done.
    rewrite (filter_other_metric "cpu_usage" "disk_usage" disk) by done.
    exists msg. reflexivity.
  - destruct (threshold_check_critical _ _ _ _ _ _ Hex Hmem) as [msg ->].
    rewrite (filter_other_metric "memory_usage" "cpu_usage" cpu) by done.
    rewrite (filter_other_metric "memory_usage" "disk_usage" disk) by done.
    exists msg. reflexivity.
  - destruct (threshold_check_critical _ _ _ _ _ _ Hex Hdisk) as [msg ->].
    rewrite (filter_other_metric "disk_usage" "cpu_usage" cpu) by done.
    rewrite (filter_other_metric "disk_usage" "memory_usage" memory) by done.
    exists msg. reflexivity.
Qed.
End ThresholdFacts.

(** ** Deduplication *)

(** A reading of 92 raises one critical alert; the same reading five
    minutes later is counted on that alert; a reading of 95, whose message
    differs, raises a second alert. *)
Example cpu_92_92_95 :
  (db1 ← check_health_thresholds None alert_thresholds 7 (bundle "up" 92 20 30)
          [] (λ k, Z.of_nat k);
   db2 ← check_health_thresholds None alert_thresholds 7 (bundle "up" 92 20 30)
          db1 (λ k, 5 * minute + Z.of_nat k);
   check_health_thresholds None alert_thresholds 7 (bundle "up" 95 20 30)
     db2 (λ k, 6 * minute + Z.of_nat k))
  = Ok [ mkAlert 7 "critical" "CPU usage critical: 92.0%" "active"
                 (PyStr "cpu_usage") (PyNum 92%Q) 2 1 (Some (5 * minute + 1));
         mkAlert 7 "critical" "CPU usage critical: 95.0%" "active"
                 (PyStr "cpu_usage") (PyNum 95%Q) 1 (6 * minute + 1) None ].
Proof. vm_compute. reflexivity. Qed.

Section DedupFacts.
Variable updated_at_default : option Z.

Lemma existing_alert_Some db sid msg now i a :
  existing_alert db sid msg now = Some (i, a) →
  db !! i = Some a ∧ is_duplicate sid msg now a.
Proof.
  unfold existing_alert. intros H. apply list_find_Some in H. tauto.
Qed.

Lemma existing_alert_None db sid msg now :
  existing_alert db sid msg now = None ↔
  Forall (λ a, ¬ is_duplicate sid msg now a) db.
Proof. apply list_find_None. Qed.

Lemma create_alert_found db sid sev msg kwargs now1 now2 i a :
  existing_alert db sid msg now1 = Some (i, a) →
  create_alert updated_at_default db sid sev msg kwargs now1 now2
  = (<[i := mkAlert (server_id a) (severity a) (message a) (status a)
                    (metric a) (value a) (count a + 1) (created_at a)
                    (Some now2)]> db,
     mkAlert (server_id a) (severity a) (message a) (status a)
             (metric a) (value a) (count a + 1) (created_at a) (Some now2)).
Proof. unfold create_alert. by intros ->. Qed.

Lemma create_alert_fresh db sid sev msg kwargs now1 now2 :
  existing_alert db sid msg now1 = None →
  create_alert updated_at_default db sid sev msg kwargs now1 now2
  = (db ++ [mkAlert sid sev msg "active" (dict_get kwargs "metric" PyNone)
                    (dict_get kwargs "value" PyNone) 1 now2 updated_at_default],
     mkAlert sid sev msg "active" (dict_get kwargs "metric" PyNone)
             (dict_get kwargs "value" PyNone) 1 now2 updated_at_default).
Proof. unfold create_alert. by intros ->. Qed.

(** C10: a call that finds a duplicate replaces that row, and the new row
    differs from the old one in [count] and [updated_at] only, whatever
    severity and keyword arguments the call brought; no other row changes. *)
Theorem dedup_changes_count_and_updated_at_only (db : list Alert) (sid : Z)
    (sev msg : string) (kwargs : gmap string pyvalue) (now1 now2 : Z)
    (i : nat) (a : Alert) :
  existing_alert db sid msg now1 = Some (i, a) →
  let r := create_alert updated_at_default db sid sev msg kwargs now1 now2 in
  db !! i = Some a
  ∧ r.1 = <[i := r.2]> db
  ∧ r.1 !! i = Some r.2
  ∧ (∀ j, j ≠ i → r.1 !! j = db !! j)
  ∧ server_id r.2 = server_id a
  ∧ severity r.2 = severity a
  ∧ message r.2 = message a
  ∧ metric r.2 = metric a
  ∧ value r.2 = value a
  ∧ status r.2 = status a
  ∧ created_at r.2 = created_at a
  ∧ count r.2 = count a + 1
  ∧ updated_at r.2 = Some now2.
Proof.
  intros H r. subst r. rewrite (create_alert_found _ _ _ _ _ _ _ _ _ H). simpl.
  apply existing_alert_Some in H as [Hi _].
  split; [exact Hi |]. split; [reflexivity |].
  split; [apply list_lookup_insert_eq; by eapply lookup_lt_Some |].
  split; [intros j Hj; by apply list_lookup_insert_ne |].
  repeat split.
Qed.
End DedupFacts.

Lemma dedup_changes_count_and_updated_at_only_witness :
  let a := mkAlert 7 "critical" "CPU usage critical: 92.0%" "active"
                   (PyStr "cpu_usage") (PyNum 92%Q) 1 0 None in
  let r := create_alert None [a] 7 "warning" "CPU usage critical: 92.0%"
                        {[ "metric"%string := PyStr "load" ]} minute minute in
  [a] !! 0%nat = Some a
  ∧ r.1 = <[0%nat := r.2]> [a]
  ∧ r.1 !! 0%nat = Some r.2
  ∧ (∀ j, j ≠ 0%nat → r.1 !! j = [a] !! j)
  ∧ server_id r.2 = server_id a
  ∧ severity r.2 = severity a
  ∧ message r.2 = message a
  ∧ metric r.2 = metric a
  ∧ value r.2 = value a
  ∧ status r.2 = status a
  ∧ created_at r.2 = created_at a
  ∧ count r.2 = count a + 1
  ∧ updated_at r.2 = Some minute.
Proof.
  intros a.
  apply (dedup_changes_count_and_updated_at_only None [a] 7 "warning"
           "CPU usage critical: 92.0%" {[ "metric"%string := PyStr "load" ]}
           minute minute 0 a).
  reflexivity.
Defined.

Section LookupFacts.
Variable updated_at_default : option Z.

(** C3, as amended: the lookup finds an alert exactly when the table holds
    an active alert for the same server and message that was created no
    earlier than ten minutes before the reading of the clock (a later update
    does not count); what it finds is updated in place, and otherwise one row
    is added. *)
Theorem dedup_matches_recent_creation (db : list Alert) (sid : Z)
    (sev msg : string) (kwargs : gmap string pyvalue) (now1 now2 : Z) :
  (is_Some (existing_alert db sid msg now1) ↔
   ∃ a, a ∈ db ∧ server_id a = sid ∧ message a = msg
        ∧ status a = "active"%string ∧ now1 - dedup_window ≤ created_at a)
  ∧ match existing_alert db sid msg now1 with
    | Some (i, a) =>
        db !! i = Some a
        ∧ (create_alert updated_at_default db sid sev msg kwargs now1 now2).1
          = <[i := (create_alert updated_at_default db sid sev msg kwargs
                                 now1 now2).2]> db
        ∧ length (create_alert updated_at_default db sid sev msg kwargs
                               now1 now2).1 = length db
    | None =>
        (create_alert updated_at_default db sid sev msg kwargs now1 now2).1
        = db ++ [(create_alert updated_at_default db sid sev msg kwargs
                               now1 now2).2]
    end.
Proof.
  split.
  - split.
    + intros [[i a] H]. apply existing_alert_Some in H as [Hi Hd].
      exists a. split; [by eapply list_elem_of_lookup_2 | exact Hd].
    + intros (a & Hin & Hd). unfold existing_alert.
      eapply list_find_elem_of; [exact Hin | exact Hd].
  - destruct (existing_alert db sid msg now1) as [[i a]|] eqn:H.
    + rewrite (create_alert_found _ _ _ _ _ _ _ _ _ _ H). simpl.
      apply existing_alert_Some in H as [Hi _].
      split; [exact Hi |]. split; [reflexivity |]. apply length_insert.
    + rewrite (create_alert_fresh _ _ _ _ _ _ _ _ H). reflexivity.
Qed.
End LookupFacts.

(** C3, as stated, fails: an alert created eleven minutes ago and updated
    two minutes ago is active and was updated within the window, yet the
    lookup does not find it and the call adds a second row. *)
Lemma updated_alert_not_matched :
  (∃ a, a ∈ raised_twice ∧ server_id a = 7
        ∧ message a = "CPU usage critical: 92.0%"%string
        ∧ status a = "active"%string ∧ count a = 2
        ∧ created_or_updated_within (11 * minute) a)
  ∧ existing_alert raised_twice 7 "CPU usage critical: 92.0%" (11 * minute)
    = None
  ∧ length (create_alert None raised_twice 7 "critical"
              "CPU usage critical: 92.0%" ∅ (11 * minute) (11 * minute)).1
    = 2%nat.
Proof.
  split; [| split; vm_compute; reflexivity].
  eexists. split; [apply list_elem_of_here |].
  repeat split. right. eexists. split; [reflexivity |]. vm_compute. discriminate.
Qed.

Section WindowFacts.
Variable updated_at_default : option Z.

Lemma not_duplicate_later sid msg now now' a :
  now ≤ now' → ¬ is_duplicate sid msg now a → ¬ is_duplicate sid msg now' a.
Proof.
  unfold is_duplicate. intros Hle Hn (? & ? & ? & ?). apply Hn.
  repeat split; [assumption .. | lia].
Qed.

Lemma existing_alert_None_later db sid msg now now' :
  now ≤ now' → existing_alert db sid msg now = None →
  existing_alert db sid msg now' = None.
Proof.
  rewrite !existing_alert_None. intros Hle Hall.
  eapply Forall_impl; [exact Hall |]. intros a. by apply not_duplicate_later.
Qed.

Lemma existing_alert_last db sid msg now a :
  existing_alert db sid msg now = None → is_duplicate sid msg now a →
  existing_alert (db ++ [a]) sid msg now = Some (length db, a).
Proof.
  intros Hnone Hdup. unfold existing_alert in *.
  rewrite list_find_app_r by exact Hnone. simpl.
  rewrite decide_True by exact Hdup. reflexivity.
Qed.

Lemma existing_alert_expired db sid msg now a :
  existing_alert db sid msg now = None → ¬ is_duplicate sid msg now a →
  existing_alert (db ++ [a]) sid msg now = None.
Proof.
  intros Hnone Hdup. unfold existing_alert in *.
  apply list_find_app_None. split; [exact Hnone |]. simpl.
  rewrite decide_False by exact Hdup. reflexivity.
Qed.

Lemma insert_last (db : list Alert) (a a' : Alert) :
  <[length db := a']> (db ++ [a]) = db ++ [a'].
Proof.
  rewrite insert_app_r_alt by lia. by rewrite Nat.sub_diag.
Qed.

(** C1: from a table without a match, a violation submitted at [t1] adds
    one alert; the same server and message submitted again while that alert
    is within the window bumps its count to 2 and adds no row; submitted
    once more after the window has expired, it adds a second alert with
    count 1 and leaves the first one as it was. *)
Theorem repeated_violation_deduplicated (db : list Alert) (sid : Z)
    (msg sev1 sev2 sev3 : string) (kw1 kw2 kw3 : gmap string pyvalue)
    (t1 t1' t2 t2' t3 t3' : Z) :
  existing_alert db sid msg t1 = None →
  t1 ≤ t2 → t2 ≤ t3 →
  t2 - dedup_window ≤ t1' →
  t1' < t3 - dedup_window →
  let r1 := create_alert updated_at_default db sid sev1 msg kw1 t1 t1' in
  let r2 := create_alert updated_at_default r1.1 sid sev2 msg kw2 t2 t2' in
  let r3 := create_alert updated_at_default r2.1 sid sev3 msg kw3 t3 t3' in
  r1.1 = db ++ [r1.2] ∧ count r1.2 = 1 ∧ status r1.2 = "active"%string
  ∧ r2.1 = db ++ [r2.2] ∧ count r2.2 = 2 ∧ created_at r2.2 = t1'
  ∧ r3.1 = db ++ [r2.2; r3.2] ∧ count r3.2 = 1 ∧ created_at r3.2 = t3'.
Proof.
  intros Hnone H12 H23 Hin Hout r1 r2 r3.
  subst r1 r2 r3.
  rewrite (create_alert_fresh _ db _ sev1 _ kw1 _ t1' Hnone). simpl.
  set (a1 := mkAlert sid sev1 msg "active" _ _ 1 t1' updated_at_default).
  assert (existing_alert (db ++ [a1]) sid msg t2 = Some (length db, a1)) as H2.
  { apply existing_alert_last.
    - by apply (existing_alert_None_later _ _ _ t1).
    - unfold is_duplicate. simpl. done. }
  rewrite (create_alert_found _ _ _ sev2 _ kw2 _ t2' _ _ H2). simpl.
  rewrite insert_last.
  set (a2 := mkAlert sid sev1 msg "active" _ _ (1 + 1) t1' (Some t2')).
  assert (existing_alert (db ++ [a2]) sid msg t3 = None) as H3.
  { apply existing_alert_expired.
    - apply (existing_alert_None_later _ _ _ t1); [lia | done].
    - unfold is_duplicate. simpl. lia. }
  rewrite (create_alert_fresh _ _ _ sev3 _ kw3 _ t3' H3). simpl.
  rewrite <- app_assoc. simpl. done.
Qed.
End WindowFacts.

Lemma repeated_violation_deduplicated_witness :
  let r1 := create_alert None [] 7 "critical" "CPU usage critical: 92.0%" ∅
                         0 1 in
  let r2 := create_alert None r1.1 7 "critical" "CPU usage critical: 92.0%" ∅
                         (5 * minute) (5 * minute + 1) in
  let r3 := create_alert None r2.1 7 "critical" "CPU usage critical: 92.0%" ∅
                         (11 * minute) (11 * minute + 1) in
  r1.1 = [] ++ [r1.2] ∧ count r1.2 = 1 ∧ status r1.2 = "active"%string
  ∧ r2.1 = [] ++ [r2.2] ∧ count r2.2 = 2 ∧ created_at r2.2 = 1
  ∧ r3.1 = [] ++ [r2.2; r3.2] ∧ count r3.2 = 1
  ∧ created_at r3.2 = 11 * minute + 1.
Proof.
  apply (repeated_violation_deduplicated None [] 7 "CPU usage critical: 92.0%"
           "critical" "critical" "critical" ∅ ∅ ∅
           0 1 (5 * minute) (5 * minute + 1) (11 * minute) (11 * minute + 1)).
  - reflexivity.
  - vm_compute. discriminate.
  - vm_compute. discriminate.
  - vm_compute. discriminate.
  - vm_compute. reflexivity.
Defined.

(** ** Successive updates *)

Lemma same_alert_trans a b c : same_alert a b → same_alert b c → same_alert a c.
Proof.
  unfold same_alert. intros (? & ? & ? & ? & ? & ? & ?) (? & ? & ? & ? & ? & ? & ?).
  repeat split; congruence.
Qed.

Section CallFacts.
Variable updated_at_default : option Z.

Lemma run_calls_length db cs :
  length (run_calls updated_at_default db cs) = length cs.
Proof. revert db. induction cs as [| c cs IH]; intros db; simpl; [done |]. by rewrite IH. Qed.

(** One call, seen from row [i]: an update of the row adds one to its count
    and stamps it with the call's second clock reading; any other call
    leaves the row as it was. *)
Lemma run_call_row i db c a :
  db !! i = Some a →
  let r := run_call updated_at_default db c in
  if updates i db c
  then r.1 !! i = Some r.2
       ∧ r.2 = mkAlert (server_id a) (severity a) (message a) (status a)
                       (metric a) (value a) (count a + 1) (created_at a)
                       (Some (c_now2 c))
  else r.1 !! i = Some a.
Proof.
  intros Hi r. subst r. unfold updates, run_call.
  destruct (existing_alert db _ _ _) as [[i' a']|] eqn:H.
  - rewrite (create_alert_found _ _ _ _ _ _ _ _ _ _ H). simpl.
    apply existing_alert_Some in H as [Hi' _].
    case_bool_decide as E.
    + injection E as ->. rewrite Hi in Hi'. injection Hi' as <-.
      split; [| done]. apply list_lookup_insert_eq. by eapply lookup_lt_Some.
    + rewrite list_lookup_insert_ne; [done |]. intros ->. by apply E.
  - rewrite (create_alert_fresh _ _ _ _ _ _ _ _ H). simpl.
    rewrite lookup_app_l; [done |]. by eapply lookup_lt_Some.
Qed.

Lemma run_call_row_next i db c a :
  db !! i = Some a →
  ∃ a', (run_call updated_at_default db c).1 !! i = Some a'
        ∧ same_alert a a'
        ∧ count a' = count a + updates_among [updates i db c].
Proof.
  intros Hi. pose proof (run_call_row i db c a Hi) as H. simpl in H.
  destruct (updates i db c).
  - destruct H as [Hrow Heq]. eexists. split; [exact Hrow |].
    rewrite Heq. unfold same_alert. simpl. split; [done |].
    unfold updates_among. simpl. lia.
  - exists a. split; [exact H |]. unfold same_alert. split; [done |].
    unfold updates_among. simpl. lia.
Qed.

Lemma updates_among_cons b bs :
  updates_among (b :: bs) = updates_among [b] + updates_among bs.
Proof.
  unfold updates_among. rewrite !filter_cons, filter_nil.
  destruct (decide (b = true)); simpl; lia.
Qed.

Lemma updates_among_app bs bs' :
  updates_among (bs ++ bs') = updates_among bs + updates_among bs'.
Proof. unfold updates_among. rewrite filter_app, length_app. lia. Qed.

Lemma updates_among_nonneg bs : 0 ≤ updates_among bs.
Proof. unfold updates_among. lia. Qed.

(** The row [i] after the [k]-th call of an arbitrary run: it is still the
    same alert, its count is the initial one plus the number of updates so
    far, and when the [k]-th call is itself an update, the row is the alert
    that call returns, stamped with that call's clock reading. *)
Lemma run_calls_row i cs : ∀ db a0 k r,
  db !! i = Some a0 →
  run_calls updated_at_default db cs !! k = Some r →
  ∃ a, r.1 !! i = Some a ∧ same_alert a0 a
       ∧ count a = count a0
                   + updates_among (take (S k) (updating updated_at_default i db cs))
       ∧ (updating updated_at_default i db cs !! k = Some true →
          ∃ c, cs !! k = Some c ∧ r.2 = a ∧ updated_at a = Some (c_now2 c)).
Proof.
  induction cs as [| c0 cs IH]; intros db a0 k r Hi Hr; [done |].
  destruct (run_call_row_next i db c0 a0 Hi) as (a1 & Hi1 & S1 & C1).
  destruct k as [| k]; simpl in Hr.
  - injection Hr as <-. exists a1. split; [exact Hi1 |]. split; [exact S1 |].
    split.
    + simpl. rewrite take_0. exact C1.
    + simpl. intros E. injection E as E. exists c0. split; [done |].
      pose proof (run_call_row i db c0 a0 Hi) as H. simpl in H.
      rewrite E in H. destruct H as [Hrow Heq].
      rewrite Hrow in Hi1. injection Hi1 as <-.
      split; [done |]. by rewrite Heq.
  - destruct (IH _ a1 k r Hi1 Hr) as (a & Ha & Sa & Ca & U).
    exists a. split; [exact Ha |]. split; [by eapply same_alert_trans |].
    split; [| exact U].
    change (take (S (S k)) (updating updated_at_default i db (c0 :: cs)))
      with (updates i db c0
            :: take (S k) (updating updated_at_default i
                             (run_call updated_at_default db c0).1 cs)).
    rewrite updates_among_cons. lia.
Qed.

Lemma clock_monotone_tail c cs : clock_monotone (c :: cs) → clock_monotone cs.
Proof.
  intros H j k cj ck Hjk Hj Hk. apply (H (S j) (S k)); [lia | done | done].
Qed.

(** Once the row carries a time stamp that no later reading of the clock
    falls behind, every later call leaves it a time stamp at least as late. *)
Lemma updated_at_lower i cs : ∀ db a u k r,
  db !! i = Some a → updated_at a = Some u →
  clock_monotone cs →
  (∀ m c, cs !! m = Some c → u ≤ c_now2 c) →
  run_calls updated_at_default db cs !! k = Some r →
  ∃ a' u', r.1 !! i = Some a' ∧ updated_at a' = Some u' ∧ u ≤ u'.
Proof.
  induction cs as [| c0 cs IH]; intros db a u k r Hi Hu Hclock Hlow Hr;
    [done |].
  assert (∃ a1 u1, (run_call updated_at_default db c0).1 !! i = Some a1
                   ∧ updated_at a1 = Some u1 ∧ u ≤ u1
                   ∧ ∀ m c, cs !! m = Some c → u1 ≤ c_now2 c)
    as (a1 & u1 & Hi1 & Hu1 & Hle & Hlow1).
  { pose proof (run_call_row i db c0 a Hi) as H. simpl in H.
    destruct (updates i db c0).
    - destruct H as [Hrow Heq]. eexists _, (c_now2 c0).
      split; [exact Hrow |]. split; [by rewrite Heq |].
      split; [by apply (Hlow 0%nat) |].
      intros m c Hc. apply (Hclock 0%nat (S m)); [lia | done | done].
    - exists a, u. split; [exact H |]. split; [exact Hu |]. split; [lia |].
      intros m c Hc. by apply (Hlow (S m)). }
  destruct k as [| k]; simpl in Hr.
  - injection Hr as <-. by exists a1, u1.
  - destruct (IH _ a1 u1 k r Hi1 Hu1 (clock_monotone_tail _ _ Hclock) Hlow1 Hr)
      as (a' & u' & Ha' & Hu' & Hle').
    exists a', u'. split; [done |]. split; [done | lia].
Qed.

(** The clock not running backwards, the time stamp an update leaves is
    never later than the one the row carries after any later call. *)
Lemma updated_at_after_update i cs : ∀ db a0 j k rj rk,
  db !! i = Some a0 →
  clock_monotone cs →
  (j ≤ k)%nat →
  run_calls updated_at_default db cs !! j = Some rj →
  run_calls updated_at_default db cs !! k = Some rk →
  updating updated_at_default i db cs !! j = Some true →
  ∃ aj ak uj uk, rj.1 !! i = Some aj ∧ rk.1 !! i = Some ak
                 ∧ updated_at aj = Some uj ∧ updated_at ak = Some uk
                 ∧ uj ≤ uk.
Proof.
  induction cs as [| c0 cs IH]; intros db a0 j k rj rk Hi Hclock Hjk Hj Hk Hb;
    [done |].
  pose proof (run_call_row i db c0 a0 Hi) as H. simpl in H.
  destruct j as [| j]; simpl in Hj, Hb.
  - injection Hj as <-. injection Hb as Hb. rewrite Hb in H.
    destruct H as [Hrow Heq].
    assert (updated_at (run_call updated_at_default db c0).2
            = Some (c_now2 c0)) as Hu by (by rewrite Heq).
    destruct k as [| k]; simpl in Hk.
    + injection Hk as <-. eexists _, _, _, _.
      split; [exact Hrow |]. split; [exact Hrow |]. split; [exact Hu |].
      split; [exact Hu | lia].
    + destruct (updated_at_lower i cs _ _ (c_now2 c0) k rk Hrow Hu
                  (clock_monotone_tail _ _ Hclock)) as (ak & uk & Hak & Huk & Hle).
      { intros m c Hc. apply (Hclock 0%nat (S m)); [lia | done | done]. }
      { exact Hk. }
      eexists _, ak, _, uk. split; [exact Hrow |]. split; [exact Hak |].
      split; [exact Hu |]. split; [exact Huk | exact Hle].
  - destruct k as [| k]; [lia |]. simpl in Hk.
    destruct (run_call_row_next i db c0 a0 Hi) as (a1 & Hi1 & _).
    apply (IH _ a1 j k rj rk Hi1 (clock_monotone_tail _ _ Hclock));
      [lia | done | done | done].
Qed.

(** C8: take any run of successive [create_alert] calls, updates of one row
    and other calls in any order, from a table that holds the row.  After
    every call the row is still the same alert; its count is the initial
    count plus the number of updates made so far, so each update adds
    exactly one and the count never decreases; an update returns the row
    stamped with its own reading of the clock; and, provided the clock does
    not run backwards, the time stamp [updated_at] an update leaves is no
    later than the one the row carries after any later call. *)
Theorem count_and_updated_at_monotone (db : list Alert) (cs : list call)
    (i : nat) (a0 : Alert) (j k : nat) (rj rk : list Alert * Alert) :
  db !! i = Some a0 →
  (j ≤ k)%nat →
  run_calls updated_at_default db cs !! j = Some rj →
  run_calls updated_at_default db cs !! k = Some rk →
  ∃ aj ak,
    rj.1 !! i = Some aj ∧ rk.1 !! i = Some ak
    ∧ same_alert a0 aj ∧ same_alert aj ak
    ∧ count aj = count a0
                 + updates_among
                     (take (S j) (updating updated_at_default i db cs))
    ∧ count ak = count aj
                 + updates_among
                     (take (k - j)
                        (drop (S j) (updating updated_at_default i db cs)))
    ∧ count a0 ≤ count aj ≤ count ak
    ∧ (updating updated_at_default i db cs !! k = Some true →
       ∃ ck, cs !! k = Some ck ∧ rk.2 = ak
             ∧ updated_at ak = Some (c_now2 ck))
    ∧ (clock_monotone cs →
       updating updated_at_default i db cs !! j = Some true →
       ∃ uj uk, updated_at aj = Some uj ∧ updated_at ak = Some uk ∧ uj ≤ uk).
Proof.
  intros Hi Hjk Hj Hk.
  destruct (run_calls_row i cs db a0 j rj Hi Hj) as (aj & Haj & Sj & Cj & _).
  destruct (run_calls_row i cs db a0 k rk Hi Hk) as (ak & Hak & Sk & Ck & Uk).
  exists aj, ak. split; [exact Haj |]. split; [exact Hak |].
  split; [exact Sj |].
  split.
  { unfold same_alert in *. destruct Sj as (? & ? & ? & ? & ? & ? & ?).
    destruct Sk as (? & ? & ? & ? & ? & ? & ?). repeat split; congruence. }
  split; [exact Cj |].
  assert (count ak = count aj
                 + updates_among
                     (take (k - j)
                        (drop (S j) (updating updated_at_default i db cs))))
    as Cjk.
  { rewrite Ck, Cj. replace (S k) with (S j + (k - j))%nat by lia.
    rewrite <- take_take_drop, updates_among_app. lia. }
  split; [exact Cjk |].
  split.
  { pose proof (updates_among_nonneg
                  (take (S j) (updating updated_at_default i db cs))).
    pose proof (updates_among_nonneg
                  (take (k - j)
                     (drop (S j) (updating updated_at_default i db cs)))).
    lia. }
  split; [exact Uk |].
  intros Hclock Hb.
  destruct (updated_at_after_update i cs db a0 j k rj rk Hi Hclock Hjk Hj Hk Hb)
    as (aj' & ak' & uj & uk & Haj' & Hak' & Huj & Huk & Hle).
  rewrite Haj in Haj'. injection Haj' as <-.
  rewrite Hak in Hak'. injection Hak' as <-.
  by exists uj, uk.
Qed.
End CallFacts.

Lemma count_and_updated_at_monotone_witness :
  let a0 := mkAlert 7 "critical" "CPU usage critical: 92.0%" "active"
                    PyNone PyNone 1 0 None in
  let cs := [ Call 7 "critical" "CPU usage critical: 92.0%" ∅ minute minute;
              Call 7 "warning" "Memory usage high: 85.0%" ∅
                   (2 * minute) (2 * minute);
              Call 7 "warning" "CPU usage critical: 92.0%" ∅
                   (3 * minute) (3 * minute) ] in
  updating None 0 [a0] cs = [true; false; true]
  ∧ ∃ rj rk aj ak,
      run_calls None [a0] cs !! 0%nat = Some rj
      ∧ run_calls None [a0] cs !! 2%nat = Some rk
      ∧ rj.1 !! 0%nat = Some aj ∧ rk.1 !! 0%nat = Some ak
      ∧ same_alert a0 aj ∧ same_alert aj ak
      ∧ count aj = count a0 + 1
      ∧ count ak = count aj + 1
      ∧ count a0 ≤ count aj ≤ count ak
      ∧ rk.2 = ak
      ∧ ∃ uj uk, updated_at aj = Some uj ∧ updated_at ak = Some uk ∧ uj ≤ uk.
Proof.
  intros a0 cs. split; [reflexivity |].
  destruct (count_and_updated_at_monotone None [a0] cs 0 a0 0 2
              (run_call None [a0] (Call 7 "critical" "CPU usage critical: 92.0%"
                                        ∅ minute minute))
              (create_alert None
                 [mkAlert 7 "critical" "CPU usage critical: 92.0%" "active"
                          PyNone PyNone 2 0 (Some minute);
                  mkAlert 7 "warning" "Memory usage high: 85.0%" "active"
                          PyNone PyNone 1 (2 * minute) None]
                 7 "warning" "CPU usage critical: 92.0%" ∅
                 (3 * minute) (3 * minute)))
    as (aj & ak & Haj & Hak & Sj & Sk & Cj & Ck & Cle & Uk & Umono);
    [reflexivity | lia | reflexivity | reflexivity |].
  eexists _, _, aj, ak.
  split; [reflexivity |]. split; [reflexivity |].
  split; [exact Haj |]. split; [exact Hak |].
  split; [exact Sj |]. split; [exact Sk |].
  split; [exact Cj |]. split; [exact Ck |]. split; [exact Cle |].
  split.
  - destruct Uk as (ck & _ & Hret & _); [reflexivity | exact Hret].
  - apply Umono; [| reflexivity].
    intros j k cj ck Hjk Hj Hk.
    destruct j as [| [| [| j]]], k as [| [| [| k]]]; simpl in Hj, Hk;
      try discriminate; try lia;
      injection Hj as <-; injection Hk as <-; vm_compute; discriminate.
Defined.

(** C8, as stated, fails when the clock is set back between two
    updates: both calls below update row 0 of the table, the count goes from
    1 to 2 to 3, and [updated_at] goes from two minutes back to one. *)
Lemma clock_set_back_lowers_updated_at :
  let a0 := mkAlert 7 "critical" "CPU usage critical: 92.0%" "active"
                    PyNone PyNone 1 0 None in
  let cs := [ Call 7 "critical" "CPU usage critical: 92.0%" ∅
                   (2 * minute) (2 * minute);
              Call 7 "critical" "CPU usage critical: 92.0%" ∅ minute minute ] in
  ∃ r1 r2,
    run_calls None [a0] cs = [r1; r2]
    ∧ updating None 0 [a0] cs = [true; true]
    ∧ r1.1 !! 0%nat = Some r1.2 ∧ r2.1 !! 0%nat = Some r2.2
    ∧ length r2.1 = 1%nat
    ∧ count r1.2 = 2 ∧ count r2.2 = 3
    ∧ updated_at r1.2 = Some (2 * minute)
    ∧ updated_at r2.2 = Some minute
    ∧ minute < 2 * minute.
Proof.
  intros a0 cs. eexists _, _. split; [reflexivity |].
  split; [reflexivity |]. split; [reflexivity |]. split; [reflexivity |].
  split; [reflexivity |]. split; [reflexivity |]. split; [reflexivity |].
  split; [reflexivity |]. split; [reflexivity |]. reflexivity.
Defined.

(** ** Broadcast hub *)

Section HubFacts.
Variable websocket : Type.
Variable send_text : websocket → string → bool.
Variable json_dumps : update_message → string.

Lemma filter_all {A} (P : A → Prop) `{∀ x, Decision (P x)} (l : list A) :
  Forall P l → filter P l = l.
Proof.
  intros Hall. induction Hall as [| x l Hx _ IH]; [done |].
  rewrite filter_cons_True by done. by rewrite IH.
Qed.

Lemma fan_out_all_delivered (items : list (string * websocket)) (text : string) :
  (∀ c w, (c, w) ∈ items → send_text w text = true) →
  fan_out websocket send_text items text
  = ((λ p, Send p.1 text true) <$> items, []).
Proof.
  induction items as [| [c w] items IH]; intros Hok; [done |].
  simpl. rewrite IH.
  - rewrite (Hok c w) by apply list_elem_of_here. reflexivity.
  - intros c' w' Hin. apply (Hok c' w'). by apply list_elem_of_further.
Qed.

Lemma fan_out_one_failure (items : list (string * websocket)) (text : string)
    (client_id : string) (ws : websocket) :
  NoDup items.*1 →
  (client_id, ws) ∈ items →
  send_text ws text = false →
  (∀ c w, (c, w) ∈ items → c ≠ client_id → send_text w text = true) →
  fan_out websocket send_text items text
  = ((λ p, Send p.1 text (bool_decide (p.1 ≠ client_id))) <$> items,
     [client_id]).
Proof.
  induction items as [| [c w] items IH]; intros Hnd Hin Hfail Hok.
  { by apply elem_of_nil in Hin. }
  simpl in Hnd. apply NoDup_cons in Hnd as [Hc Hnd].
  simpl. destruct (decide (c = client_id)) as [-> | Hne].
  - assert (w = ws) as ->.
    { apply elem_of_cons in Hin as [[= ->] | Hin]; [done |].
      exfalso. apply Hc. apply list_elem_of_fmap. by exists (client_id, ws). }
    rewrite fan_out_all_delivered.
    + rewrite Hfail. rewrite bool_decide_eq_false_2 by (intros ?; done).
      f_equal. f_equal. apply list_fmap_ext. intros k [c' w'] Hk. simpl.
      rewrite bool_decide_eq_true_2; [done |]. intros ->. apply Hc.
      apply list_elem_of_fmap. exists (client_id, w'). split; [done |].
      by eapply list_elem_of_lookup_2.
    + intros c' w' Hin'. apply (Hok c' w'); [by apply list_elem_of_further |].
      intros ->. apply Hc. apply list_elem_of_fmap. by exists (client_id, w').
  - rewrite IH.
    + rewrite (Hok c w) by (apply list_elem_of_here || done).
      rewrite bool_decide_eq_true_2 by done. reflexivity.
    + exact Hnd.
    + apply elem_of_cons in Hin as [[= -> ->] | Hin]; [done | exact Hin].
    + exact Hfail.
    + intros c' w' Hin'. apply (Hok c' w'). by apply list_elem_of_further.
Qed.

(** C6: when the handle of exactly one of the subscribers fails, the
    broadcast first attempts the send on every subscriber, in the
    dictionary's order, each of the others receiving the event, and only then
    removes the failing subscriber, which leaves the others subscribed. *)
Theorem broadcast_one_failure (clients : list (string * websocket)) (sid : Z)
    (health_data : gmap string pyvalue) (now : Z)
    (client_id : string) (ws : websocket) :
  let text := json_dumps (UpdateMessage "health_update" sid health_data now) in
  NoDup clients.*1 →
  (client_id, ws) ∈ clients →
  send_text ws text = false →
  (∀ c w, (c, w) ∈ clients → c ≠ client_id → send_text w text = true) →
  let r := broadcast_health_update websocket send_text json_dumps clients sid
                                   health_data now in
  r.2 = ((λ p, Send p.1 text (bool_decide (p.1 ≠ client_id))) <$> clients)
        ++ [Disconnect client_id]
  ∧ r.1 = filter (λ p, p.1 ≠ client_id) clients
  ∧ (∀ c w, (c, w) ∈ clients → c ≠ client_id →
            Send c text true ∈ r.2 ∧ (c, w) ∈ r.1)
  ∧ (client_id ∉ fst <$> r.1)
  ∧ S (length r.1) = length clients.
Proof.
  intros text Hnd Hin Hfail Hok r.
  assert (r = (filter (λ p, p.1 ≠ client_id) clients,
               ((λ p, Send p.1 text (bool_decide (p.1 ≠ client_id))) <$> clients)
               ++ [Disconnect client_id])) as ->.
  { subst r. unfold broadcast_health_update.
    destruct clients as [| p clients']; [by apply elem_of_nil in Hin |].
    fold text. rewrite (fan_out_one_failure _ text client_id ws Hnd Hin Hfail Hok).
    simpl clean_up. unfold remove_websocket_client.
    rewrite decide_True.
    - reflexivity.
    - apply list_elem_of_fmap. by exists (client_id, ws). }
  simpl. split; [done |]. split; [done |]. split; [| split].
  - intros c w Hcw Hne. split.
    + apply elem_of_app. left. apply list_elem_of_fmap.
      exists (c, w). simpl. by rewrite bool_decide_eq_true_2.
    + apply list_elem_of_filter. done.
  - intros Hmem. apply list_elem_of_fmap in Hmem as ([c w] & -> & Hmem).
    apply list_elem_of_filter in Hmem as [Hne _]. done.
  - clear Hok Hfail. induction clients as [| [c w] clients IH].
    { by apply elem_of_nil in Hin. }
    simpl in Hnd. apply NoDup_cons in Hnd as [Hc Hnd].
    destruct (decide (c = client_id)) as [-> | Hne].
    + rewrite filter_cons_False by (simpl; intros ?; done).
      simpl. f_equal. f_equal. apply filter_all.
      apply Forall_forall. intros [c' w'] Hin'. simpl. intros ->. apply Hc.
      apply list_elem_of_fmap. by exists (client_id, w').
    + rewrite filter_cons_True by done. simpl. f_equal. apply IH; [done |].
      apply elem_of_cons in Hin as [[= -> ->] | Hin]; [done | exact Hin].
Qed.
End HubFacts.

Example broadcast_three :
  broadcast_health_update bool (λ ws _, ws) (λ _, "update"%string)
    three_clients 7 ∅ 0
  = ([ ("a"%string, true); ("c"%string, true) ],
     [ Send "a" "update" true; Send "b" "update" false; Send "c" "update" true;
       Disconnect "b" ]).
Proof. vm_compute. reflexivity. Qed.

Example broadcast_nobody :
  broadcast_health_update bool (λ ws _, ws) (λ _, "update"%string) [] 7 ∅ 0
  = ([], []).
Proof. reflexivity. Qed.

Lemma broadcast_one_failure_witness :
  let text := "update"%string in
  let r := broadcast_health_update bool (λ ws _, ws) (λ _, "update"%string)
                                   three_clients 7 ∅ 0 in
  r.2 = ((λ p : string * bool, Send p.1 text (bool_decide (p.1 ≠ "b"%string)))
           <$> three_clients)
        ++ [Disconnect "b"]
  ∧ r.1 = filter (λ p, p.1 ≠ "b"%string) three_clients
  ∧ (∀ c w, (c, w) ∈ three_clients → c ≠ "b"%string →
            Send c text true ∈ r.2 ∧ (c, w) ∈ r.1)
  ∧ ("b"%string ∉ fst <$> r.1)
  ∧ S (length r.1) = length three_clients.
Proof.
  apply (broadcast_one_failure bool (λ ws _, ws) (λ _, "update"%string)
           three_clients 7 ∅ 0 "b" false).
  - apply (bool_decide_unpack _). vm_compute. exact I.
  - unfold three_clients. set_solver.
  - reflexivity.
  - intros c w Hin Hne. unfold three_clients in Hin.
    repeat (apply elem_of_cons in Hin as [[= -> ->] | Hin]);
      [reflexivity | done | reflexivity | by apply elem_of_nil in Hin].
Defined.

(** ** Lifecycle *)

Section LifecycleFacts.
Variable websocket : Type.

(** C7: on an engine that is already active, [start_monitoring] changes no
    attribute, creates no task and logs nothing. *)
Theorem start_when_active (self : MonitorService websocket) :
  monitoring_active websocket self = true →
  start_monitoring websocket self = (self, []).
Proof. intros H. unfold start_monitoring. by rewrite H. Qed.

Lemma start_activates (self : MonitorService websocket) :
  monitoring_active websocket (start_monitoring websocket self).1 = true.
Proof.
  unfold start_monitoring.
  destruct (monitoring_active websocket self) eqn:H; [exact H | reflexivity].
Qed.

Lemma start_twice (self : MonitorService websocket) :
  start_monitoring websocket (start_monitoring websocket self).1
  = ((start_monitoring websocket self).1, []).
Proof.
  unfold start_monitoring.
  destruct (monitoring_active websocket self) eqn:H; simpl; [by rewrite H | done].
Qed.
End LifecycleFacts.

Lemma start_when_active_witness :
  start_monitoring bool
    (mkService bool true ∅ three_clients alert_thresholds)
  = (mkService bool true ∅ three_clients alert_thresholds, []).
Proof.
  apply (start_when_active bool
           (mkService bool true ∅ three_clients alert_thresholds)).
  reflexivity.
Defined.

Example start_from_init :
  start_monitoring bool (init bool)
  = (mkService bool true (check_intervals bool (init bool)) [] alert_thresholds,
     [ LogInfo "Starting system monitoring...";
       CreateTask health_check_loop;
       CreateTask performance_monitoring_loop;
       CreateTask service_monitoring_loop;
       CreateTask network_monitoring_loop;
       LogInfo "All monitoring tasks started" ]).
Proof. reflexivity. Qed.

(** * Further properties *)

#[local] Set Warnings "-clear-no-such-hyp".

(** ** Verdicts of the evaluator *)

Lemma Qgtb_false (q t : Q) : Qgtb q t = false ↔ (q <= t)%Q.
Proof.
  unfold Qgtb. rewrite negb_false_iff. apply Qle_bool_iff.
Qed.

Lemma assess_by_status thresholds health_data s :
  ping_status_of health_data = Ok s →
  assess_overall_health thresholds health_data
  = if py_eq_str s "down" then Ok "critical"%string else
    critical ← py_or (exceeds thresholds (dict_get health_data "cpu_usage" (PyNum 0))
                              "cpu_critical")
                (py_or (exceeds thresholds
                                (dict_get health_data "memory_usage" (PyNum 0))
                                "memory_critical")
                       (exceeds thresholds
                                (dict_get health_data "disk_usage" (PyNum 0))
                                "disk_critical"));
    if (critical : bool) then Ok "critical"%string else
    warning ← py_or (exceeds thresholds (dict_get health_data "cpu_usage" (PyNum 0))
                             "cpu_warning")
               (py_or (exceeds thresholds
                               (dict_get health_data "memory_usage" (PyNum 0))
                               "memory_warning")
                      (exceeds thresholds
                               (dict_get health_data "disk_usage" (PyNum 0))
                               "disk_warning"));
    if (warning : bool) then Ok "warning"%string else
    http_status ← http_status_of health_data;
    if py_eq_str http_status "error" then Ok "warning"%string
    else Ok "healthy"%string.
Proof.
  unfold ping_status_of, assess_overall_health, http_status_of. intros H.
  destruct (py_get (dict_get health_data "checks" (PyDict ∅)) "ping" (PyDict ∅))
    as [ping|]; simpl in *; [| discriminate].
  rewrite H. reflexivity.
Qed.

Lemma exceeds_default_limit (q : Q) (k : string) (t : Q) :
  alert_thresholds !! k = Some t →
  exceeds alert_thresholds (PyNum q) k = Ok (Qgtb q t).
Proof. intros H. unfold exceeds, subscript. rewrite H. reflexivity. Qed.

(** The verdict on a bundle with numeric usages, as a table. *)
Lemma assess_numeric health_data s h cpu memory disk :
  ping_status_of health_data = Ok s →
  http_status_of health_data = Ok h →
  usages_are health_data cpu memory disk →
  assess_overall_health alert_thresholds health_data
  = Ok (if py_eq_str s "down" then "critical"%string
        else if Qgtb cpu 90 || Qgtb memory 95 || Qgtb disk 95
             then "critical"%string
        else if Qgtb cpu 80 || Qgtb memory 85 || Qgtb disk 90
             then "warning"%string
        else if py_eq_str h "error" then "warning"%string
        else "healthy"%string).
Proof.
  intros Hs Hh (Hc & Hm & Hd). rewrite (assess_by_status _ _ _ Hs).
  rewrite Hc, Hm, Hd, Hh.
  rewrite (exceeds_default_limit cpu "cpu_critical" 90) by reflexivity.
  rewrite (exceeds_default_limit memory "memory_critical" 95) by reflexivity.
  rewrite (exceeds_default_limit disk "disk_critical" 95) by reflexivity.
  rewrite (exceeds_default_limit cpu "cpu_warning" 80) by reflexivity.
  rewrite (exceeds_default_limit memory "memory_warning" 85) by reflexivity.
  rewrite (exceeds_default_limit disk "disk_warning" 90) by reflexivity.
  destruct (py_eq_str s "down"); [reflexivity |].
  unfold py_or. simpl.
  destruct (Qgtb cpu 90), (Qgtb memory 95), (Qgtb disk 95); simpl;
    try reflexivity;
    destruct (Qgtb cpu 80), (Qgtb memory 85), (Qgtb disk 90); simpl;
    try reflexivity; destruct (py_eq_str h "error"); reflexivity.
Qed.

Lemma within_limits_healthy_aux (health_data : gmap string pyvalue)
    (s h : pyvalue) (cpu memory disk : Q) :
  ping_status_of health_data = Ok s → s ≠ PyStr "down" →
  http_status_of health_data = Ok h → h ≠ PyStr "error" →
  usages_are health_data cpu memory disk →
  Qgtb cpu 90 || Qgtb memory 95 || Qgtb disk 95 = false →
  Qgtb cpu 80 || Qgtb memory 85 || Qgtb disk 90 = false →
  assess_overall_health alert_thresholds health_data = Ok "healthy"%string.
Proof.
  intros Hs Hdown Hh Herr Hu Hc Hw.
  rewrite (assess_numeric _ _ _ _ _ _ Hs Hh Hu).
  assert (py_eq_str s "down" = false) as ->.
  { destruct s; simpl; try reflexivity. apply bool_decide_eq_false. congruence. }
  assert (py_eq_str h "error" = false) as ->.
  { destruct h; simpl; try reflexivity. apply bool_decide_eq_false. congruence. }
  by rewrite Hc, Hw.
Qed.

(** X1: a bundle whose ping status is not ['down'], whose usages are at or
    below the warning limits (80, 85 and 90 per cent; a missing usage counts
    as 0) and whose HTTP check did not end in an error is judged healthy. The
    limits themselves are not violations, and an HTTP status other than
    ['error'] (a reply that is not 200, say) does not degrade the verdict. *)
Theorem within_limits_is_healthy (health_data : gmap string pyvalue)
    (s h : pyvalue) (cpu memory disk : Q) :
  ping_status_of health_data = Ok s → s ≠ PyStr "down" →
  http_status_of health_data = Ok h → h ≠ PyStr "error" →
  usages_are health_data cpu memory disk →
  (cpu <= 80)%Q → (memory <= 85)%Q → (disk <= 90)%Q →
  assess_overall_health alert_thresholds health_data = Ok "healthy"%string.
Proof.
  intros Hs Hdown Hh Herr Hu Hc Hm Hd.
  rewrite (assess_numeric _ _ _ _ _ _ Hs Hh Hu).
  assert (py_eq_str s "down" = false) as ->.
  { destruct s; simpl; try reflexivity. apply bool_decide_eq_false. congruence. }
  assert (py_eq_str h "error" = false) as ->.
  { destruct h; simpl; try reflexivity. apply bool_decide_eq_false. congruence. }
  assert (Qgtb cpu 90 = false) as -> by (apply Qgtb_false; eapply Qle_trans; [exact Hc | discriminate]).
  assert (Qgtb memory 95 = false) as -> by (apply Qgtb_false; eapply Qle_trans; [exact Hm | discriminate]).
  assert (Qgtb disk 95 = false) as -> by (apply Qgtb_false; eapply Qle_trans; [exact Hd | discriminate]).
  assert (Qgtb cpu 80 = false) as -> by (by apply Qgtb_false).
  assert (Qgtb memory 85 = false) as -> by (by apply Qgtb_false).
  assert (Qgtb disk 90 = false) as -> by (by apply Qgtb_false).
  reflexivity.
Qed.

Lemma within_limits_is_healthy_witness :
  assess_overall_health alert_thresholds (bundle "up" 80 85 90)
  = Ok "healthy"%string.
Proof.
  apply (within_limits_is_healthy (bundle "up" 80 85 90) (PyStr "up") PyNone
           80 85 90).
  - reflexivity.
  - discriminate.
  - reflexivity.
  - discriminate.
  - repeat split.
  - discriminate.
  - discriminate.
  - discriminate.
Defined.

Lemma assess_numeric_usages health_data s cpu memory disk :
  ping_status_of health_data = Ok s →
  usages_are health_data cpu memory disk →
  assess_overall_health alert_thresholds health_data
  = if py_eq_str s "down" then Ok "critical"%string
    else if Qgtb cpu 90 || Qgtb memory 95 || Qgtb disk 95
         then Ok "critical"%string
    else if Qgtb cpu 80 || Qgtb memory 85 || Qgtb disk 90
         then Ok "warning"%string
    else http_status ← http_status_of health_data;
         if py_eq_str http_status "error" then Ok "warning"%string
         else Ok "healthy"%string.
Proof.
  intros Hs (Hc & Hm & Hd). rewrite (assess_by_status _ _ _ Hs).
  rewrite Hc, Hm, Hd.
  rewrite (exceeds_default_limit cpu "cpu_critical" 90) by reflexivity.
  rewrite (exceeds_default_limit memory "memory_critical" 95) by reflexivity.
  rewrite (exceeds_default_limit disk "disk_critical" 95) by reflexivity.
  rewrite (exceeds_default_limit cpu "cpu_warning" 80) by reflexivity.
  rewrite (exceeds_default_limit memory "memory_warning" 85) by reflexivity.
  rewrite (exceeds_default_limit disk "disk_warning" 90) by reflexivity.
  destruct (py_eq_str s "down"); [reflexivity |].
  unfold py_or. simpl.
  destruct (Qgtb cpu 90), (Qgtb memory 95), (Qgtb disk 95); simpl;
    try reflexivity;
    destruct (Qgtb cpu 80), (Qgtb memory 85), (Qgtb disk 90); reflexivity.
Qed.

Lemma py_eq_str_other (v : pyvalue) (s : string) :
  v ≠ PyStr s → py_eq_str v s = false.
Proof.
  intros Hne. destruct v; simpl; try reflexivity.
  apply bool_decide_eq_false. congruence.
Qed.

(** X2: with numeric usages, one usage above its critical limit (90, 95 and
    95 per cent) makes the verdict critical, whatever the HTTP check holds;
    the evaluator does not even read it. *)
Theorem above_critical_is_critical (health_data : gmap string pyvalue)
    (s : pyvalue) (cpu memory disk : Q) :
  ping_status_of health_data = Ok s →
  usages_are health_data cpu memory disk →
  (90 < cpu)%Q ∨ (95 < memory)%Q ∨ (95 < disk)%Q →
  assess_overall_health alert_thresholds health_data = Ok "critical"%string.
Proof.
  intros Hs Hu Habove. rewrite (assess_numeric_usages _ _ _ _ _ Hs Hu).
  destruct (py_eq_str s "down"); [reflexivity |].
  assert (Qgtb cpu 90 || Qgtb memory 95 || Qgtb disk 95 = true) as ->;
    [| reflexivity].
  destruct Habove as [H | [H | H]]; apply Qgtb_true in H; rewrite H;
    rewrite ?orb_true_r; reflexivity.
Qed.

Lemma above_critical_is_critical_witness :
  assess_overall_health alert_thresholds
    (<["http_check"%string := PyStr "not a dictionary"]> (bundle "up" 10 96 30))
  = Ok "critical"%string.
Proof.
  apply (above_critical_is_critical _ (PyStr "up") 10 96 30).
  - reflexivity.
  - repeat split.
  - right. left. reflexivity.
Defined.

(** X3: with numeric usages none of which is above its critical limit, a
    ping status other than ['down'] and one usage above its warning limit
    (80, 85 and 90 per cent) give the verdict warning. *)
Theorem above_warning_is_warning (health_data : gmap string pyvalue)
    (s : pyvalue) (cpu memory disk : Q) :
  ping_status_of health_data = Ok s → s ≠ PyStr "down" →
  usages_are health_data cpu memory disk →
  (cpu <= 90)%Q → (memory <= 95)%Q → (disk <= 95)%Q →
  (80 < cpu)%Q ∨ (85 < memory)%Q ∨ (90 < disk)%Q →
  assess_overall_health alert_thresholds health_data = Ok "warning"%string.
Proof.
  intros Hs Hdown Hu Hc Hm Hd Habove.
  rewrite (assess_numeric_usages _ _ _ _ _ Hs Hu).
  rewrite (py_eq_str_other _ _ Hdown).
  apply Qgtb_false in Hc, Hm, Hd. rewrite Hc, Hm, Hd. simpl.
  assert (Qgtb cpu 80 || Qgtb memory 85 || Qgtb disk 90 = true) as ->;
    [| reflexivity].
  destruct Habove as [H | [H | H]]; apply Qgtb_true in H; rewrite H;
    rewrite ?orb_true_r; reflexivity.
Qed.

Lemma above_warning_is_warning_witness :
  assess_overall_health alert_thresholds (bundle "up" 90 20 30)
  = Ok "warning"%string.
Proof.
  apply (above_warning_is_warning (bundle "up" 90 20 30) (PyStr "up") 90 20 30).
  - reflexivity.
  - discriminate.
  - repeat split.
  - discriminate.
  - discriminate.
  - discriminate.
  - left. reflexivity.
Defined.

(** X4: with a ping status other than ['down'] and usages at or below the
    warning limits, an HTTP check whose status is ['error'] gives the verdict
    warning. *)
Theorem http_error_is_warning (health_data : gmap string pyvalue)
    (s : pyvalue) (cpu memory disk : Q) :
  ping_status_of health_data = Ok s → s ≠ PyStr "down" →
  http_status_of health_data = Ok (PyStr "error") →
  usages_are health_data cpu memory disk →
  (cpu <= 80)%Q → (memory <= 85)%Q → (disk <= 90)%Q →
  assess_overall_health alert_thresholds health_data = Ok "warning"%string.
Proof.
  intros Hs Hdown Hh Hu Hc Hm Hd.
  rewrite (assess_numeric _ _ _ _ _ _ Hs Hh Hu).
  rewrite (py_eq_str_other _ _ Hdown).
  assert (Qgtb cpu 90 = false) as -> by (apply Qgtb_false; eapply Qle_trans; [exact Hc | discriminate]).
  assert (Qgtb memory 95 = false) as -> by (apply Qgtb_false; eapply Qle_trans; [exact Hm | discriminate]).
  assert (Qgtb disk 95 = false) as -> by (apply Qgtb_false; eapply Qle_trans; [exact Hd | discriminate]).
  apply Qgtb_false in Hc, Hm, Hd. rewrite Hc, Hm, Hd. reflexivity.
Qed.

Lemma http_error_is_warning_witness :
  assess_overall_health alert_thresholds
    (<["http_check"%string := PyDict {[ "status"%string := PyStr "error" ]}]>
       remote_bundle)
  = Ok "warning"%string.
Proof.
  apply (http_error_is_warning _ (PyStr "up") 0 0 0).
  - reflexivity.
  - discriminate.
  - reflexivity.
  - repeat split.
  - discriminate.
  - discriminate.
  - discriminate.
Defined.

(** ** Alerts of one bundle *)

Section AlertListFacts.
Variable thresholds : gmap string Q.

Lemma threshold_check_numeric label metric crit_key warn_key q tc tw :
  thresholds !! crit_key = Some tc → thresholds !! warn_key = Some tw →
  threshold_check thresholds label metric crit_key warn_key (PyNum q)
  = if Qgtb q tc then
      match to_float q with
      | Some f =>
          Ok [AlertData "critical"
                (label +:+ " usage critical: " +:+ format_1f f +:+ "%")
                metric (PyNum q)]
      | None => Raise OverflowError
      end
    else if Qgtb q tw then
      match to_float q with
      | Some f =>
          Ok [AlertData "warning"
                (label +:+ " usage high: " +:+ format_1f f +:+ "%")
                metric (PyNum q)]
      | None => Raise OverflowError
      end
    else Ok [].
Proof.
  intros Hc Hw. unfold threshold_check, exceeds, subscript.
  rewrite Hc, Hw. simpl.
  destruct (Qgtb q tc); simpl; [by destruct (to_float q) |].
  destruct (Qgtb q tw); simpl; [by destruct (to_float q) | done].
Qed.

(** X5: the alerts a bundle raises for one tracked usage, measured as [q]
    (0 when missing): one critical alert above the critical limit, otherwise
    one warning alert above the warning limit, otherwise none; the message is
    the label, the severity wording and the float of [q] (an int is converted
    to a float before it is printed) with one decimal. *)
Theorem alerts_of_usage (health_data : gmap string pyvalue)
    (label metric crit_key warn_key : string) (q tc tw : Q)
    (l : list alert_data) :
  (label, metric, crit_key, warn_key) ∈ tracked_blocks →
  dict_get health_data metric (PyNum 0) = PyNum q →
  thresholds !! crit_key = Some tc →
  thresholds !! warn_key = Some tw →
  alerts_to_create thresholds health_data = Ok l →
  if Qgtb q tc then
    ∃ f, to_float q = Some f
         ∧ filter (λ ad, ad_metric ad = metric) l
           = [AlertData "critical"
                (label +:+ " usage critical: " +:+ format_1f f +:+ "%")
                metric (PyNum q)]
  else if Qgtb q tw then
    ∃ f, to_float q = Some f
         ∧ filter (λ ad, ad_metric ad = metric) l
           = [AlertData "warning"
                (label +:+ " usage high: " +:+ format_1f f +:+ "%")
                metric (PyNum q)]
  else filter (λ ad, ad_metric ad = metric) l = [].
Proof.
  intros Hin Hq Hc Hw Hl.
  apply alerts_to_create_blocks in Hl
    as (cpu & memory & disk & Hcpu & Hmem & Hdisk & ->).
  pose proof (threshold_check_entries _ _ _ _ _ _ _ Hcpu) as Fcpu.
  pose proof (threshold_check_entries _ _ _ _ _ _ _ Hmem) as Fmem.
  pose proof (threshold_check_entries _ _ _ _ _ _ _ Hdisk) as Fdisk.
  rewrite !filter_app. unfold tracked_blocks in Hin.
  assert (∀ own : list alert_data,
            Forall (λ ad, ad_metric ad = metric) own →
            (if Qgtb q tc then
               match to_float q with
               | Some f =>
                   Ok [AlertData "critical"
                         (label +:+ " usage critical: " +:+ format_1f f +:+ "%")
                         metric (PyNum q)]
               | None => Raise OverflowError
               end
             else if Qgtb q tw then
               match to_float q with
               | Some f =>
                   Ok [AlertData "warning"
                         (label +:+ " usage high: " +:+ format_1f f +:+ "%")
                         metric (PyNum q)]
               | None => Raise OverflowError
               end
             else Ok []) = Ok own →
            if Qgtb q tc then
              ∃ f, to_float q = Some f
                   ∧ filter (λ ad, ad_metric ad = metric) own
                     = [AlertData "critical"
                          (label +:+ " usage critical: " +:+ format_1f f +:+ "%")
                          metric (PyNum q)]
            else if Qgtb q tw then
              ∃ f, to_float q = Some f
                   ∧ filter (λ ad, ad_metric ad = metric) own
                     = [AlertData "warning"
                          (label +:+ " usage high: " +:+ format_1f f +:+ "%")
                          metric (PyNum q)]
            else filter (λ ad, ad_metric ad = metric) own = []) as Hown.
  { intros own Fown Hown. rewrite (filter_all _ own Fown).
    destruct (Qgtb q tc).
    - destruct (to_float q) as [f|]; [| discriminate].
      injection Hown as <-. eauto.
    - destruct (Qgtb q tw).
      + destruct (to_float q) as [f|]; [| discriminate].
        injection Hown as <-. eauto.
      + by injection Hown as <-. }
  repeat (apply elem_of_cons in Hin as [[= -> -> -> ->] | Hin]);
    [ | | | by apply elem_of_nil in Hin ]; rewrite Hq in *.
  - rewrite (threshold_check_numeric _ _ _ _ q tc tw Hc Hw) in Hcpu.
    rewrite (filter_other_metric "cpu_usage" "memory_usage" memory) by done.
    rewrite (filter_other_metric "cpu_usage" "disk_usage" disk) by done.
    rewrite !app_nil_r. by apply Hown.
  - rewrite (threshold_check_numeric _ _ _ _ q tc tw Hc Hw) in Hmem.
    rewrite (filter_other_metric "memory_usage" "cpu_usage" cpu) by done.
    rewrite (filter_other_metric "memory_usage" "disk_usage" disk) by done.
    rewrite app_nil_r. simpl. by apply Hown.
  - rewrite (threshold_check_numeric _ _ _ _ q tc tw Hc Hw) in Hdisk.
    rewrite (filter_other_metric "disk_usage" "cpu_usage" cpu) by done.
    rewrite (filter_other_metric "disk_usage" "memory_usage" memory) by done.
    simpl. by apply Hown.
Qed.
End AlertListFacts.

(** An int that no float equals is printed as the float nearest to it. *)
Example cpu_above_2_53 :
  alerts_to_create alert_thresholds
    {[ "cpu_usage"%string := PyNum 9007199254740993 ]}
  = Ok [AlertData "critical" "CPU usage critical: 9007199254740992.0%"
                  "cpu_usage" (PyNum 9007199254740993)].
Proof. vm_compute. reflexivity. Qed.

(** An int beyond the range of the floats cannot be printed. *)
Example cpu_10_400 :
  alerts_to_create alert_thresholds
    {[ "cpu_usage"%string := PyNum (inject_Z (10 ^ 400)) ]}
  = Raise OverflowError.
Proof. vm_compute. reflexivity. Qed.

Lemma alerts_of_usage_witness :
  if Qgtb 9007199254740993 90 then
    ∃ f, to_float 9007199254740993 = Some f
         ∧ filter (λ ad, ad_metric ad = "cpu_usage"%string)
             [AlertData "critical" "CPU usage critical: 9007199254740992.0%"
                        "cpu_usage" (PyNum 9007199254740993)]
           = [AlertData "critical"
                ("CPU" +:+ " usage critical: " +:+ format_1f f +:+ "%")
                "cpu_usage" (PyNum 9007199254740993)]
  else if Qgtb 9007199254740993 80 then
    ∃ f, to_float 9007199254740993 = Some f
         ∧ filter (λ ad, ad_metric ad = "cpu_usage"%string)
             [AlertData "critical" "CPU usage critical: 9007199254740992.0%"
                        "cpu_usage" (PyNum 9007199254740993)]
           = [AlertData "warning"
                ("CPU" +:+ " usage high: " +:+ format_1f f +:+ "%")
                "cpu_usage" (PyNum 9007199254740993)]
  else filter (λ ad, ad_metric ad = "cpu_usage"%string)
         [AlertData "critical" "CPU usage critical: 9007199254740992.0%"
                    "cpu_usage" (PyNum 9007199254740993)] = [].
Proof.
  apply (alerts_of_usage alert_thresholds
           {[ "cpu_usage"%string := PyNum 9007199254740993 ]}
           "CPU" "cpu_usage" "cpu_critical" "cpu_warning"
           9007199254740993 90 80).
  - unfold tracked_blocks. set_solver.
  - reflexivity.
  - reflexivity.
  - reflexivity.
  - vm_compute. reflexivity.
Defined.

Section AlertShapeFacts.
Variable thresholds : gmap string Q.

Lemma threshold_check_shape label metric crit_key warn_key usage l :
  threshold_check thresholds label metric crit_key warn_key usage = Ok l →
  l = [] ∨ ∃ sev msg, l = [AlertData sev msg metric usage]
                      ∧ (sev = "critical"%string ∨ sev = "warning"%string).
Proof.
  unfold threshold_check. intros H.
  bind_cases H; inversion H; eauto 6.
Qed.

(** X6: a bundle raises at most one alert per tracked usage, in the order
    cpu, memory, disk (so at most three in all); each alert is critical or
    warning and carries the value the bundle holds for its usage (0 when it
    is missing). *)
Theorem alerts_follow_the_usages (health_data : gmap string pyvalue)
    (l : list alert_data) :
  alerts_to_create thresholds health_data = Ok l →
  sublist (ad_metric <$> l) usages
  ∧ Forall (λ ad, (ad_severity ad = "critical"%string
                   ∨ ad_severity ad = "warning"%string)
                  ∧ ad_value ad = dict_get health_data (ad_metric ad) (PyNum 0))
           l.
Proof.
  intros Hl.
  apply alerts_to_create_blocks in Hl
    as (cpu & memory & disk & Hcpu & Hmem & Hdisk & ->).
  apply threshold_check_shape in Hcpu as [-> | (s1 & m1 & -> & S1)];
    apply threshold_check_shape in Hmem as [-> | (s2 & m2 & -> & S2)];
    apply threshold_check_shape in Hdisk as [-> | (s3 & m3 & -> & S3)];
    simpl; unfold usages;
    (split;
     [ solve [repeat first [apply sublist_nil | apply sublist_skip
                           | apply sublist_cons]]
     | repeat (apply Forall_cons; split;
               [split; [assumption | reflexivity] |]);
       by apply Forall_nil ]).
Qed.
End AlertShapeFacts.

Lemma alerts_follow_the_usages_witness :
  sublist (ad_metric <$>
             [AlertData "warning" "CPU usage high: 85.0%" "cpu_usage"
                        (PyNum 85%Q);
              AlertData "critical" "Disk usage critical: 96.0%" "disk_usage"
                        (PyNum 96%Q)]) usages
  ∧ Forall (λ ad, (ad_severity ad = "critical"%string
                   ∨ ad_severity ad = "warning"%string)
                  ∧ ad_value ad
                    = dict_get (bundle "up" 85 20 96) (ad_metric ad) (PyNum 0))
      [AlertData "warning" "CPU usage high: 85.0%" "cpu_usage" (PyNum 85%Q);
       AlertData "critical" "Disk usage critical: 96.0%" "disk_usage"
                 (PyNum 96%Q)].
Proof.
  apply (alerts_follow_the_usages alert_thresholds (bundle "up" 85 20 96)).
  vm_compute. reflexivity.
Defined.

Section AlertErrorFacts.
Variable thresholds : gmap string Q.

Lemma threshold_check_cases label metric crit_key warn_key v :
  is_Some (thresholds !! crit_key) → is_Some (thresholds !! warn_key) →
  match threshold_check thresholds label metric crit_key warn_key v with
  | Ok _ => number_or_absent (Some v)
  | Raise e =>
      (e = TypeError ∧ ¬ number_or_absent (Some v))
      ∨ (e = OverflowError ∧ number_or_absent (Some v)
         ∧ ¬ formattable (Some v))
  end.
Proof.
  intros [tc Hc] [tw Hw]. unfold threshold_check, exceeds, subscript.
  rewrite Hc, Hw. simpl.
  destruct v; simpl; try (left; split; [reflexivity | tauto]).
  - destruct (Qgtb (if b then 1%Q else 0%Q) tc); simpl; [exact I |].
    destruct (Qgtb (if b then 1%Q else 0%Q) tw); simpl; exact I.
  - destruct (Qgtb q tc); simpl.
    + destruct (to_float q) eqn:E; simpl; [exact I |].
      right. split; [done |]. split; [exact I |]. by intros [? ?].
    + destruct (Qgtb q tw); simpl; [| exact I].
      destruct (to_float q) eqn:E; simpl; [exact I |].
      right. split; [done |]. split; [exact I |]. by intros [? ?].
Qed.

Lemma threshold_check_returns label metric crit_key warn_key v :
  is_Some (thresholds !! crit_key) → is_Some (thresholds !! warn_key) →
  number_or_absent (Some v) → formattable (Some v) →
  ∃ l, threshold_check thresholds label metric crit_key warn_key v = Ok l.
Proof.
  intros Hc Hw Hn Hf.
  pose proof (threshold_check_cases label metric crit_key warn_key v Hc Hw) as H.
  destruct (threshold_check _ _ _ _ _ v) as [l|e]; [eauto |].
  destruct H as [[_ H] | (_ & _ & H)]; done.
Qed.

Lemma number_or_absent_get (health_data : gmap string pyvalue) (k : string) :
  number_or_absent (health_data !! k)
  ↔ number_or_absent (Some (dict_get health_data k (PyNum 0))).
Proof. unfold dict_get. destruct (health_data !! k); simpl; tauto. Qed.

Lemma formattable_get (health_data : gmap string pyvalue) (k : string) :
  formattable (health_data !! k) →
  formattable (Some (dict_get health_data k (PyNum 0))).
Proof.
  unfold dict_get. destruct (health_data !! k); simpl; [done |].
  intros _. by eexists.
Qed.

(** X7: given the six limits, the list of alerts is computed whenever each
    of the three usages is missing or is a number that the format code can
    print (any float, any int within the range of the floats); it is not
    computed when a usage has another type (an explicit [None], a string);
    and when it is not computed, [check_health_thresholds] raises
    [TypeError] or [OverflowError] before any alert is created. *)
Theorem usages_must_be_numbers (health_data : gmap string pyvalue) :
  has_limits thresholds →
  (Forall (λ k, number_or_absent (health_data !! k)
                ∧ formattable (health_data !! k)) usages →
   ∃ l, alerts_to_create thresholds health_data = Ok l)
  ∧ (¬ Forall (λ k, number_or_absent (health_data !! k)) usages →
     ∃ e, alerts_to_create thresholds health_data = Raise e)
  ∧ (∀ e, alerts_to_create thresholds health_data = Raise e →
          (e = TypeError ∨ e = OverflowError)
          ∧ ∀ updated_at_default sid db utcnow,
              check_health_thresholds updated_at_default thresholds sid
                health_data db utcnow = Raise e).
Proof.
  intros Hl. repeat (apply Forall_cons in Hl as [? Hl]).
  pose proof (threshold_check_cases "CPU" "cpu_usage" "cpu_critical"
                "cpu_warning" (dict_get health_data "cpu_usage" (PyNum 0))
                ltac:(done) ltac:(done)) as C1.
  pose proof (threshold_check_cases "Memory" "memory_usage" "memory_critical"
                "memory_warning" (dict_get health_data "memory_usage" (PyNum 0))
                ltac:(done) ltac:(done)) as C2.
  pose proof (threshold_check_cases "Disk" "disk_usage" "disk_critical"
                "disk_warning" (dict_get health_data "disk_usage" (PyNum 0))
                ltac:(done) ltac:(done)) as C3.
  split; [| split].
  - unfold usages. rewrite !Forall_cons.
    intros ((N1 & F1) & (N2 & F2) & (N3 & F3) & _).
    apply number_or_absent_get in N1, N2, N3.
    apply formattable_get in F1, F2, F3.
    unfold alerts_to_create.
    destruct (threshold_check_returns "CPU" "cpu_usage" "cpu_critical"
                "cpu_warning" _ ltac:(done) ltac:(done) N1 F1) as [l1 ->].
    destruct (threshold_check_returns "Memory" "memory_usage" "memory_critical"
                "memory_warning" _ ltac:(done) ltac:(done) N2 F2) as [l2 ->].
    destruct (threshold_check_returns "Disk" "disk_usage" "disk_critical"
                "disk_warning" _ ltac:(done) ltac:(done) N3 F3) as [l3 ->].
    simpl. eauto.
  - unfold usages. rewrite !Forall_cons, !number_or_absent_get.
    intros Hn. unfold alerts_to_create.
    destruct (threshold_check _ "CPU" _ _ _ _) as [l1|e1]; simpl; [| eauto].
    destruct (threshold_check _ "Memory" _ _ _ _) as [l2|e2]; simpl; [| eauto].
    destruct (threshold_check _ "Disk" _ _ _ _) as [l3|e3]; simpl; [| eauto].
    exfalso. apply Hn. rewrite Forall_nil. tauto.
  - intros e He. split.
    + unfold alerts_to_create in He.
      destruct (threshold_check _ "CPU" _ _ _ _) as [l1|e1]; simpl in He.
      2: { injection He as <-. destruct C1 as [[-> _] | [-> _]]; auto. }
      destruct (threshold_check _ "Memory" _ _ _ _) as [l2|e2]; simpl in He.
      2: { injection He as <-. destruct C2 as [[-> _] | [-> _]]; auto. }
      destruct (threshold_check _ "Disk" _ _ _ _) as [l3|e3]; simpl in He.
      2: { injection He as <-. destruct C3 as [[-> _] | [-> _]]; auto. }
      discriminate.
    + intros. unfold check_health_thresholds. by rewrite He.
Qed.
End AlertErrorFacts.

Lemma usages_must_be_numbers_witness :
  (Forall (λ k, number_or_absent (bundle "up" 92 20 96 !! k)
                ∧ formattable (bundle "up" 92 20 96 !! k)) usages →
   ∃ l, alerts_to_create alert_thresholds (bundle "up" 92 20 96) = Ok l)
  ∧ (¬ Forall (λ k, number_or_absent (bundle "up" 92 20 96 !! k)) usages →
     ∃ e, alerts_to_create alert_thresholds (bundle "up" 92 20 96) = Raise e)
  ∧ (∀ e, alerts_to_create alert_thresholds (bundle "up" 92 20 96) = Raise e →
          (e = TypeError ∨ e = OverflowError)
          ∧ ∀ updated_at_default sid db utcnow,
              check_health_thresholds updated_at_default alert_thresholds sid
                (bundle "up" 92 20 96) db utcnow = Raise e).
Proof.
  apply (usages_must_be_numbers alert_thresholds (bundle "up" 92 20 96)).
  exact alert_thresholds_has_limits.
Defined.

Example memory_none_raises :
  check_health_thresholds None alert_thresholds 7
    (<["memory_usage"%string := PyNone]> (bundle "up" 92 20 96)) []
    (λ k, Z.of_nat k)
  = Raise TypeError.
Proof. vm_compute. reflexivity. Qed.

(** ** Verdict and alerts of the same bundle *)

Section VerdictAlertFacts.
Variable thresholds : gmap string Q.

Lemma threshold_check_inv label metric crit_key warn_key usage l :
  threshold_check thresholds label metric crit_key warn_key usage = Ok l →
  ∃ c, exceeds thresholds usage crit_key = Ok c
       ∧ if (c : bool) then
           ∃ msg, l = [AlertData "critical" msg metric usage]
         else
           ∃ w, exceeds thresholds usage warn_key = Ok w
                ∧ if (w : bool) then
                    ∃ msg, l = [AlertData "warning" msg metric usage]
                  else l = [].
Proof.
  unfold threshold_check. intros H.
  destruct (exceeds thresholds usage crit_key) as [[]|]; simpl in H;
    [| | discriminate].
  - exists true. split; [done |]. bind_cases H; inversion H; eauto.
  - exists false. split; [done |].
    destruct (exceeds thresholds usage warn_key) as [[]|]; simpl in H;
      [| | discriminate].
    + exists true. split; [done |]. bind_cases H; inversion H; eauto.
    + exists false. split; [done |]. by inversion H.
Qed.

(** X8: the verdict and the alerts of one bundle agree: when the bundle
    raises an alert the verdict is not healthy, and when it raises a critical
    alert the verdict is critical. A bundle judged healthy raises no alert. *)
Theorem alert_means_not_healthy (health_data : gmap string pyvalue)
    (l : list alert_data) (v : string) :
  alerts_to_create thresholds health_data = Ok l →
  assess_overall_health thresholds health_data = Ok v →
  (l ≠ [] → v = "critical"%string ∨ v = "warning"%string)
  ∧ ((∃ ad, ad ∈ l ∧ ad_severity ad = "critical"%string) →
     v = "critical"%string)
  ∧ (v = "healthy"%string → l = []).
Proof.
  intros Hl Hv.
  apply alerts_to_create_blocks in Hl
    as (cpu & memory & disk & Hcpu & Hmem & Hdisk & ->).
  apply threshold_check_inv in Hcpu as (c1 & C1 & L1).
  apply threshold_check_inv in Hmem as (c2 & C2 & L2).
  apply threshold_check_inv in Hdisk as (c3 & C3 & L3).
  destruct (ping_status_of health_data) as [s|] eqn:Hs.
  2: { unfold assess_overall_health, ping_status_of in *.
       destruct (py_get _ "ping" _); simpl in *; [by rewrite Hs in Hv | done]. }
  rewrite (assess_by_status _ _ _ Hs) in Hv.
  assert (∀ ad, ad ∈ cpu ++ memory ++ disk →
                ad_severity ad = "critical"%string →
                c1 || c2 || c3 = true) as Hcrit.
  { intros ad Hin Hsev. destruct c1; [done |]. destruct c2; [done |].
    destruct c3; [done |]. exfalso.
    destruct L1 as (w1 & _ & L1), L2 as (w2 & _ & L2), L3 as (w3 & _ & L3).
    destruct w1, w2, w3;
      repeat match goal with
             | H : ∃ _, _ |- _ => destruct H as [? ->]
             | H : _ = [] |- _ => rewrite H in *; clear H
             end;
      simpl in Hin;
      repeat (apply elem_of_cons in Hin as [-> | Hin]; [discriminate |]);
      by apply elem_of_nil in Hin. }
  destruct (py_eq_str s "down").
  { injection Hv as <-. split; [auto |]. split; [auto | discriminate]. }
  rewrite C1, C2, C3 in Hv. unfold py_or in Hv. simpl in Hv.
  destruct (c1 || c2 || c3) eqn:Hc.
  { assert (v = "critical"%string) as ->
      by (destruct c1, c2, c3; simpl in *; congruence).
    split; [auto |]. split; [auto | discriminate]. }
  destruct c1, c2, c3; try discriminate. simpl in Hv.
  destruct L1 as (w1 & W1 & L1), L2 as (w2 & W2 & L2), L3 as (w3 & W3 & L3).
  rewrite W1, W2, W3 in Hv. simpl in Hv.
  split; [| split].
  - intros Hne. destruct w1, w2, w3; simpl in Hv;
      try (injection Hv as <-; by right).
    subst. done.
  - intros (ad & Hin & Hsev). by specialize (Hcrit ad Hin Hsev).
  - intros ->. destruct w1, w2, w3; simpl in Hv; try discriminate.
    by subst.
Qed.
End VerdictAlertFacts.

Lemma alert_means_not_healthy_witness :
  ([AlertData "warning" "CPU usage high: 85.0%" "cpu_usage" (PyNum 85%Q);
    AlertData "critical" "Disk usage critical: 96.0%" "disk_usage" (PyNum 96%Q)]
   ≠ [] → "critical"%string = "critical"%string
          ∨ "critical"%string = "warning"%string)
  ∧ ((∃ ad, ad ∈ [AlertData "warning" "CPU usage high: 85.0%" "cpu_usage"
                            (PyNum 85%Q);
                  AlertData "critical" "Disk usage critical: 96.0%"
                            "disk_usage" (PyNum 96%Q)]
            ∧ ad_severity ad = "critical"%string) →
     "critical"%string = "critical"%string)
  ∧ ("critical"%string = "healthy"%string →
     [AlertData "warning" "CPU usage high: 85.0%" "cpu_usage" (PyNum 85%Q);
      AlertData "critical" "Disk usage critical: 96.0%" "disk_usage"
                (PyNum 96%Q)] = []).
Proof.
  apply (alert_means_not_healthy alert_thresholds (bundle "up" 85 20 96)).
  - vm_compute. reflexivity.
  - vm_compute. reflexivity.
Defined.

(** ** The alert table *)

Section TableFacts.
Variable updated_at_default : option Z.

(** X9: [create_alert] deletes and reorders nothing: the table keeps its
    rows in place and grows by at most one; a row keeps every column but
    [count] and [updated_at], its count does not decrease, and a row the
    filter of the query rejects (another server or message, not active,
    created before the window) is left exactly as it was. *)
Theorem create_alert_keeps_rows (db : list Alert) (sid : Z) (sev msg : string)
    (kwargs : gmap string pyvalue) (now1 now2 : Z) (i : nat) (a : Alert) :
  db !! i = Some a →
  let r := create_alert updated_at_default db sid sev msg kwargs now1 now2 in
  (length db ≤ length r.1 ≤ S (length db))%nat
  ∧ (∃ a', r.1 !! i = Some a' ∧ same_alert a a'
           ∧ count a ≤ count a' ≤ count a + 1)
  ∧ (¬ is_duplicate sid msg now1 a → r.1 !! i = Some a).
Proof.
  intros Hi r. subst r.
  destruct (existing_alert db sid msg now1) as [[i0 a0]|] eqn:H.
  - rewrite (create_alert_found _ _ _ _ _ _ _ _ _ _ H). simpl.
    apply existing_alert_Some in H as [Hi0 Hdup].
    rewrite length_insert. split; [lia |].
    destruct (decide (i = i0)) as [-> | Hne].
    + rewrite Hi in Hi0. injection Hi0 as <-.
      rewrite list_lookup_insert_eq by (by eapply lookup_lt_Some).
      split; [| done]. eexists. split; [reflexivity |].
      unfold same_alert. simpl. split; [done | lia].
    + rewrite list_lookup_insert_ne by done.
      split; [| done]. exists a. unfold same_alert. split; [done |].
      split; [done | lia].
  - rewrite (create_alert_fresh _ _ _ _ _ _ _ _ H). simpl.
    rewrite length_app. simpl. split; [lia |].
    rewrite lookup_app_l by (by eapply lookup_lt_Some).
    split; [| done]. exists a. unfold same_alert. split; [done |].
    split; [done | lia].
Qed.
End TableFacts.

Lemma create_alert_keeps_rows_witness :
  let r := create_alert None raised_twice 7 "warning" "Disk usage high: 91.0%"
                        ∅ (10 * minute) (10 * minute) in
  (length raised_twice ≤ length r.1 ≤ S (length raised_twice))%nat
  ∧ (∃ a', r.1 !! 0%nat = Some a'
           ∧ same_alert (mkAlert 7 "critical" "CPU usage critical: 92.0%"
                                 "active" PyNone PyNone 2 0 (Some (9 * minute)))
                        a'
           ∧ 2 ≤ count a' ≤ 2 + 1)
  ∧ (¬ is_duplicate 7 "Disk usage high: 91.0%" (10 * minute)
         (mkAlert 7 "critical" "CPU usage critical: 92.0%" "active"
                  PyNone PyNone 2 0 (Some (9 * minute))) →
     r.1 !! 0%nat
     = Some (mkAlert 7 "critical" "CPU usage critical: 92.0%" "active"
                     PyNone PyNone 2 0 (Some (9 * minute)))).
Proof.
  apply (create_alert_keeps_rows None raised_twice 7 "warning"
           "Disk usage high: 91.0%" ∅ (10 * minute) (10 * minute) 0
           (mkAlert 7 "critical" "CPU usage critical: 92.0%" "active"
                    PyNone PyNone 2 0 (Some (9 * minute)))).
  reflexivity.
Defined.

Section WindowInvariant.
Variable updated_at_default : option Z.

Lemma is_duplicate_later sid msg now now' a :
  now ≤ now' → is_duplicate sid msg now' a → is_duplicate sid msg now a.
Proof.
  unfold is_duplicate. intros Hle (? & ? & ? & ?).
  repeat split; [assumption .. | lia].
Qed.

Lemma one_per_window_later now now' db :
  now ≤ now' → one_per_window now db → one_per_window now' db.
Proof.
  intros Hle Hone i j a b Hi Hj Ha Hb.
  apply (Hone i j a b Hi Hj); by apply (is_duplicate_later _ _ now now').
Qed.

Lemma is_duplicate_same_alert sid msg now a a' :
  same_alert a a' → is_duplicate sid msg now a' → is_duplicate sid msg now a.
Proof.
  unfold same_alert, is_duplicate.
  intros (-> & _ & -> & -> & _ & _ & ->). done.
Qed.

(** X10: deduplication keeps the table free of doubles: if, at some earlier
    time, no two active alerts for the same server and message were both
    within the window, the same holds at the time of the query after
    [create_alert] has run. *)
Theorem create_alert_one_per_window (db : list Alert) (sid : Z)
    (sev msg : string) (kwargs : gmap string pyvalue) (t now1 now2 : Z) :
  one_per_window t db →
  t ≤ now1 →
  one_per_window now1
    (create_alert updated_at_default db sid sev msg kwargs now1 now2).1.
Proof.
  intros Hone Hle. apply (one_per_window_later t now1 db Hle) in Hone.
  destruct (existing_alert db sid msg now1) as [[i0 a0]|] eqn:H.
  - rewrite (create_alert_found _ _ _ _ _ _ _ _ _ _ H). simpl.
    apply existing_alert_Some in H as [Hi0 _].
    set (a0' := mkAlert _ _ _ _ _ _ _ _ _).
    assert (same_alert a0 a0') as Hsame by (by unfold same_alert).
    assert (∀ k x, <[i0 := a0']> db !! k = Some x →
                   ∃ y, db !! k = Some y ∧ same_alert y x) as Hrow.
    { intros k x Hk. destruct (decide (k = i0)) as [-> | Hne].
      - rewrite list_lookup_insert_eq in Hk by (by eapply lookup_lt_Some).
        injection Hk as <-. eauto.
      - rewrite list_lookup_insert_ne in Hk by done.
        exists x. by unfold same_alert. }
    intros i j a b Hi Hj Ha Hb.
    destruct (Hrow i a Hi) as (a1 & Hi1 & Sa).
    destruct (Hrow j b Hj) as (b1 & Hj1 & Sb).
    apply (Hone i j a1 b1 Hi1 Hj1).
    + pose proof Sa as (-> & _ & -> & _).
      by apply (is_duplicate_same_alert _ _ _ a1 a).
    + pose proof Sa as (-> & _ & -> & _).
      by apply (is_duplicate_same_alert _ _ _ b1 b).
  - rewrite (create_alert_fresh _ _ _ _ _ _ _ _ H). simpl.
    apply existing_alert_None in H.
    set (new_alert := mkAlert _ _ _ _ _ _ _ _ _).
    intros i j a b Hi Hj Ha Hb.
    apply lookup_app_Some in Hi as [Hi | [Hli Hi]];
      apply lookup_app_Some in Hj as [Hj | [Hlj Hj]].
    + by apply (Hone i j a b).
    + exfalso. apply list_lookup_singleton_Some in Hj as [_ <-].
      destruct Hb as (Hs & Hm & _). simpl in Hs, Hm.
      rewrite Forall_forall in H. apply (H a).
      * by eapply list_elem_of_lookup_2.
      * by rewrite Hs, Hm.
    + exfalso. apply list_lookup_singleton_Some in Hi as [_ <-].
      simpl in Hb. rewrite Forall_forall in H. apply (H b).
      * by eapply list_elem_of_lookup_2.
      * exact Hb.
    + apply list_lookup_singleton_Some in Hi as [Hi _].
      apply list_lookup_singleton_Some in Hj as [Hj _]. lia.
Qed.
End WindowInvariant.

Lemma create_alert_one_per_window_witness :
  (∃ a b, raised_again !! 0%nat = Some a ∧ raised_again !! 1%nat = Some b
          ∧ length raised_again = 2%nat
          ∧ server_id a = server_id b ∧ message a = message b
          ∧ status a = status b)
  ∧ one_per_window (12 * minute)
      (create_alert None raised_again 7 "critical" "CPU usage critical: 92.0%"
                    ∅ (12 * minute) (12 * minute)).1
  ∧ length (create_alert None raised_again 7 "critical"
                         "CPU usage critical: 92.0%" ∅
                         (12 * minute) (12 * minute)).1 = 2%nat.
Proof.
  split; [| split]; [| | reflexivity].
  - eexists _, _. split; [reflexivity |]. split; [reflexivity |].
    split; [reflexivity |]. split; [reflexivity |]. split; reflexivity.
  - apply (create_alert_one_per_window None raised_again 7 "critical"
             "CPU usage critical: 92.0%" ∅ (11 * minute) (12 * minute)
             (12 * minute)).
    + intros i j a b Hi Hj Ha Hb.
      destruct i as [| [| i]], j as [| [| j]]; vm_compute in Hi, Hj;
        try discriminate; try reflexivity;
        injection Hi as <-; injection Hj as <-; exfalso.
      * destruct Ha as (_ & _ & _ & Ha). vm_compute in Ha. by apply Ha.
      * destruct Hb as (_ & _ & _ & Hb). vm_compute in Hb. by apply Hb.
    + vm_compute. discriminate.
Defined.

Section ResubmitFacts.
Variable updated_at_default : option Z.

Lemma create_alert_returns_match db sid sev msg kwargs now1 now2 :
  let r := create_alert updated_at_default db sid sev msg kwargs now1 now2 in
  r.2 ∈ r.1 ∧ server_id r.2 = sid ∧ message r.2 = msg
  ∧ status r.2 = "active"%string.
Proof.
  intros r. subst r.
  destruct (existing_alert db sid msg now1) as [[i a]|] eqn:H.
  - rewrite (create_alert_found _ _ _ _ _ _ _ _ _ _ H). simpl.
    apply existing_alert_Some in H as [Hi (Hs & Hm & Ha & _)].
    split; [| done].
    apply (list_elem_of_lookup_2 _ i).
    apply list_lookup_insert_eq. by eapply lookup_lt_Some.
  - rewrite (create_alert_fresh _ _ _ _ _ _ _ _ H). simpl.
    split; [| done]. apply elem_of_app. right. apply list_elem_of_here.
Qed.

(** X11: whatever the table held, a violation submitted again for the same
    server and message while the alert returned by the first call is within
    the window (created no earlier than ten minutes before the second query)
    adds no row: the second call returns an alert it found. *)
Theorem resubmission_adds_no_row (db : list Alert) (sid : Z)
    (msg sev sev' : string) (kwargs kwargs' : gmap string pyvalue)
    (now1 now2 t t' : Z) :
  let r := create_alert updated_at_default db sid sev msg kwargs now1 now2 in
  t - dedup_window ≤ created_at r.2 →
  let r' := create_alert updated_at_default r.1 sid sev' msg kwargs' t t' in
  length r'.1 = length r.1
  ∧ ∃ i a, existing_alert r.1 sid msg t = Some (i, a)
           ∧ r'.1 = <[i := r'.2]> r.1 ∧ count r'.2 = count a + 1.
Proof.
  intros r Hwin r'.
  destruct (create_alert_returns_match db sid sev msg kwargs now1 now2)
    as (Hin & Hs & Hm & Ha). fold r in Hin, Hs, Hm, Ha.
  assert (is_Some (existing_alert r.1 sid msg t)) as [[i a] Hex].
  { unfold existing_alert. eapply list_find_elem_of; [exact Hin |].
    unfold is_duplicate. done. }
  subst r'. rewrite (create_alert_found _ _ _ _ _ _ _ _ _ _ Hex). simpl.
  rewrite length_insert. split; [done |]. exists i, a. done.
Qed.
End ResubmitFacts.

Lemma resubmission_adds_no_row_witness :
  let r := create_alert None raised_twice 7 "critical"
                        "CPU usage critical: 92.0%" ∅
                        (11 * minute) (11 * minute) in
  let r' := create_alert None r.1 7 "warning" "CPU usage critical: 92.0%" ∅
                         (12 * minute) (12 * minute) in
  length r'.1 = length r.1
  ∧ ∃ i a, existing_alert r.1 7 "CPU usage critical: 92.0%" (12 * minute)
           = Some (i, a)
           ∧ r'.1 = <[i := r'.2]> r.1 ∧ count r'.2 = count a + 1.
Proof.
  apply (resubmission_adds_no_row None raised_twice 7
           "CPU usage critical: 92.0%" "critical" "warning" ∅ ∅
           (11 * minute) (11 * minute) (12 * minute) (12 * minute)).
  vm_compute. discriminate.
Defined.

Section IndependenceFacts.
Variable updated_at_default : option Z.

Lemma existing_alert_other_message db sid msg now a :
  message a ≠ msg →
  existing_alert (db ++ [a]) sid msg now
  = existing_alert db sid msg now.
Proof.
  intros Hne. unfold existing_alert.
  destruct (list_find (is_duplicate sid msg now) db) as [[i x]|] eqn:H.
  - by apply list_find_app_l.
  - apply list_find_app_None. split; [done |]. simpl.
    rewrite decide_False; [done |]. unfold is_duplicate. tauto.
Qed.

(** X12: distinct violations surface independently: two messages that
    differ, neither of which has a match in the table, each get a row of
    their own with count 1, in the order of the calls. *)
Theorem distinct_messages_get_their_own_alerts (db : list Alert) (sid : Z)
    (msg1 msg2 sev1 sev2 : string) (kw1 kw2 : gmap string pyvalue)
    (t1 t1' t2 t2' : Z) :
  msg1 ≠ msg2 →
  existing_alert db sid msg1 t1 = None →
  existing_alert db sid msg2 t2 = None →
  let r1 := create_alert updated_at_default db sid sev1 msg1 kw1 t1 t1' in
  let r2 := create_alert updated_at_default r1.1 sid sev2 msg2 kw2 t2 t2' in
  r2.1 = db ++ [r1.2; r2.2]
  ∧ message r1.2 = msg1 ∧ count r1.2 = 1
  ∧ message r2.2 = msg2 ∧ count r2.2 = 1.
Proof.
  intros Hne H1 H2 r1 r2. subst r1 r2.
  rewrite (create_alert_fresh _ db _ sev1 _ kw1 _ t1' H1). simpl.
  rewrite (create_alert_fresh _ _ _ sev2 _ kw2 t2 t2').
  - simpl. rewrite <- app_assoc. done.
  - rewrite existing_alert_other_message; done.
Qed.
End IndependenceFacts.

Lemma distinct_messages_get_their_own_alerts_witness :
  let r1 := create_alert None [] 7 "critical" "CPU usage critical: 92.0%" ∅
                         0 0 in
  let r2 := create_alert None r1.1 7 "critical" "CPU usage critical: 95.0%" ∅
                         minute minute in
  r2.1 = [] ++ [r1.2; r2.2]
  ∧ message r1.2 = "CPU usage critical: 92.0%"%string ∧ count r1.2 = 1
  ∧ message r2.2 = "CPU usage critical: 95.0%"%string ∧ count r2.2 = 1.
Proof.
  apply (distinct_messages_get_their_own_alerts None [] 7
           "CPU usage critical: 92.0%" "CPU usage critical: 95.0%"
           "critical" "critical" ∅ ∅ 0 0 minute minute).
  - discriminate.
  - reflexivity.
  - reflexivity.
Defined.

Section LoopFacts.
Variable updated_at_default : option Z.

Lemma create_alert_step db sid sev msg kwargs now1 now2 :
  let db' := (create_alert updated_at_default db sid sev msg kwargs now1 now2).1 in
  (length db ≤ length db' ≤ S (length db))%nat
  ∧ (∀ i a, db !! i = Some a →
            ∃ a', db' !! i = Some a' ∧ same_alert a a' ∧ count a ≤ count a')
  ∧ (∀ i a', db' !! i = Some a' → (length db ≤ i)%nat →
             server_id a' = sid ∧ status a' = "active"%string ∧ count a' = 1).
Proof.
  intros db'. subst db'.
  destruct (existing_alert db sid msg now1) as [[i0 a0]|] eqn:H.
  - rewrite (create_alert_found _ _ _ _ _ _ _ _ _ _ H). simpl.
    apply existing_alert_Some in H as [Hi0 _].
    rewrite length_insert. split; [lia |]. split.
    + intros i a Hi. destruct (decide (i = i0)) as [-> | Hne].
      * rewrite Hi in Hi0. injection Hi0 as <-.
        rewrite list_lookup_insert_eq by (by eapply lookup_lt_Some).
        eexists. split; [reflexivity |]. unfold same_alert. simpl.
        split; [done | lia].
      * rewrite list_lookup_insert_ne by done. exists a.
        unfold same_alert. split; [done |]. split; [done | lia].
    + intros i a' Hi Hge. apply lookup_lt_Some in Hi.
      rewrite length_insert in Hi. lia.
  - rewrite (create_alert_fresh _ _ _ _ _ _ _ _ H). simpl.
    rewrite length_app. simpl. split; [lia |]. split.
    + intros i a Hi. rewrite lookup_app_l by (by eapply lookup_lt_Some).
      exists a. unfold same_alert. split; [done |]. split; [done | lia].
    + intros i a' Hi Hge. apply lookup_app_Some in Hi as [Hi | [_ Hi]].
      * apply lookup_lt_Some in Hi. lia.
      * apply list_lookup_singleton_Some in Hi as [_ <-]. done.
Qed.

Lemma create_alerts_rows sid l : ∀ db utcnow,
  let db' := create_alerts updated_at_default db sid l utcnow in
  (length db ≤ length db' ≤ length db + length l)%nat
  ∧ (∀ i a, db !! i = Some a →
            ∃ a', db' !! i = Some a' ∧ same_alert a a' ∧ count a ≤ count a')
  ∧ (∀ i a', db' !! i = Some a' → (length db ≤ i)%nat →
             server_id a' = sid ∧ status a' = "active"%string ∧ 1 ≤ count a').
Proof.
  induction l as [| ad l IH]; intros db utcnow; simpl.
  - split; [lia |]. split.
    + intros i a Hi. exists a. unfold same_alert. split; [done |].
      split; [done | lia].
    + intros i a' Hi Hge. apply lookup_lt_Some in Hi. lia.
  - set (kwargs := <["value"%string := ad_value ad]> _).
    destruct (create_alert_step db sid (ad_severity ad) (ad_message ad) kwargs
                (utcnow 0%nat) (utcnow 1%nat)) as (Hlen & Hkeep & Hnew).
    set (db1 := (create_alert _ db sid _ _ kwargs _ _).1) in *.
    destruct (IH db1 (λ k, utcnow (2 + k)%nat)) as (Hlen' & Hkeep' & Hnew').
    set (db' := create_alerts _ db1 sid l _) in *.
    split; [lia |]. split.
    + intros i a Hi. destruct (Hkeep i a Hi) as (a1 & Hi1 & S1 & C1).
      destruct (Hkeep' i a1 Hi1) as (a' & Hi' & S' & C').
      exists a'. split; [done |]. split; [by eapply same_alert_trans | lia].
    + intros i a' Hi Hge. destruct (decide (length db1 ≤ i)%nat) as [Hi1 | Hi1].
      * by apply (Hnew' i a').
      * destruct (db1 !! i) as [a1|] eqn:E1.
        2: { apply lookup_ge_None in E1. lia. }
        destruct (Hnew i a1 E1 Hge) as (Hs & Ha & Hc).
        destruct (Hkeep' i a1 E1) as (a2 & Hi2 & S2 & C2).
        rewrite Hi in Hi2. injection Hi2 as <-.
        destruct S2 as (<- & _ & _ & <- & _). split; [done |].
        split; [done | lia].
Qed.

(** X13: [check_health_thresholds] adds at most three rows to the alert
    table and deletes none: every row it found is still in its place with
    every column but [count] and [updated_at] unchanged and a count that did
    not decrease, and every row it added is an active alert of the checked
    server with a count of at least 1. *)
Theorem check_health_thresholds_rows (thresholds : gmap string Q) (sid : Z)
    (health_data : gmap string pyvalue) (db db' : list Alert)
    (utcnow : nat → Z) :
  check_health_thresholds updated_at_default thresholds sid health_data db
    utcnow = Ok db' →
  (length db ≤ length db' ≤ length db + 3)%nat
  ∧ (∀ i a, db !! i = Some a →
            ∃ a', db' !! i = Some a' ∧ same_alert a a' ∧ count a ≤ count a')
  ∧ (∀ i a', db' !! i = Some a' → (length db ≤ i)%nat →
             server_id a' = sid ∧ status a' = "active"%string ∧ 1 ≤ count a').
Proof.
  unfold check_health_thresholds. intros H.
  destruct (alerts_to_create thresholds health_data) as [l|] eqn:Hl;
    [| discriminate].
  simpl in H. injection H as <-.
  destruct (create_alerts_rows sid l db utcnow) as (Hlen & Hkeep & Hnew).
  split; [| done].
  assert (length l ≤ 3)%nat; [| lia].
  apply alerts_to_create_blocks in Hl
    as (cpu & memory & disk & Hcpu & Hmem & Hdisk & ->).
  apply threshold_check_shape in Hcpu as [-> | (? & ? & -> & _)];
    apply threshold_check_shape in Hmem as [-> | (? & ? & -> & _)];
    apply threshold_check_shape in Hdisk as [-> | (? & ? & -> & _)];
    simpl; lia.
Qed.
End LoopFacts.

Lemma check_health_thresholds_rows_witness :
  ∃ db',
    check_health_thresholds None alert_thresholds 7 (bundle "up" 92 20 96)
      raised_twice (λ k, 5 * minute + Z.of_nat k) = Ok db'
    ∧ (length raised_twice ≤ length db' ≤ length raised_twice + 3)%nat
    ∧ (∀ i a, raised_twice !! i = Some a →
              ∃ a', db' !! i = Some a' ∧ same_alert a a' ∧ count a ≤ count a')
    ∧ (∀ i a', db' !! i = Some a' → (length raised_twice ≤ i)%nat →
               server_id a' = 7 ∧ status a' = "active"%string ∧ 1 ≤ count a').
Proof.
  eexists. split; [vm_compute; reflexivity |].
  apply (check_health_thresholds_rows None alert_thresholds 7
           (bundle "up" 92 20 96) raised_twice _ (λ k, 5 * minute + Z.of_nat k)).
  vm_compute. reflexivity.
Defined.

(** ** Subscribers *)

Section SubscriberFacts.
Variable websocket : Type.

Lemma add_websocket_client_keys client_id (ws : websocket) clients :
  (add_websocket_client websocket client_id ws clients).*1
  = if decide (client_id ∈ clients.*1) then clients.*1
    else clients.*1 ++ [client_id].
Proof.
  induction clients as [| [c w] clients IH]; csimpl.
  - reflexivity.
  - destruct (decide (c = client_id)) as [-> | Hne]; csimpl.
    + rewrite decide_True; [done |]. apply list_elem_of_here.
    + rewrite IH. destruct (decide (client_id ∈ clients.*1)) as [Hin | Hnin].
      * rewrite decide_True; [done |]. by apply list_elem_of_further.
      * rewrite decide_False; [done |]. intros Hin.
        apply elem_of_cons in Hin as [-> | Hin]; done.
Qed.

Lemma add_websocket_client_elem client_id (ws : websocket) clients c w :
  NoDup clients.*1 →
  (c, w) ∈ add_websocket_client websocket client_id ws clients
  ↔ (c = client_id ∧ w = ws) ∨ (c ≠ client_id ∧ (c, w) ∈ clients).
Proof.
  induction clients as [| [c0 w0] clients IH]; simpl; intros Hnd.
  - rewrite list_elem_of_singleton. split.
    + intros [= -> ->]. by left.
    + intros [[-> ->] | [_ Hin]]; [done |]. by apply elem_of_nil in Hin.
  - apply NoDup_cons in Hnd as [Hc0 Hnd].
    assert (∀ w', (c0, w') ∈ clients → False) as Hfresh.
    { intros w' Hin. apply Hc0. apply list_elem_of_fmap. by exists (c0, w'). }
    destruct (decide (c0 = client_id)) as [-> | Hne];
      rewrite !elem_of_cons; [| rewrite (IH Hnd)]; split.
    + intros [[= -> ->] | Hin]; [by left |].
      right. split; [| by right]. intros ->. by apply (Hfresh w).
    + intros [[-> ->] | [Hc [[= -> ->] | Hin]]]; [by left | done | by right].
    + intros [[= -> ->] | [[-> ->] | [Hc Hin]]].
      * right. split; [done | by left].
      * by left.
      * right. split; [done | by right].
    + intros [[-> ->] | [Hc [[= -> ->] | Hin]]].
      * right. by left.
      * by left.
      * right. by right.
Qed.

(** X14: registering a subscriber keeps the dictionary a dictionary (no key
    twice); a key that was known keeps its place and a new key goes last;
    afterwards the key is bound to the new handle and to no other, and every
    other subscriber is bound as before. *)
Theorem add_client_registers (client_id : string) (ws : websocket)
    (clients : list (string * websocket)) :
  NoDup clients.*1 →
  let clients' := add_websocket_client websocket client_id ws clients in
  NoDup clients'.*1
  ∧ clients'.*1 = (if decide (client_id ∈ clients.*1) then clients.*1
                   else clients.*1 ++ [client_id])
  ∧ ∀ c w, (c, w) ∈ clients'
           ↔ (c = client_id ∧ w = ws) ∨ (c ≠ client_id ∧ (c, w) ∈ clients).
Proof.
  intros Hnd clients'. subst clients'.
  split; [| split].
  - rewrite add_websocket_client_keys.
    destruct (decide (client_id ∈ clients.*1)) as [Hin | Hnin]; [done |].
    apply NoDup_app. split; [done |]. split.
    + intros x Hx Hx'. apply list_elem_of_singleton in Hx' as ->. done.
    + apply NoDup_singleton.
  - apply add_websocket_client_keys.
  - intros c w. by apply add_websocket_client_elem.
Qed.

Lemma remove_websocket_client_result client_id
    (clients : list (string * websocket)) :
  (remove_websocket_client websocket client_id clients).1
  = filter (λ p, p.1 ≠ client_id) clients.
Proof.
  unfold remove_websocket_client.
  destruct (decide (client_id ∈ clients.*1)) as [Hin | Hnin]; [done |].
  simpl. symmetry. apply filter_all. apply Forall_forall.
  intros [c w] Hcw. simpl. intros ->. apply Hnin.
  apply list_elem_of_fmap. by exists (client_id, w).
Qed.

(** X15: removing a subscriber leaves a dictionary without that key in
    which every other subscriber is bound as before, in the same order;
    removing a key that is not registered changes nothing and logs
    nothing. *)
Theorem remove_client_unregisters (client_id : string)
    (clients : list (string * websocket)) :
  let r := remove_websocket_client websocket client_id clients in
  (client_id ∉ fst <$> r.1)
  ∧ r.1 = filter (λ p, p.1 ≠ client_id) clients
  ∧ (∀ c w, (c, w) ∈ r.1 ↔ c ≠ client_id ∧ (c, w) ∈ clients)
  ∧ (NoDup clients.*1 → NoDup r.1.*1)
  ∧ (r.2 = if decide (client_id ∈ clients.*1) then [Disconnect client_id]
           else [])
  ∧ (client_id ∉ fst <$> clients → r = (clients, [])).
Proof.
  intros r. subst r. rewrite remove_websocket_client_result.
  split; [| split; [done |]; split; [| split; [| split]]].
  - intros Hin. apply list_elem_of_fmap in Hin as ([c w] & -> & Hin).
    apply list_elem_of_filter in Hin as [Hne _]. done.
  - intros c w. rewrite list_elem_of_filter. done.
  - intros Hnd. induction clients as [| [c w] clients IH]; [done |].
    simpl in Hnd. apply NoDup_cons in Hnd as [Hc Hnd].
    destruct (decide (c ≠ client_id)) as [Hne | Heq].
    + rewrite filter_cons_True by done. simpl. apply NoDup_cons.
      split; [| by apply IH]. intros Hin. apply Hc.
      apply list_elem_of_fmap in Hin as ([c' w'] & -> & Hin).
      apply list_elem_of_filter in Hin as [_ Hin].
      apply list_elem_of_fmap. by exists (c', w').
    + rewrite filter_cons_False by done. by apply IH.
  - unfold remove_websocket_client.
    destruct (decide (client_id ∈ clients.*1)); reflexivity.
  - intros Hnin. unfold remove_websocket_client.
    rewrite decide_False; done.
Qed.

(** X16: a subscriber that registers under a new key and is then removed
    leaves the dictionary as it was. *)
Theorem add_then_remove (client_id : string) (ws : websocket)
    (clients : list (string * websocket)) :
  client_id ∉ clients.*1 →
  (remove_websocket_client websocket client_id
     (add_websocket_client websocket client_id ws clients)).1 = clients.
Proof.
  intros Hnin. rewrite remove_websocket_client_result.
  induction clients as [| [c w] clients IH]; simpl.
  - rewrite filter_cons_False by (simpl; intros ?; done). done.
  - rewrite decide_False.
    2: { intros ->. apply Hnin. simpl. apply list_elem_of_here. }
    rewrite filter_cons_True.
    2: { simpl. intros ->. apply Hnin. simpl. apply list_elem_of_here. }
    f_equal. apply IH. intros Hin. apply Hnin. simpl.
    by apply list_elem_of_further.
Qed.
Lemma clean_up_result (keys : list string) : ∀ clients,
  NoDup keys → (∀ k, k ∈ keys → k ∈ clients.*1) →
  clean_up websocket keys clients
  = (filter (λ p, p.1 ∉ keys) clients, Disconnect <$> keys).
Proof.
  induction keys as [| k keys IH]; intros clients Hnd Hsub; simpl.
  - f_equal. symmetry. apply filter_all. apply Forall_forall.
    intros p _. apply not_elem_of_nil.
  - apply NoDup_cons in Hnd as [Hk Hnd].
    unfold remove_websocket_client.
    rewrite decide_True by (apply Hsub; apply list_elem_of_here).
    rewrite IH; [| done |].
    + f_equal. rewrite list_filter_filter. apply list_filter_iff.
      intros [c w]. simpl. rewrite not_elem_of_cons. tauto.
    + intros k' Hk'. specialize (Hsub k' (list_elem_of_further _ _ _ Hk')).
      apply list_elem_of_fmap in Hsub as ([c w] & -> & Hin).
      apply list_elem_of_fmap. exists (c, w). split; [done |].
      apply list_elem_of_filter. split; [| done]. simpl. intros ->. done.
Qed.

End SubscriberFacts.

Lemma add_client_registers_witness :
  let clients' := add_websocket_client bool "b" true three_clients in
  NoDup clients'.*1
  ∧ clients'.*1 = (if decide ("b"%string ∈ three_clients.*1)
                   then three_clients.*1
                   else three_clients.*1 ++ ["b"%string])
  ∧ ∀ c w, (c, w) ∈ clients'
           ↔ (c = "b"%string ∧ w = true)
             ∨ (c ≠ "b"%string ∧ (c, w) ∈ three_clients).
Proof.
  apply (add_client_registers bool "b" true three_clients).
  apply (bool_decide_unpack _). vm_compute. exact I.
Defined.

Lemma add_then_remove_witness :
  (remove_websocket_client bool "d"
     (add_websocket_client bool "d" true three_clients)).1 = three_clients.
Proof.
  apply (add_then_remove bool "d" true three_clients).
  apply (bool_decide_unpack _). vm_compute. exact I.
Defined.

(** ** Broadcast in general *)

Section BroadcastFacts.
Variable websocket : Type.
Variable send_text : websocket → string → bool.
Variable json_dumps : update_message → string.

Lemma fan_out_result (items : list (string * websocket)) (text : string) :
  fan_out websocket send_text items text
  = ((λ p, Send p.1 text (send_text p.2 text)) <$> items,
     (filter (λ p, send_text p.2 text = false) items).*1).
Proof.
  induction items as [| [c w] items IH]; [done |].
  simpl. rewrite IH. destruct (send_text w text) eqn:E.
  - rewrite filter_cons_False by (simpl; congruence). done.
  - rewrite filter_cons_True by done. done.
Qed.

Lemma filter_ext_elem {A} (P Q : A → Prop) `{∀ x, Decision (P x)}
    `{∀ x, Decision (Q x)} (l : list A) :
  (∀ x, x ∈ l → (P x ↔ Q x)) → filter P l = filter Q l.
Proof.
  induction l as [| x l IH]; intros Hext; [done |].
  assert (filter P l = filter Q l) as IH'.
  { apply IH. intros y Hy. apply Hext. by apply list_elem_of_further. }
  destruct (decide (P x)) as [HP | HP].
  - rewrite !filter_cons_True; [by rewrite IH' | | done].
    apply Hext; [apply list_elem_of_here | done].
  - rewrite !filter_cons_False; [done | | done].
    intros HQ. apply HP. apply Hext; [apply list_elem_of_here | done].
Qed.

Lemma key_binds_once (clients : list (string * websocket)) c w1 w2 :
  NoDup clients.*1 → (c, w1) ∈ clients → (c, w2) ∈ clients → w1 = w2.
Proof.
  induction clients as [| [c0 w0] clients IH]; intros Hnd H1 H2.
  { by apply elem_of_nil in H1. }
  simpl in Hnd. apply NoDup_cons in Hnd as [Hc0 Hnd].
  assert (∀ w', (c0, w') ∈ clients → False) as Hfresh.
  { intros w' Hin. apply Hc0. apply list_elem_of_fmap. by exists (c0, w'). }
  apply elem_of_cons in H1 as [E1 | H1];
    apply elem_of_cons in H2 as [E2 | H2].
  - congruence.
  - injection E1 as -> ->. by destruct (Hfresh w2).
  - injection E2 as -> ->. by destruct (Hfresh w1).
  - by apply IH.
Qed.

(** X17: a broadcast attempts one send per subscriber, in the dictionary's
    order, then removes, in the same order, exactly the subscribers whose
    send failed: the subscribers left are those whose send returned, whatever
    the number of failures; with no failure the dictionary is unchanged. *)
Theorem broadcast_keeps_the_reachable (clients : list (string * websocket))
    (sid : Z) (health_data : gmap string pyvalue) (now : Z) :
  NoDup clients.*1 →
  let text := json_dumps (UpdateMessage "health_update" sid health_data now) in
  let r := broadcast_health_update websocket send_text json_dumps clients sid
                                   health_data now in
  r.1 = filter (λ p, send_text p.2 text = true) clients
  ∧ r.2 = ((λ p, Send p.1 text (send_text p.2 text)) <$> clients)
          ++ (Disconnect <$>
                (filter (λ p, send_text p.2 text = false) clients).*1)
  ∧ (Forall (λ p, send_text p.2 text = true) clients → r.1 = clients).
Proof.
  intros Hnd text r.
  assert (r = (filter (λ p, send_text p.2 text = true) clients,
               ((λ p, Send p.1 text (send_text p.2 text)) <$> clients)
               ++ (Disconnect <$>
                     (filter (λ p, send_text p.2 text = false) clients).*1)))
    as ->.
  { subst r. unfold broadcast_health_update.
    destruct clients as [| p clients'] eqn:Hcl; [done |].
    rewrite <- Hcl in *. clear Hcl.
    fold text. rewrite fan_out_result. rewrite clean_up_result.
    - f_equal. apply filter_ext_elem. intros [c w] Hin. simpl. split.
      + intros Hn. destruct (send_text w text) eqn:E; [done |].
        exfalso. apply Hn. apply list_elem_of_fmap. exists (c, w).
        split; [done |]. by apply list_elem_of_filter.
      + intros Hok Hmem.
        apply list_elem_of_fmap in Hmem as ([c' w'] & Hc & Hmem).
        simpl in Hc. subst c'.
        apply list_elem_of_filter in Hmem as [Hfail Hin'].
        simpl in Hfail.
        rewrite (key_binds_once clients c w w' Hnd Hin Hin') in Hok.
        congruence.
    - clearbody text. clear -Hnd. induction clients as [| [c w] clients IH]; [constructor |].
      simpl in Hnd. apply NoDup_cons in Hnd as [Hc Hnd].
      destruct (send_text w text) eqn:E.
      + rewrite filter_cons_False by (simpl; congruence). by apply IH.
      + rewrite filter_cons_True by done. simpl. apply NoDup_cons.
        split; [| by apply IH]. intros Hin. apply Hc.
        apply list_elem_of_fmap in Hin as ([c' w'] & -> & Hin).
        apply list_elem_of_filter in Hin as [_ Hin].
        apply list_elem_of_fmap. by exists (c', w').
    - intros k Hk. apply list_elem_of_fmap in Hk as ([c w] & -> & Hin).
      apply list_elem_of_filter in Hin as [_ Hin].
      apply list_elem_of_fmap. by exists (c, w). }
  simpl. split; [done |]. split; [done |].
  intros Hall. by apply filter_all.
Qed.
End BroadcastFacts.

Lemma broadcast_keeps_the_reachable_witness :
  let text := "update"%string in
  let r := broadcast_health_update bool (λ ws _, ws) (λ _, "update"%string)
             [ ("a"%string, false); ("b"%string, true); ("c"%string, false) ]
             7 ∅ 0 in
  r.1 = filter (λ p : string * bool, p.2 = true)
          [ ("a"%string, false); ("b"%string, true); ("c"%string, false) ]
  ∧ r.2 = ((λ p : string * bool, Send p.1 text p.2) <$>
             [ ("a"%string, false); ("b"%string, true); ("c"%string, false) ])
          ++ (Disconnect <$>
                (filter (λ p : string * bool, p.2 = false)
                   [ ("a"%string, false); ("b"%string, true);
                     ("c"%string, false) ]).*1)
  ∧ (Forall (λ p : string * bool, p.2 = true)
       [ ("a"%string, false); ("b"%string, true); ("c"%string, false) ] →
     r.1 = [ ("a"%string, false); ("b"%string, true); ("c"%string, false) ]).
Proof.
  apply (broadcast_keeps_the_reachable bool (λ ws _, ws) (λ _, "update"%string)
           [ ("a"%string, false); ("b"%string, true); ("c"%string, false) ]
           7 ∅ 0).
  apply (bool_decide_unpack _). vm_compute. exact I.
Defined.

(** ** Starting the engine *)

Section StartFacts.
Variable websocket : Type.

(** X18: on an engine that is not active, [start_monitoring] sets the
    flag, creates the four loops once each (health, performance, service,
    network, in that order) and touches no other attribute; a second call
    right after it does nothing. *)
Theorem start_creates_the_loops_once (self : MonitorService websocket) :
  monitoring_active websocket self = false →
  let r := start_monitoring websocket self in
  monitoring_active websocket r.1 = true
  ∧ created_tasks r.2 = [ health_check_loop; performance_monitoring_loop;
                          service_monitoring_loop; network_monitoring_loop ]
  ∧ check_intervals websocket r.1 = check_intervals websocket self
  ∧ websocket_clients websocket r.1 = websocket_clients websocket self
  ∧ service_thresholds websocket r.1 = service_thresholds websocket self
  ∧ start_monitoring websocket r.1 = (r.1, []).
Proof.
  intros H r. subst r. unfold start_monitoring. rewrite H. simpl. done.
Qed.
End StartFacts.

Lemma start_creates_the_loops_once_witness :
  let r := start_monitoring bool (init bool) in
  monitoring_active bool r.1 = true
  ∧ created_tasks r.2 = [ health_check_loop; performance_monitoring_loop;
                          service_monitoring_loop; network_monitoring_loop ]
  ∧ check_intervals bool r.1 = check_intervals bool (init bool)
  ∧ websocket_clients bool r.1 = websocket_clients bool (init bool)
  ∧ service_thresholds bool r.1 = service_thresholds bool (init bool)
  ∧ start_monitoring bool r.1 = (r.1, []).
Proof.
  apply (start_creates_the_loops_once bool (init bool)). reflexivity.
Defined.

(** ** Remote metrics *)

Lemma remote_metrics_keys (server : Server) (probes : remote_probes) :
  dom (get_remote_server_metrics server probes)
  ⊆ ({[ "port_checks"%string; "http_check"%string; "dns_resolution"%string;
        "error"%string ]} : gset string).
Proof.
  unfold get_remote_server_metrics.
  destruct (bool_decide _); [destruct (http_get probes) |];
    destruct (gethostbyname probes);
    rewrite ?dom_insert_L, ?dom_singleton_L; set_solver.
Qed.

Lemma remote_metrics_unbound (server : Server) (probes : remote_probes)
    (k : string) :
  k ∉ ({[ "port_checks"%string; "http_check"%string; "dns_resolution"%string;
          "error"%string ]} : gset string) →
  get_remote_server_metrics server probes !! k = None.
Proof.
  intros Hk. apply not_elem_of_dom. intros Hin. apply Hk.
  by apply (remote_metrics_keys server probes).
Qed.

(** ** Collected bundles *)

Section CollectFacts.
Variable thresholds : gmap string Q.
Variable isoformat : Z → string.
Variable times_1000 : Q → Q.
Variable exn_text : pyexn → string.

Lemma chosen_metrics_checks (server : Server)
    (local_metrics : gmap string pyvalue) (probes : remote_probes) :
  (is_local server = true → local_metrics !! "checks"%string = None) →
  (if is_local server then local_metrics
   else get_remote_server_metrics server probes) !! "checks"%string = None.
Proof.
  intros Hlocal. destruct (is_local server); [by apply Hlocal |].
  apply remote_metrics_unbound. set_solver.
Qed.

Lemma health_check_failed_returns (health_data checks : gmap string pyvalue)
    (text : string) :
  health_data !! "checks"%string = Some (PyDict checks) →
  ∃ hd, health_check_failed health_data text = Ok hd
        ∧ hd !! "overall_status"%string = Some (PyStr "unhealthy").
Proof.
  intros H. unfold health_check_failed. rewrite H. eexists. split; [done |].
  apply lookup_insert_eq.
Qed.

(** X19: when the metrics provider does not rebind ['checks'] (the remote
    provider never does), [run_health_check] returns a bundle whatever
    happens during the check, and the bundle carries an ['overall_status']
    that is ['critical'], ['warning'], ['healthy'] or ['unhealthy']. *)
Theorem run_health_check_sets_a_verdict (server : Server) (now : Z)
    (ping : ping_attempt) (local_metrics : gmap string pyvalue)
    (probes : remote_probes) :
  (is_local server = true → local_metrics !! "checks"%string = None) →
  ∃ hd v,
    run_health_check thresholds isoformat times_1000 exn_text server now ping
                     local_metrics probes = Ok hd
    ∧ hd !! "overall_status"%string = Some (PyStr v)
    ∧ v ∈ [ "critical"%string; "warning"%string; "healthy"%string;
            "unhealthy"%string ].
Proof.
  intros Hlocal.
  pose proof (chosen_metrics_checks server local_metrics probes Hlocal) as Hm.
  unfold run_health_check.
  set (metrics := if is_local server then local_metrics
                  else get_remote_server_metrics server probes) in *.
  assert (∀ hd0 C text,
            ∃ hd, health_check_failed (metrics ∪ <["checks"%string := PyDict C]> hd0)
                    text = Ok hd
                  ∧ hd !! "overall_status"%string = Some (PyStr "unhealthy"))
    as Hfail.
  { intros hd0 C text. apply (health_check_failed_returns _ C).
    rewrite lookup_union_r by done. apply lookup_insert_eq. }
  assert (∀ hd0 C,
            ∃ hd v,
              match assess_overall_health thresholds
                      (metrics ∪ <["checks"%string := PyDict C]> hd0) with
              | Ok verdict =>
                  Ok (<["overall_status"%string := PyStr verdict]>
                        (metrics ∪ <["checks"%string := PyDict C]> hd0))
              | Raise e =>
                  health_check_failed
                    (metrics ∪ <["checks"%string := PyDict C]> hd0) (exn_text e)
              end = Ok hd
              ∧ hd !! "overall_status"%string = Some (PyStr v)
              ∧ v ∈ [ "critical"%string; "warning"%string; "healthy"%string;
                      "unhealthy"%string ]) as Hrun.
  { intros hd0 C.
    destruct (assess_overall_health thresholds _) as [v|e] eqn:Hv.
    - eexists _, v. split; [done |]. split; [apply lookup_insert_eq |].
      apply assess_verdicts in Hv as [-> | [-> | ->]]; set_solver.
    - destruct (Hfail hd0 C (exn_text e)) as (hd & -> & Hs).
      exists hd, "unhealthy"%string. split; [done |]. split; [done |].
      set_solver. }
  destruct ping as [seconds | | | text]; try apply Hrun.
  destruct (health_check_failed_returns
              (<["server_id"%string := PyNum (inject_Z (srv_id server))]>
              (<["hostname"%string := PyStr (srv_hostname server)]>
              (<["timestamp"%string := PyStr (isoformat now)]>
              (<["checks"%string := PyDict ∅]> ∅)))) ∅ text)
    as (hd & -> & Hs); [reflexivity |].
  exists hd, "unhealthy"%string. split; [done |]. split; [done |]. set_solver.
Qed.

Lemma ping_down_status (metrics hd0 entry : gmap string pyvalue) :
  metrics !! "checks"%string = None →
  ping_status_of
    (metrics ∪ <["checks"%string :=
                   PyDict {[ "ping"%string :=
                               PyDict (<["status"%string := PyStr "down"]> entry) ]}]>
                 hd0)
  = Ok (PyStr "down").
Proof.
  intros Hm. unfold ping_status_of, dict_get.
  rewrite lookup_union_r by done. rewrite lookup_insert_eq. simpl.
  unfold dict_get. rewrite lookup_singleton_eq. simpl.
  unfold dict_get. by rewrite lookup_insert_eq.
Qed.

(** X20: a ping that returns [None], [False] or a delay of exactly 0
    seconds is recorded as ['down'], and the bundle is then judged critical
    whatever the metrics provider returned (values of any type, for any
    threshold table), as long as it does not rebind ['checks']. *)
Theorem unanswered_ping_is_critical (server : Server) (now : Z)
    (ping : ping_attempt) (local_metrics : gmap string pyvalue)
    (probes : remote_probes) :
  ping_truthy ping = false →
  (∀ text, ping ≠ PingThrew text) →
  (is_local server = true → local_metrics !! "checks"%string = None) →
  ∃ hd,
    run_health_check thresholds isoformat times_1000 exn_text server now ping
                     local_metrics probes = Ok hd
    ∧ hd !! "overall_status"%string = Some (PyStr "critical")
    ∧ ping_status_of hd = Ok (PyStr "down").
Proof.
  intros Hfalsy Hthrew Hlocal.
  pose proof (chosen_metrics_checks server local_metrics probes Hlocal) as Hm.
  unfold run_health_check.
  set (metrics := if is_local server then local_metrics
                  else get_remote_server_metrics server probes) in *.
  destruct ping as [seconds | | | text]; [| | | by destruct (Hthrew text)];
    rewrite ?Hfalsy;
    (erewrite assess_by_status; [| by apply ping_down_status]);
    simpl; (eexists; split; [reflexivity |]; split; [apply lookup_insert_eq |]);
    unfold ping_status_of, dict_get;
    (rewrite lookup_insert_ne by done);
    (rewrite lookup_union_r by done); rewrite lookup_insert_eq; simpl;
    unfold dict_get; rewrite lookup_singleton_eq; simpl;
    unfold dict_get; by rewrite lookup_insert_eq.
Qed.
End CollectFacts.

Lemma remote_http_status (server : Server) (probes : remote_probes) :
  http_status_of (get_remote_server_metrics server probes)
  = Ok (if bool_decide (srv_server_type server
                        ∈ ["web"%string; "api"%string; "application"%string])
        then match http_get probes with
             | HttpResponse status_code _ =>
                 PyStr (if status_code =? 200 then "healthy" else "unhealthy")
             | HttpRequestException _ => PyStr "error"
             | HttpOtherException _ => PyNone
             end
        else PyNone).
Proof.
  unfold get_remote_server_metrics, http_status_of, dict_get.
  generalize (port_checks probes). intros ports.
  destruct (bool_decide _); [destruct (http_get probes) |];
    destruct (gethostbyname probes); reflexivity.
Qed.

Lemma ping_status_recorded (metrics hd0 entry : gmap string pyvalue)
    (status : string) :
  metrics !! "checks"%string = None →
  ping_status_of
    (metrics ∪ <["checks"%string :=
                   PyDict {[ "ping"%string :=
                               PyDict (<["status"%string := PyStr status]> entry) ]}]>
                 hd0)
  = Ok (PyStr status).
Proof.
  intros Hm. unfold ping_status_of, dict_get.
  rewrite lookup_union_r by done. rewrite lookup_insert_eq. simpl.
  unfold dict_get. rewrite lookup_singleton_eq. simpl.
  unfold dict_get. by rewrite lookup_insert_eq.
Qed.

Section RemoteFacts.
Variable isoformat : Z → string.
Variable times_1000 : Q → Q.
Variable exn_text : pyexn → string.

(** The verdict on a remote server whose ping returned. *)
Lemma remote_assess (server : Server) (probes : remote_probes)
    (hd0 entry : gmap string pyvalue) (status : string) :
  (∀ k, k ≠ "checks"%string → k ∉ dom hd0 ∨ k ∈ ({[ "server_id"%string;
        "hostname"%string; "timestamp"%string ]} : gset string)) →
  assess_overall_health alert_thresholds
    (get_remote_server_metrics server probes
     ∪ <["checks"%string :=
           PyDict {[ "ping"%string :=
                       PyDict (<["status"%string := PyStr status]> entry) ]}]>
         hd0)
  = Ok (if bool_decide (status = "down"%string) then "critical"%string
        else if bool_decide (srv_server_type server
                             ∈ ["web"%string; "api"%string;
                                "application"%string])
             then match http_get probes with
                  | HttpRequestException _ => "warning"%string
                  | _ => "healthy"%string
                  end
             else "healthy"%string).
Proof.
  intros Hdom.
  set (metrics := get_remote_server_metrics server probes).
  set (hd1 := <["checks"%string := _]> hd0).
  assert (∀ k, k ∈ usages ∨ k = "http_check"%string → hd1 !! k = None) as Hhd1.
  { intros k Hk. subst hd1. rewrite lookup_insert_ne.
    2: { unfold usages in Hk. set_solver. }
    apply not_elem_of_dom.
    destruct (Hdom k) as [H | H]; [| done |];
      unfold usages in Hk; set_solver. }
  assert (∀ k, k ∈ usages → dict_get (metrics ∪ hd1) k (PyNum 0) = PyNum 0)
    as Husage.
  { intros k Hk. unfold dict_get. rewrite lookup_union_r.
    - rewrite Hhd1 by auto. reflexivity.
    - apply remote_metrics_unbound. unfold usages in Hk. set_solver. }
  rewrite (assess_numeric (metrics ∪ hd1) (PyStr status)
             (if bool_decide (srv_server_type server
                              ∈ ["web"%string; "api"%string;
                                 "application"%string])
              then match http_get probes with
                   | HttpResponse status_code _ =>
                       PyStr (if status_code =? 200 then "healthy"
                              else "unhealthy")
                   | HttpRequestException _ => PyStr "error"
                   | HttpOtherException _ => PyNone
                   end
              else PyNone) 0 0 0).
  - simpl. destruct (bool_decide (status = "down"%string)); [done |].
    destruct (bool_decide (srv_server_type server ∈ _)); [| done].
    destruct (http_get probes) as [status_code ? | ? | ?]; try done.
    destruct (status_code =? 200); done.
  - apply ping_status_recorded. apply remote_metrics_unbound. set_solver.
  - rewrite <- remote_http_status. unfold http_status_of, dict_get.
    fold metrics. rewrite lookup_union_l; [done |]. apply Hhd1. by right.
  - repeat split; apply Husage; unfold usages; set_solver.
Qed.

(** X21: the verdict on a remote server depends on the ping and on the
    HTTP probe only: unhealthy when the ping raised, critical when it was not
    answered, warning when the server is of type web, api or application and
    the HTTP request raised a [RequestException], healthy in every other
    case: the state of the ports, a failed DNS resolution, an HTTP status
    other than 200 and any other exception of the HTTP probe leave the
    verdict healthy. *)
Theorem remote_verdict (server : Server) (now : Z) (ping : ping_attempt)
    (local_metrics : gmap string pyvalue) (probes : remote_probes) :
  is_local server = false →
  ∃ hd,
    run_health_check alert_thresholds isoformat times_1000 exn_text server now
                     ping local_metrics probes = Ok hd
    ∧ hd !! "overall_status"%string
      = Some (PyStr
                match ping with
                | PingThrew _ => "unhealthy"
                | _ =>
                    if ping_truthy ping then
                      if bool_decide (srv_server_type server
                                      ∈ ["web"%string; "api"%string;
                                         "application"%string])
                      then match http_get probes with
                           | HttpRequestException _ => "warning"
                           | _ => "healthy"
                           end
                      else "healthy"
                    else "critical"
                end).
Proof.
  intros Hremote. unfold run_health_check. rewrite Hremote.
  assert (∀ k, k ≠ "checks"%string →
               k ∉ dom (<["server_id"%string := PyNum (inject_Z (srv_id server))]>
                       (<["hostname"%string := PyStr (srv_hostname server)]>
                       (<["timestamp"%string := PyStr (isoformat now)]>
                       (<["checks"%string := PyDict ∅]>
                          (∅ : gmap string pyvalue)))))
               ∨ k ∈ ({[ "server_id"%string; "hostname"%string;
                         "timestamp"%string ]} : gset string)) as Hdom.
  { intros k Hk. rewrite !dom_insert_L, dom_empty_L.
    destruct (decide (k ∈ ({[ "server_id"%string; "hostname"%string;
                              "timestamp"%string ]} : gset string)));
      [by right | left; set_solver]. }
  destruct ping as [seconds | | | text].
  - destruct (ping_truthy (PingDelay seconds));
      rewrite (remote_assess server probes _ _ _ Hdom);
      (eexists; split; [reflexivity |]); rewrite lookup_insert_eq; simpl; done.
  - rewrite (remote_assess server probes _ _ _ Hdom).
    eexists. split; [reflexivity |]. rewrite lookup_insert_eq. done.
  - rewrite (remote_assess server probes _ _ _ Hdom).
    eexists. split; [reflexivity |]. rewrite lookup_insert_eq. done.
  - eexists. split; [reflexivity |]. apply lookup_insert_eq.
Qed.
End RemoteFacts.

Lemma run_health_check_sets_a_verdict_witness :
  ∃ hd v,
    run_health_check alert_thresholds (λ _, "2024-01-01T00:00:00"%string)
      (λ q, (q * 1000)%Q) (λ _, "error"%string) web_server 0
      (PingDelay (1 # 100)) ∅ (answering_probes 500) = Ok hd
    ∧ hd !! "overall_status"%string = Some (PyStr v)
    ∧ v ∈ [ "critical"%string; "warning"%string; "healthy"%string;
            "unhealthy"%string ].
Proof.
  apply (run_health_check_sets_a_verdict alert_thresholds
           (λ _, "2024-01-01T00:00:00"%string) (λ q, (q * 1000)%Q)
           (λ _, "error"%string) web_server 0 (PingDelay (1 # 100)) ∅
           (answering_probes 500)).
  intros H. vm_compute in H. discriminate.
Defined.

Lemma unanswered_ping_is_critical_witness :
  ∃ hd,
    run_health_check alert_thresholds (λ _, "2024-01-01T00:00:00"%string)
      (λ q, (q * 1000)%Q) (λ _, "error"%string)
      (mkServer 1 "localhost" "127.0.0.1" "generic") 0 (PingDelay 0)
      {[ "cpu_usage"%string := PyNone ]} (answering_probes 200) = Ok hd
    ∧ hd !! "overall_status"%string = Some (PyStr "critical")
    ∧ ping_status_of hd = Ok (PyStr "down").
Proof.
  apply (unanswered_ping_is_critical alert_thresholds
           (λ _, "2024-01-01T00:00:00"%string) (λ q, (q * 1000)%Q)
           (λ _, "error"%string)
           (mkServer 1 "localhost" "127.0.0.1" "generic") 0 (PingDelay 0)
           {[ "cpu_usage"%string := PyNone ]} (answering_probes 200)).
  - reflexivity.
  - intros text. discriminate.
  - intros _. reflexivity.
Defined.

Lemma remote_verdict_witness :
  ∃ hd,
    run_health_check alert_thresholds (λ _, "2024-01-01T00:00:00"%string)
      (λ q, (q * 1000)%Q) (λ _, "error"%string) web_server 0
      (PingDelay (1 # 100)) ∅ (answering_probes 500) = Ok hd
    ∧ hd !! "overall_status"%string = Some (PyStr "healthy").
Proof.
  apply (remote_verdict (λ _, "2024-01-01T00:00:00"%string)
           (λ q, (q * 1000)%Q) (λ _, "error"%string) web_server 0
           (PingDelay (1 # 100)) ∅ (answering_probes 500)).
  reflexivity.
Defined.

Example run_remote_500 :
  (hd ← run_health_check alert_thresholds (λ _, "2024-01-01T00:00:00"%string)
         (λ q, (q * 1000)%Q) (λ _, "error"%string) web_server 0
         (PingDelay (1 # 100)) ∅ (answering_probes 500);
   Ok (hd !! "overall_status"%string, http_status_of hd, ping_status_of hd,
       hd !! "dns_resolution"%string, hd !! "cpu_usage"%string))
  = Ok (Some (PyStr "healthy"), Ok (PyStr "unhealthy"), Ok (PyStr "up"),
        Some (PyStr "success"), None).
Proof. vm_compute. reflexivity. Qed.

(** ** Reports of the remote provider *)

(** X22: the report on a remote server holds one entry per common port,
    ['open'] exactly when [connect_ex] returned 0, ['closed'] for another
    result and the error text when the probe raised; it never holds a usage
    or a ['checks'] entry; and it holds either the result of the DNS
    resolution or an error text, never both and never neither. *)
Theorem remote_report (server : Server) (probes : remote_probes) :
  let metrics := get_remote_server_metrics server probes in
  metrics !! "port_checks"%string = Some (PyDict (port_checks probes))
  ∧ (∀ port, port ∈ common_ports →
       port_checks probes !! ("port_" +:+ pretty port)%string
       = Some (PyStr match connect probes port with
                     | Done result => if result =? 0 then "open" else "closed"
                     | Threw e => "error: " +:+ e
                     end))
  ∧ size (port_checks probes) = 5%nat
  ∧ (∀ k, k ∈ "checks"%string :: usages → metrics !! k = None)
  ∧ (metrics !! "dns_resolution"%string = None
     ↔ metrics !! "error"%string ≠ None).
Proof.
  intros metrics. subst metrics. split; [| split; [| split; [| split]]].
  - unfold get_remote_server_metrics. generalize (port_checks probes).
    intros ports.
    destruct (bool_decide _); [destruct (http_get probes) |];
      destruct (gethostbyname probes); reflexivity.
  - intros port Hin. unfold common_ports in Hin.
    repeat (apply elem_of_cons in Hin as [-> | Hin]);
      [reflexivity .. | by apply elem_of_nil in Hin].
  - reflexivity.
  - intros k Hk. apply remote_metrics_unbound. unfold usages in Hk. set_solver.
  - unfold get_remote_server_metrics. generalize (port_checks probes).
    intros ports.
    destruct (bool_decide _); [destruct (http_get probes) |];
      destruct (gethostbyname probes); split; intros H; try done;
      try (exfalso; apply H; reflexivity).
Qed.

(** ** Storing the bundle of a remote server *)

Section RemoteStoreFacts.
Variable thresholds : gmap string Q.
Variable isoformat : Z → string.
Variable times_1000 : Q → Q.
Variable exn_text : pyexn → string.

Lemma remote_run_shape (server : Server) (now : Z) (ping : ping_attempt)
    (local_metrics : gmap string pyvalue) (probes : remote_probes) :
  is_local server = false →
  ∃ hd v,
    run_health_check thresholds isoformat times_1000 exn_text server now ping
                     local_metrics probes = Ok hd
    ∧ hd !! "overall_status"%string = Some (PyStr v)
    ∧ v ∈ [ "critical"%string; "warning"%string; "healthy"%string;
            "unhealthy"%string ]
    ∧ (hd !! "cpu_usage"%string = None ∧ hd !! "memory_usage"%string = None
       ∧ hd !! "disk_usage"%string = None ∧ hd !! "uptime"%string = None
       ∧ hd !! "network_latency"%string = None)
    ∧ (ping_entry ← py_get (dict_get hd "checks" (PyDict ∅)) "ping" (PyDict ∅);
       py_get ping_entry "response_time" PyNone)
      = Ok (recorded_latency times_1000 ping).
Proof.
  intros Hremote.
  assert (get_remote_server_metrics server probes !! "cpu_usage"%string = None)
    as M1 by (apply remote_metrics_unbound; set_solver).
  assert (get_remote_server_metrics server probes !! "memory_usage"%string = None)
    as M2 by (apply remote_metrics_unbound; set_solver).
  assert (get_remote_server_metrics server probes !! "disk_usage"%string = None)
    as M3 by (apply remote_metrics_unbound; set_solver).
  assert (get_remote_server_metrics server probes !! "uptime"%string = None)
    as M4 by (apply remote_metrics_unbound; set_solver).
  assert (get_remote_server_metrics server probes !! "network_latency"%string
          = None) as M5 by (apply remote_metrics_unbound; set_solver).
  assert (get_remote_server_metrics server probes !! "checks"%string = None)
    as M6 by (apply remote_metrics_unbound; set_solver).
  unfold run_health_check. rewrite Hremote.
  set (metrics := get_remote_server_metrics server probes) in *.
  set (hd0 := <["server_id"%string := _]> _).
  assert (∀ k, k ≠ "server_id"%string → k ≠ "hostname"%string →
               k ≠ "timestamp"%string → k ≠ "checks"%string →
               hd0 !! k = None) as Hhd0.
  { intros k ? ? ? ?. subst hd0. rewrite !lookup_insert_ne by done.
    apply lookup_empty. }
  assert (∀ C text,
            health_check_failed (metrics ∪ <["checks"%string := PyDict C]> hd0)
              text
            = Ok (<["overall_status"%string := PyStr "unhealthy"]>
                    (<["checks"%string :=
                         PyDict (<["error"%string := PyStr text]> C)]>
                       (metrics ∪ <["checks"%string := PyDict C]> hd0))))
    as Hfail.
  { intros C text. unfold health_check_failed.
    rewrite lookup_union_r by done. by rewrite lookup_insert_eq. }
  assert (∀ (C : gmap string pyvalue) (latency : pyvalue) status,
            C = {[ "ping"%string :=
                     PyDict (<["status"%string := status]>
                            (<["response_time"%string := latency]> ∅)) ]} →
            ∃ hd v,
              match assess_overall_health thresholds
                      (metrics ∪ <["checks"%string := PyDict C]> hd0) with
              | Ok verdict =>
                  Ok (<["overall_status"%string := PyStr verdict]>
                        (metrics ∪ <["checks"%string := PyDict C]> hd0))
              | Raise e =>
                  health_check_failed
                    (metrics ∪ <["checks"%string := PyDict C]> hd0) (exn_text e)
              end = Ok hd
              ∧ hd !! "overall_status"%string = Some (PyStr v)
              ∧ v ∈ [ "critical"%string; "warning"%string; "healthy"%string;
                      "unhealthy"%string ]
              ∧ (hd !! "cpu_usage"%string = None
                 ∧ hd !! "memory_usage"%string = None
                 ∧ hd !! "disk_usage"%string = None
                 ∧ hd !! "uptime"%string = None
                 ∧ hd !! "network_latency"%string = None)
              ∧ (ping_entry ← py_get (dict_get hd "checks" (PyDict ∅)) "ping"
                                     (PyDict ∅);
                 py_get ping_entry "response_time" PyNone) = Ok latency)
    as Hrun.
  { intros C latency status HC.
    destruct (assess_overall_health thresholds _) as [v|e] eqn:Hv.
    - eexists _, v. split; [done |]. split; [apply lookup_insert_eq |].
      split.
      { apply assess_verdicts in Hv as [-> | [-> | ->]];
          repeat first [apply list_elem_of_here | apply list_elem_of_further]. }
      split.
      + repeat split; rewrite lookup_insert_ne by done;
          rewrite lookup_union_r by done; rewrite lookup_insert_ne by done;
          by apply Hhd0.
      + subst C. unfold dict_get. rewrite lookup_insert_ne by done.
        rewrite lookup_union_r by done.
        rewrite lookup_insert_eq. simpl. unfold dict_get.
        rewrite lookup_singleton_eq. simpl. unfold dict_get.
        rewrite lookup_insert_ne by done. by rewrite lookup_insert_eq.
    - rewrite Hfail. eexists _, "unhealthy"%string.
      split; [done |]. split; [apply lookup_insert_eq |].
      split; [repeat first [apply list_elem_of_here | apply list_elem_of_further] |].
      split.
      + repeat split; rewrite !lookup_insert_ne by done;
          rewrite lookup_union_r by done; rewrite lookup_insert_ne by done;
          by apply Hhd0.
      + subst C. unfold dict_get. rewrite lookup_insert_ne by done.
        rewrite lookup_insert_eq. simpl. unfold dict_get.
        rewrite lookup_insert_ne by done. rewrite lookup_singleton_eq. simpl.
        unfold dict_get. rewrite lookup_insert_ne by done.
        by rewrite lookup_insert_eq. }
  destruct ping as [seconds | | | text];
    try (unfold recorded_latency; by eapply Hrun).
  unfold health_check_failed. subst hd0.
  rewrite lookup_insert_ne by done. rewrite lookup_insert_ne by done.
  rewrite lookup_insert_ne by done. rewrite lookup_insert_eq.
  eexists _, "unhealthy"%string. split; [done |].
  split; [apply lookup_insert_eq |].
  split; [repeat first [apply list_elem_of_here | apply list_elem_of_further] |].
  split.
  - repeat split; rewrite !lookup_insert_ne by done; apply lookup_empty.
  - reflexivity.
Qed.
(** X23: for a remote server [run_health_check] always returns, and
    storing its bundle always succeeds: one row is appended whose status is
    the verdict of the bundle (never the default ['unknown']), whose usages
    and uptime are [None], whose latency is the delay of the ping in
    milliseconds when the ping was answered and [None] otherwise, and which
    keeps the whole bundle as raw data. *)
Theorem remote_check_is_stored (server : Server) (now now' : Z)
    (ping : ping_attempt) (local_metrics : gmap string pyvalue)
    (probes : remote_probes) (table : list HealthCheck) :
  is_local server = false →
  ∃ hd v row,
    run_health_check thresholds isoformat times_1000 exn_text server now ping
                     local_metrics probes = Ok hd
    ∧ store_health_check (srv_id server) hd table now' = Ok (table ++ [row])
    ∧ hd !! "overall_status"%string = Some (PyStr v)
    ∧ hc_status row = PyStr v ∧ v ≠ "unknown"%string
    ∧ hc_cpu_usage row = PyNone ∧ hc_memory_usage row = PyNone
    ∧ hc_disk_usage row = PyNone ∧ hc_uptime row = PyNone
    ∧ hc_network_latency row = recorded_latency times_1000 ping
    ∧ hc_raw_data row = Some hd ∧ hc_server_id row = srv_id server
    ∧ hc_checked_at row = now'.
Proof.
  intros Hremote.
  destruct (remote_run_shape server now ping local_metrics probes Hremote)
    as (hd & v & Hrun & Hv & Hin & (H1 & H2 & H3 & H4 & H5) & Hlat).
  exists hd, v. eexists. split; [exact Hrun |].
  unfold store_health_check.
  destruct (py_get (dict_get hd "checks" (PyDict ∅)) "ping" (PyDict ∅))
    as [entry|]; simpl in Hlat |- *; [| discriminate].
  rewrite Hlat. simpl. split; [reflexivity |]. simpl.
  unfold dict_get. rewrite Hv, H1, H2, H3, H4. simpl.
  repeat split; try done.
  intros ->. repeat (apply elem_of_cons in Hin as [? | Hin]; [discriminate |]).
  by apply elem_of_nil in Hin.
Qed.

(** X24: the request handler [get_server_health] cannot build its row for a
    remote server: the bundle [run_health_check] returns for it holds no
    ['cpu_usage'], so the subscript raises [KeyError] whatever the probes
    answered. *)
Theorem handler_fails_on_remote_servers (server : Server) (now now' : Z)
    (ping : ping_attempt) (local_metrics : gmap string pyvalue)
    (probes : remote_probes) :
  is_local server = false →
  ∃ hd,
    run_health_check thresholds isoformat times_1000 exn_text server now ping
                     local_metrics probes = Ok hd
    ∧ get_server_health_row (srv_id server) hd now' = Raise KeyError.
Proof.
  intros Hremote.
  destruct (remote_run_shape server now ping local_metrics probes Hremote)
    as (hd & v & Hrun & _ & _ & (H1 & _) & _).
  exists hd. split; [exact Hrun |].
  unfold get_server_health_row, item. by rewrite H1.
Qed.
End RemoteStoreFacts.

Lemma remote_check_is_stored_witness :
  ∃ hd v row,
    run_health_check alert_thresholds (λ _, "2024-01-01T00:00:00"%string)
      (λ q, (q * 1000)%Q) (λ _, "error"%string) web_server 0
      (PingDelay (1 # 100)) ∅ (answering_probes 500) = Ok hd
    ∧ store_health_check (srv_id web_server) hd [] 1 = Ok ([] ++ [row])
    ∧ hd !! "overall_status"%string = Some (PyStr v)
    ∧ hc_status row = PyStr v ∧ v ≠ "unknown"%string
    ∧ hc_cpu_usage row = PyNone ∧ hc_memory_usage row = PyNone
    ∧ hc_disk_usage row = PyNone ∧ hc_uptime row = PyNone
    ∧ hc_network_latency row
      = recorded_latency (λ q, (q * 1000)%Q) (PingDelay (1 # 100))
    ∧ hc_raw_data row = Some hd ∧ hc_server_id row = srv_id web_server
    ∧ hc_checked_at row = 1.
Proof.
  apply (remote_check_is_stored alert_thresholds
           (λ _, "2024-01-01T00:00:00"%string) (λ q, (q * 1000)%Q)
           (λ _, "error"%string) web_server 0 1 (PingDelay (1 # 100)) ∅
           (answering_probes 500) []).
  reflexivity.
Defined.

Lemma handler_fails_on_remote_servers_witness :
  ∃ hd,
    run_health_check alert_thresholds (λ _, "2024-01-01T00:00:00"%string)
      (λ q, (q * 1000)%Q) (λ _, "error"%string) web_server 0
      (PingDelay (1 # 100)) ∅ (answering_probes 200) = Ok hd
    ∧ get_server_health_row (srv_id web_server) hd 1 = Raise KeyError.
Proof.
  apply (handler_fails_on_remote_servers alert_thresholds
           (λ _, "2024-01-01T00:00:00"%string) (λ q, (q * 1000)%Q)
           (λ _, "error"%string) web_server 0 1 (PingDelay (1 # 100)) ∅
           (answering_probes 200)).
  reflexivity.
Defined.

(** ** A provider that measured nothing *)

Section SilentProviderFacts.
Variable isoformat : Z → string.
Variable times_1000 : Q → Q.
Variable exn_text : pyexn → string.

(** X25: when the ping of a local server was answered and the local
    metrics provider measured no usage (it failed at once and returned only
    an error text, say), the check still ends with the verdict healthy: the
    missing usages count as 0 and the error text is not read. *)
Theorem silent_provider_is_healthy (server : Server) (now : Z)
    (ping : ping_attempt) (local_metrics : gmap string pyvalue)
    (probes : remote_probes) :
  is_local server = true →
  ping_truthy ping = true →
  Forall (λ k, local_metrics !! k = None)
    ("checks"%string :: "http_check"%string :: usages) →
  ∃ hd,
    run_health_check alert_thresholds isoformat times_1000 exn_text server now
                     ping local_metrics probes = Ok hd
    ∧ hd !! "overall_status"%string = Some (PyStr "healthy").
Proof.
  intros Hlocal Htruthy Hnone. unfold usages in Hnone.
  apply Forall_cons in Hnone as [Hchecks Hnone].
  apply Forall_cons in Hnone as [Hhttp Hnone].
  apply Forall_cons in Hnone as [Hcpu Hnone].
  apply Forall_cons in Hnone as [Hmem Hnone].
  apply Forall_cons in Hnone as [Hdisk _].
  unfold run_health_check. rewrite Hlocal.
  destruct ping as [seconds | | | text]; try discriminate.
  rewrite Htruthy.
  set (hd0 := <["server_id"%string := _]> _).
  assert (∀ k, k ≠ "server_id"%string → k ≠ "hostname"%string →
               k ≠ "timestamp"%string → k ≠ "checks"%string →
               hd0 !! k = None) as Hhd0.
  { intros k ? ? ? ?. subst hd0. rewrite !lookup_insert_ne by done.
    apply lookup_empty. }
  erewrite (within_limits_healthy_aux _ (PyStr "up") PyNone 0 0 0).
  - eexists. split; [reflexivity |]. apply lookup_insert_eq.
  - by apply ping_status_recorded.
  - discriminate.
  - unfold http_status_of, dict_get. rewrite lookup_union_r by done.
    rewrite lookup_insert_ne by done. rewrite Hhd0 by done. reflexivity.
  - discriminate.
  - unfold usages_are, dict_get.
    repeat split; rewrite lookup_union_r by done;
      rewrite lookup_insert_ne by done; rewrite Hhd0 by done; reflexivity.
  - reflexivity.
  - reflexivity.
Qed.
End SilentProviderFacts.

Lemma silent_provider_is_healthy_witness :
  ∃ hd,
    run_health_check alert_thresholds (λ _, "2024-01-01T00:00:00"%string)
      (λ q, (q * 1000)%Q) (λ _, "error"%string)
      (mkServer 1 "localhost" "127.0.0.1" "generic") 0 (PingDelay (1 # 1000))
      {[ "error"%string := PyStr "psutil is not available" ]}
      (answering_probes 200) = Ok hd
    ∧ hd !! "overall_status"%string = Some (PyStr "healthy").
Proof.
  apply (silent_provider_is_healthy (λ _, "2024-01-01T00:00:00"%string)
           (λ q, (q * 1000)%Q) (λ _, "error"%string)
           (mkServer 1 "localhost" "127.0.0.1" "generic") 0
           (PingDelay (1 # 1000))
           {[ "error"%string := PyStr "psutil is not available" ]}
           (answering_probes 200)).
  - reflexivity.
  - reflexivity.
  - unfold usages. repeat (apply Forall_cons; split; [reflexivity |]).
    by apply Forall_nil.
Defined.

(** ** Critical before warning *)

Section PrecedenceFacts.
Variable updated_at_default : option Z.

Lemma create_alert_added db sid sev msg kwargs now1 now2 i a' :
  (create_alert updated_at_default db sid sev msg kwargs now1 now2).1 !! i
  = Some a' →
  (length db ≤ i)%nat →
  severity a' = sev ∧ message a' = msg
  ∧ metric a' = dict_get kwargs "metric" PyNone
  ∧ value a' = dict_get kwargs "value" PyNone.
Proof.
  destruct (existing_alert db sid msg now1) as [[i0 a0]|] eqn:H.
  - rewrite (create_alert_found _ _ _ _ _ _ _ _ _ _ H). simpl.
    intros Hi Hge. apply lookup_lt_Some in Hi. rewrite length_insert in Hi. lia.
  - rewrite (create_alert_fresh _ _ _ _ _ _ _ _ H). simpl.
    intros Hi Hge. apply lookup_app_Some in Hi as [Hi | [_ Hi]].
    + apply lookup_lt_Some in Hi. lia.
    + apply list_lookup_singleton_Some in Hi as [_ <-]. done.
Qed.

Lemma create_alert_frame db sid sev msg kwargs now1 now2 i a :
  db !! i = Some a → message a ≠ msg →
  (create_alert updated_at_default db sid sev msg kwargs now1 now2).1 !! i
  = Some a.
Proof.
  intros Hi Hne.
  destruct (existing_alert db sid msg now1) as [[i0 a0]|] eqn:H.
  - rewrite (create_alert_found _ _ _ _ _ _ _ _ _ _ H). simpl.
    apply existing_alert_Some in H as [Hi0 (_ & Hm & _)].
    rewrite list_lookup_insert_ne; [done |]. intros <-. congruence.
  - rewrite (create_alert_fresh _ _ _ _ _ _ _ _ H). simpl.
    rewrite lookup_app_l; [done |]. by eapply lookup_lt_Some.
Qed.

(** Every entry of the list reaches the table: after the loop the table
    holds an active alert of the server with the entry's message. *)
Lemma create_alerts_reaches sid l : ∀ db utcnow ad,
  ad ∈ l →
  ∃ i a, create_alerts updated_at_default db sid l utcnow !! i = Some a
         ∧ server_id a = sid ∧ message a = ad_message ad
         ∧ status a = "active"%string.
Proof.
  induction l as [| ad0 l IH]; intros db utcnow ad Hin.
  { by apply elem_of_nil in Hin. }
  simpl. set (kwargs := <["value"%string := ad_value ad0]> _).
  apply elem_of_cons in Hin as [-> | Hin]; [| by apply IH].
  destruct (create_alert_returns_match updated_at_default db sid
              (ad_severity ad0) (ad_message ad0) kwargs
              (utcnow 0%nat) (utcnow 1%nat)) as (Hmem & Hs & Hm & Ha).
  set (r := create_alert _ db sid _ _ kwargs _ _) in *.
  apply list_elem_of_lookup in Hmem as [i Hi].
  destruct (create_alerts_rows updated_at_default sid l r.1
              (λ k, utcnow (2 + k)%nat)) as (_ & Hkeep & _).
  destruct (Hkeep i _ Hi) as (a' & Hi' & (S1 & _ & S3 & S4 & _) & _).
  exists i, a'. split; [exact Hi' |]. split; [congruence |].
  split; congruence.
Qed.

(** Every row the loop adds comes from an entry of the list. *)
Lemma create_alerts_added sid l : ∀ db utcnow i a',
  create_alerts updated_at_default db sid l utcnow !! i = Some a' →
  (length db ≤ i)%nat →
  ∃ ad, ad ∈ l ∧ severity a' = ad_severity ad ∧ message a' = ad_message ad
        ∧ metric a' = PyStr (ad_metric ad) ∧ value a' = ad_value ad.
Proof.
  induction l as [| ad0 l IH]; intros db utcnow i a' Hi Hge; simpl in Hi.
  { apply lookup_lt_Some in Hi. lia. }
  set (kwargs := <["value"%string := ad_value ad0]> _) in Hi.
  set (db1 := (create_alert _ db sid _ _ kwargs _ _).1) in *.
  destruct (decide (length db1 ≤ i)%nat) as [Hi1 | Hi1].
  - destruct (IH db1 _ i a' Hi Hi1) as (ad & Hin & Hrest).
    exists ad. split; [by apply list_elem_of_further | exact Hrest].
  - destruct (db1 !! i) as [a1|] eqn:E1.
    2: { apply lookup_ge_None in E1. lia. }
    destruct (create_alert_added db sid _ _ kwargs _ _ i a1 E1 Hge)
      as (Hsev & Hmsg & Hmet & Hval).
    destruct (create_alerts_rows updated_at_default sid l db1
                (λ k, utcnow (2 + k)%nat)) as (_ & Hkeep & _).
    destruct (Hkeep i a1 E1) as (a2 & Hi2 & (_ & S2 & S3 & _ & S5 & S6 & _) & _).
    pose proof (eq_trans (eq_sym Hi) Hi2) as E. injection E as ->.
    exists ad0. split; [apply list_elem_of_here |].
    split; [congruence |]. split; [congruence |].
    split; [rewrite <- S5, Hmet; reflexivity
           | rewrite <- S6, Hval; reflexivity].
Qed.

(** A row whose message is the message of no entry is left as it was. *)
Lemma create_alerts_frame sid l : ∀ db utcnow i a,
  db !! i = Some a →
  (∀ ad, ad ∈ l → ad_message ad ≠ message a) →
  create_alerts updated_at_default db sid l utcnow !! i = Some a.
Proof.
  induction l as [| ad0 l IH]; intros db utcnow i a Hi Hne; simpl; [done |].
  apply IH.
  - apply create_alert_frame; [done |]. intros E. apply (Hne ad0); [| done].
    apply list_elem_of_here.
  - intros ad Hin. apply Hne. by apply list_elem_of_further.
Qed.

(** C5: when a tracked usage was measured above its critical limit, the
    alerts [check_health_thresholds] raises hold exactly one entry for that
    usage, of severity critical, and no warning entry comes with it; the
    loop hands every entry to [create_alert], so that afterwards the table
    holds an active alert of the server with the critical message, every row
    added for that usage is that critical alert, and a row whose message is
    the message of no entry (an earlier warning for the same usage, say) is
    left as it was. *)
Theorem critical_alert_only (thresholds : gmap string Q)
    (health_data : gmap string pyvalue) (usage crit_key : string) (q t : Q)
    (l : list alert_data) (sid : Z) (db : list Alert) (utcnow : nat → Z) :
  (usage, crit_key) ∈ tracked →
  health_data !! usage = Some (PyNum q) →
  thresholds !! crit_key = Some t →
  (t < q)%Q →
  alerts_to_create thresholds health_data = Ok l →
  ∃ msg db',
    filter (λ ad, ad_metric ad = usage) l
    = [AlertData "critical" msg usage (PyNum q)]
    ∧ check_health_thresholds updated_at_default thresholds sid health_data
        db utcnow = Ok db'
    ∧ db' = create_alerts updated_at_default db sid l utcnow
    ∧ (∃ i a, db' !! i = Some a ∧ server_id a = sid ∧ message a = msg
              ∧ status a = "active"%string)
    ∧ (∀ i a, db' !! i = Some a → (length db ≤ i)%nat →
              metric a = PyStr usage →
              severity a = "critical"%string ∧ message a = msg
              ∧ value a = PyNum q)
    ∧ (∀ i a, db !! i = Some a →
              (∀ ad, ad ∈ l → ad_message ad ≠ message a) →
              db' !! i = Some a).
Proof.
  intros Hin Hq Ht Hlt Hl.
  destruct (critical_entry_only thresholds health_data usage crit_key q t l
              Hin Hq Ht Hlt Hl) as [msg Hf].
  exists msg, (create_alerts updated_at_default db sid l utcnow).
  split; [exact Hf |].
  split; [unfold check_health_thresholds; by rewrite Hl |].
  split; [reflexivity |].
  assert (∀ ad, ad ∈ l → ad_metric ad = usage →
                ad = AlertData "critical" msg usage (PyNum q)) as Honly.
  { intros ad Hmem Hmet.
    assert (ad ∈ filter (λ ad, ad_metric ad = usage) l) as Hfm
      by (by apply list_elem_of_filter).
    rewrite Hf in Hfm. by apply list_elem_of_singleton in Hfm. }
  split; [| split].
  - assert (AlertData "critical" msg usage (PyNum q) ∈ l) as Hmem.
    { assert (AlertData "critical" msg usage (PyNum q)
              ∈ filter (λ ad, ad_metric ad = usage) l) as Hfm
        by (rewrite Hf; apply list_elem_of_here).
      by apply list_elem_of_filter in Hfm as [_ ?]. }
    apply (create_alerts_reaches sid l db utcnow _ Hmem).
  - intros i a Hi Hge Hmet.
    destruct (create_alerts_added sid l db utcnow i a Hi Hge)
      as (ad & Hmem & Hsev & Hmsg & Hm & Hval).
    rewrite Hm in Hmet. injection Hmet as Hmet.
    rewrite (Honly ad Hmem Hmet) in Hsev, Hmsg, Hval. done.
  - intros i a Hi Hne. by apply create_alerts_frame.
Qed.
End PrecedenceFacts.

Lemma critical_alert_only_witness :
  ∃ msg db',
    filter (λ ad, ad_metric ad = "cpu_usage"%string)
      [AlertData "critical" "CPU usage critical: 92.0%" "cpu_usage"
                 (PyNum 92%Q)]
    = [AlertData "critical" msg "cpu_usage" (PyNum 92%Q)]
    ∧ check_health_thresholds None alert_thresholds 7 (bundle "up" 92 20 30)
        warned_before (λ _, 5 * minute) = Ok db'
    ∧ db' = create_alerts None warned_before 7
              [AlertData "critical" "CPU usage critical: 92.0%" "cpu_usage"
                         (PyNum 92%Q)] (λ _, 5 * minute)
    ∧ (∃ i a, db' !! i = Some a ∧ server_id a = 7 ∧ message a = msg
              ∧ status a = "active"%string)
    ∧ (∀ i a, db' !! i = Some a → (length warned_before ≤ i)%nat →
              metric a = PyStr "cpu_usage" →
              severity a = "critical"%string ∧ message a = msg
              ∧ value a = PyNum 92%Q)
    ∧ (∀ i a, warned_before !! i = Some a →
              (∀ ad, ad ∈ [AlertData "critical" "CPU usage critical: 92.0%"
                                     "cpu_usage" (PyNum 92%Q)] →
                     ad_message ad ≠ message a) →
              db' !! i = Some a).
Proof.
  apply (critical_alert_only None alert_thresholds (bundle "up" 92 20 30)
           "cpu_usage" "cpu_critical" 92%Q 90%Q
           [AlertData "critical" "CPU usage critical: 92.0%" "cpu_usage"
                      (PyNum 92%Q)]
           7 warned_before (λ _, 5 * minute)).
  - unfold tracked. apply list_elem_of_here.
  - reflexivity.
  - reflexivity.
  - reflexivity.
  - vm_compute. reflexivity.
Defined.
